(** * NV2A shader generator (hw/xbox/nv2a/shaders.c): model and properties

    A shallow embedding of the text-producing part of the NV2A shader
    generator.  Text buffers ([MString]) are strings, and [assert] and
    [abort] are an explicit [Aborted] outcome that carries the source line.
    The code that appends to the two buffers [header] and [body] is a
    sequence of steps, each a function from the pair of buffers to the
    outcome of the step.  What shaders.c takes from its headers, from the C
    library, from the OpenGL driver and from the two external translators
    is a variable of the section [Generator].

    To read the emitted GLSL back, the file has a lexer and a parser for
    the statements that the generator emits, and two interpreters over the
    parsed syntax: one runs the [main] body of a geometry-stage program on
    a primitive id and records the emitted vertices, the other runs float
    code over any arithmetic, the reals among them. *)

From Stdlib Require Import ZArith String Ascii DecimalString Decimal Bool Reals Lra Lia.
From Stdlib Require DecimalZ DecimalPos.
From stdpp Require Import base list strings.

Open Scope string_scope.
Open Scope Z_scope.

(** ** C string literals and formatted output *)

Definition newline : ascii := "010"%char.

(** The C compiler replaces the escape sequence backslash-n of a string
    literal by a line feed; the literals of shaders.c use no other escape. *)
Fixpoint c_str (s : string) : string :=
  match s with
  | String "\" (String "n" r) => String newline (c_str r)
  | String c r => String c (c_str r)
  | EmptyString => EmptyString
  end.

(** Text buffers.  [mstring_append] appends at the end. *)
Definition MString := string.

Definition mstring_new : MString := "".
Definition mstring_from_str (s : string) : MString := s.
Definition mstring_get_str (m : MString) : string := m.
Definition mstring_append (m : MString) (s : string) : MString := m +:+ s.

(** [%d] conversion. *)
Definition fmt_d (n : Z) : string := NilZero.string_of_int (Z.to_int n).

(** ["xyzw"[i]] and the like; the generator only indexes inside the
    literal, outside it the model yields NUL. *)
Definition char_at (s : string) (i : nat) : ascii :=
  match String.get i s with
  | Some c => c
  | None => "000"%char
  end.

(** Outcome of a run: a value, or the process has been killed by a failed
    [assert] (identified by its line in shaders.c) or by [abort()]. *)
Inductive abort_site :=
| AssertFailed (line : nat)
| CompileFailed (name : string)
| LinkFailed
| ValidateFailed.

Inductive outcome (A : Type) :=
| Done (a : A)
| Aborted (site : abort_site).
Arguments Done {A} a.
Arguments Aborted {A} site.

Definition obind {A B} (o : outcome A) (k : A -> outcome B) : outcome B :=
  match o with
  | Done a => k a
  | Aborted s => Aborted s
  end.

Definition assert_ (line : nat) (cond : bool) : outcome unit :=
  if cond then Done tt else Aborted (AssertFailed line).

(** ** Enumerations of shaders.h, as far as shaders.c names them *)

Inductive ShaderPolygonMode := POLY_MODE_FILL | POLY_MODE_POINT | POLY_MODE_LINE.

(** [PRIM_TYPE_other] stands for any value of the C enumeration that the
    switch of [generate_geometry_shader] does not name and that therefore
    takes its [default:] arm. *)
Inductive ShaderPrimitiveMode :=
| PRIM_TYPE_POINTS | PRIM_TYPE_LINES | PRIM_TYPE_LINE_LOOP | PRIM_TYPE_LINE_STRIP
| PRIM_TYPE_TRIANGLES | PRIM_TYPE_TRIANGLE_STRIP | PRIM_TYPE_TRIANGLE_FAN
| PRIM_TYPE_QUADS | PRIM_TYPE_QUAD_STRIP | PRIM_TYPE_POLYGON
| PRIM_TYPE_other.

Inductive GLenum :=
| GL_POINTS | GL_LINES | GL_LINE_LOOP | GL_LINE_STRIP
| GL_TRIANGLES | GL_TRIANGLE_STRIP | GL_TRIANGLE_FAN
| GL_LINES_ADJACENCY | GL_LINE_STRIP_ADJACENCY.

Inductive Skinning :=
| SKINNING_OFF | SKINNING_1WEIGHTS | SKINNING_2WEIGHTS2MATRICES
| SKINNING_2WEIGHTS | SKINNING_3WEIGHTS3MATRICES | SKINNING_3WEIGHTS
| SKINNING_4WEIGHTS4MATRICES.

Inductive TexGen :=
| TEXGEN_DISABLE | TEXGEN_EYE_LINEAR | TEXGEN_OBJECT_LINEAR
| TEXGEN_SPHERE_MAP | TEXGEN_REFLECTION_MAP | TEXGEN_NORMAL_MAP.

Inductive MaterialColorSource :=
| MATERIAL_COLOR_SRC_MATERIAL | MATERIAL_COLOR_SRC_DIFFUSE | MATERIAL_COLOR_SRC_SPECULAR.

Inductive Light := LIGHT_OFF | LIGHT_INFINITE | LIGHT_LOCAL | LIGHT_SPOT.

Inductive FogGen :=
| FOGGEN_SPEC_ALPHA | FOGGEN_RADIAL | FOGGEN_PLANAR | FOGGEN_ABS_PLANAR | FOGGEN_FOG_X.

Inductive FogMode :=
| FOG_MODE_LINEAR | FOG_MODE_LINEAR_ABS | FOG_MODE_EXP | FOG_MODE_EXP_ABS
| FOG_MODE_EXP2 | FOG_MODE_EXP2_ABS.

#[global] Instance ShaderPolygonMode_eq_dec : EqDecision ShaderPolygonMode.
Proof. solve_decision. Defined.
#[global] Instance ShaderPrimitiveMode_eq_dec : EqDecision ShaderPrimitiveMode.
Proof. solve_decision. Defined.
#[global] Instance Skinning_eq_dec : EqDecision Skinning.
Proof. solve_decision. Defined.
#[global] Instance TexGen_eq_dec : EqDecision TexGen.
Proof. solve_decision. Defined.
#[global] Instance MaterialColorSource_eq_dec : EqDecision MaterialColorSource.
Proof. solve_decision. Defined.
#[global] Instance Light_eq_dec : EqDecision Light.
Proof. solve_decision. Defined.
#[global] Instance FogGen_eq_dec : EqDecision FogGen.
Proof. solve_decision. Defined.
#[global] Instance FogMode_eq_dec : EqDecision FogMode.
Proof. solve_decision. Defined.

(** Macros of headers that shaders.c includes and only uses through
    [stringify] or as a loop bound. *)
Inductive macro :=
| NV2A_VERTEXSHADER_CONSTANTS | NV2A_LTCTXA_COUNT | NV2A_LTCTXB_COUNT | NV2A_LTC1_COUNT
| NV_IGRAPH_XF_XFCTX_PMAT0 | NV_IGRAPH_XF_XFCTX_CMAT0
| NV_IGRAPH_XF_XFCTX_TG0MAT | NV_IGRAPH_XF_XFCTX_TG1MAT
| NV_IGRAPH_XF_XFCTX_TG2MAT | NV_IGRAPH_XF_XFCTX_TG3MAT
| NV_IGRAPH_XF_XFCTX_MMAT0 | NV_IGRAPH_XF_XFCTX_MMAT1
| NV_IGRAPH_XF_XFCTX_MMAT2 | NV_IGRAPH_XF_XFCTX_MMAT3
| NV_IGRAPH_XF_XFCTX_IMMAT0 | NV_IGRAPH_XF_XFCTX_IMMAT1
| NV_IGRAPH_XF_XFCTX_IMMAT2 | NV_IGRAPH_XF_XFCTX_IMMAT3
| NV_IGRAPH_XF_XFCTX_EYEP | NV_IGRAPH_XF_XFCTX_FOG
| NV_IGRAPH_XF_XFCTX_T0MAT | NV_IGRAPH_XF_XFCTX_T1MAT
| NV_IGRAPH_XF_XFCTX_T2MAT | NV_IGRAPH_XF_XFCTX_T3MAT
| NV_IGRAPH_XF_LTCTXB_L0_AMB | NV_IGRAPH_XF_LTCTXB_L0_DIF | NV_IGRAPH_XF_LTCTXB_L0_SPC
| NV_IGRAPH_XF_LTCTXA_L0_K | NV_IGRAPH_XF_LTCTXA_L0_SPT
| NV_IGRAPH_XF_LTC1_r0
| NV_IGRAPH_XF_LTCTXA_FR_AMB | NV_IGRAPH_XF_LTCTXA_CM_COL.

(** Modelled from the spec: the sizes that shaders.h gives to the
    per-stage, per-light and per-attribute arrays (four texture stages,
    eight lights, sixteen vertex attributes v0..v15). *)
Definition NV2A_MAX_TEXTURES : nat := 4.
Definition NV2A_MAX_LIGHTS : nat := 8.
Definition NV2A_VERTEXSHADER_ATTRIBUTES : nat := 16.

(** ** The shader state

    The fields of [ShaderState] that shaders.c reads.  A C array field is
    the function from the index to the element; the generator reads it
    below the array's size only.  [float] is the C type of that name and
    [PshState] the state of the register combiners, which only the
    fragment-stage translator looks into. *)
Record ShaderState (float PshState : Type) := {
  psh : PshState;
  compressed_attrs : Z;
  texture_matrix_enable : nat -> bool;
  texgen : nat -> nat -> TexGen;
  fog_enable : bool;
  foggen : FogGen;
  fog_mode : FogMode;
  skinning : Skinning;
  normalization : bool;
  lighting : bool;
  light : nat -> Light;
  ambient_src : MaterialColorSource;
  emission_src : MaterialColorSource;
  surface_scale_factor : Z;
  fixed_function : bool;
  vertex_program : bool;
  z_perspective : bool;
  program_data : list Z;
  program_length : Z;
  polygon_front_mode : ShaderPolygonMode;
  polygon_back_mode : ShaderPolygonMode;
  primitive_mode : ShaderPrimitiveMode;
  point_params_enable : bool;
  point_size : float;
  point_params : nat -> float
}.

Arguments psh {float PshState} s.
Arguments compressed_attrs {float PshState} s.
Arguments texture_matrix_enable {float PshState} s.
Arguments texgen {float PshState} s.
Arguments fog_enable {float PshState} s.
Arguments foggen {float PshState} s.
Arguments fog_mode {float PshState} s.
Arguments skinning {float PshState} s.
Arguments normalization {float PshState} s.
Arguments lighting {float PshState} s.
Arguments light {float PshState} s.
Arguments ambient_src {float PshState} s.
Arguments emission_src {float PshState} s.
Arguments surface_scale_factor {float PshState} s.
Arguments fixed_function {float PshState} s.
Arguments vertex_program {float PshState} s.
Arguments z_perspective {float PshState} s.
Arguments program_data {float PshState} s.
Arguments program_length {float PshState} s.
Arguments polygon_front_mode {float PshState} s.
Arguments polygon_back_mode {float PshState} s.
Arguments primitive_mode {float PshState} s.
Arguments point_params_enable {float PshState} s.
Arguments point_size {float PshState} s.
Arguments point_params {float PshState} s.

(** ** Reading the emitted GLSL back

    A lexer and a recursive-descent parser for the statements that the
    generator emits, so that properties of the emitted programs can be
    stated on their syntax trees and on what they compute, and not on the
    characters of the text. *)
Module Glsl.

Inductive token :=
| TId (s : string)
| TNum (s : string)
| TSym (s : string).

#[global] Instance token_eq_dec : EqDecision token.
Proof. solve_decision. Defined.

Definition is_digit (c : ascii) : bool :=
  let n := nat_of_ascii c in ((48 <=? n) && (n <=? 57))%nat.

Definition is_alpha (c : ascii) : bool :=
  let n := nat_of_ascii c in
  (((65 <=? n) && (n <=? 90)) || ((97 <=? n) && (n <=? 122)) || (n =? 95))%nat.

Definition is_space (c : ascii) : bool :=
  let n := nat_of_ascii c in ((n =? 32) || (n =? 10) || (n =? 9) || (n =? 13))%nat.

Definition starts_with_digit (w : string) : bool :=
  match w with
  | String c _ => is_digit c
  | EmptyString => false
  end.

(** The word read so far becomes a number or an identifier. *)
Definition flush (w : string) : list token :=
  match w with
  | EmptyString => []
  | String c _ => if is_digit c then [TNum w] else [TId w]
  end.

Definition two_char_sym (c d : ascii) : bool :=
  let s := String c (String d "") in
  bool_decide (s ∈ ["=="; "!="; "<="; ">="; "+="; "-="; "*="; "/="; "&&"; "||"]).

(** [lex in_comment w s]: the tokens of [s], where [w] is the word being
    read; a dot continues a number and is a symbol of its own after an
    identifier; comments are skipped. *)
Fixpoint lex (in_comment : bool) (w : string) (s : string) : list token :=
  match s with
  | EmptyString => flush w
  | String c r =>
      if in_comment then
        match r with
        | String d r' =>
            if (Ascii.eqb c "*" && Ascii.eqb d "/")%bool then lex false "" r'
            else lex true "" r
        | EmptyString => []
        end
      else if (is_alpha c || is_digit c)%bool then lex false (w +:+ String c "") r
      else if (Ascii.eqb c "." && starts_with_digit w)%bool then lex false (w +:+ ".") r
      else
        flush w ++
        (if is_space c then lex false "" r
         else
           match r with
           | String d r' =>
               if (Ascii.eqb c "/" && Ascii.eqb d "*")%bool then lex true "" r'
               else if two_char_sym c d then TSym (String c (String d "")) :: lex false "" r'
               else TSym (String c "") :: lex false "" r
           | EmptyString => [TSym (String c "")]
           end)
  end.

Definition tokens (s : string) : list token := lex false "" s.

(** Whether the identifier [name] occurs in the text [s]. *)
Definition mentions (name : string) (s : string) : bool :=
  bool_decide (TId name ∈ tokens s).

(** *** Syntax *)

#[warnings="-register-all"]
Inductive expr :=
| EId (x : string)
| ENum (lit : string)
| EUn (op : string) (e : expr)
| EBin (op : string) (a b : expr)
| ECall (f : string) (args : list expr)
| EField (e : expr) (field : string)
| EIndex (e : expr) (i : expr).

#[warnings="-register-all"]
Inductive stmt :=
| SDecl (ty x : string) (init : option expr)
| SAssign (lhs : expr) (op : string) (rhs : expr)
| SExpr (e : expr)
| SIf (c : expr) (th : stmt) (el : option stmt)
| SBlock (body : list stmt)
| SReturn.

(** Binary operators with their C precedence (larger binds tighter). *)
Definition binprec (op : string) : option nat :=
  if bool_decide (op = "||") then Some 1%nat
  else if bool_decide (op = "&&") then Some 2%nat
  else if bool_decide (op = "&") then Some 3%nat
  else if bool_decide (op ∈ ["=="; "!="]) then Some 4%nat
  else if bool_decide (op ∈ ["<"; ">"; "<="; ">="]) then Some 5%nat
  else if bool_decide (op ∈ ["+"; "-"]) then Some 6%nat
  else if bool_decide (op ∈ ["*"; "/"]) then Some 7%nat
  else None.

Definition is_assign_op (op : string) : bool :=
  bool_decide (op ∈ ["="; "+="; "-="; "*="; "/="]).

Definition expect (sym : string) (ts : list token) : option (list token) :=
  match ts with
  | TSym s :: r => if bool_decide (s = sym) then Some r else None
  | _ => None
  end.

(** Expressions by precedence climbing; [fuel] bounds the depth of the
    recursion and [parse_expr fuel min ts] reads an expression all of whose
    top-level operators have precedence at least [min]. *)
Fixpoint parse_expr (fuel : nat) (min : nat) (ts : list token) : option (expr * list token) :=
  match fuel with
  | O => None
  | S f =>
      '(lhs, r) ← parse_unary f ts;
      climb f min lhs r
  end
with climb (fuel : nat) (min : nat) (lhs : expr) (ts : list token) : option (expr * list token) :=
  match fuel with
  | O => None
  | S f =>
      match ts with
      | TSym op :: r =>
          match binprec op with
          | Some p =>
              if (min <=? p)%nat then
                '(rhs, r') ← parse_expr f (S p) r;
                climb f min (EBin op lhs rhs) r'
              else Some (lhs, ts)
          | None => Some (lhs, ts)
          end
      | _ => Some (lhs, ts)
      end
  end
with parse_unary (fuel : nat) (ts : list token) : option (expr * list token) :=
  match fuel with
  | O => None
  | S f =>
      match ts with
      | TSym op :: r =>
          if bool_decide (op ∈ ["-"; "!"]) then
            '(e, r') ← parse_unary f r;
            Some (EUn op e, r')
          else
            '(a, r') ← parse_atom f ts;
            postfix f a r'
      | _ =>
          '(a, r') ← parse_atom f ts;
          postfix f a r'
      end
  end
with parse_atom (fuel : nat) (ts : list token) : option (expr * list token) :=
  match fuel with
  | O => None
  | S f =>
      match ts with
      | TNum n :: r => Some (ENum n, r)
      | TId x :: TSym s :: r =>
          if bool_decide (s = "(") then
            '(args, r') ← parse_args f r;
            Some (ECall x args, r')
          else Some (EId x, TSym s :: r)
      | TId x :: r => Some (EId x, r)
      | TSym s :: r =>
          if bool_decide (s = "(") then
            '(e, r') ← parse_expr f 0 r;
            r'' ← expect ")" r';
            Some (e, r'')
          else None
      | [] => None
      end
  end
with postfix (fuel : nat) (e : expr) (ts : list token) : option (expr * list token) :=
  match fuel with
  | O => None
  | S f =>
      match ts with
      | TSym s :: TId field :: r =>
          if bool_decide (s = ".") then postfix f (EField e field) r
          else Some (e, ts)
      | TSym s :: r =>
          if bool_decide (s = "[") then
            '(i, r') ← parse_expr f 0 r;
            r'' ← expect "]" r';
            postfix f (EIndex e i) r''
          else Some (e, ts)
      | _ => Some (e, ts)
      end
  end
with parse_args (fuel : nat) (ts : list token) : option (list expr * list token) :=
  match fuel with
  | O => None
  | S f =>
      match expect ")" ts with
      | Some r => Some ([], r)
      | None =>
          '(e, r) ← parse_expr f 0 ts;
          match r with
          | TSym s :: r' =>
              if bool_decide (s = ",") then
                '(es, r'') ← parse_args f r';
                match es with
                | [] => None
                | _ => Some (e :: es, r'')
                end
              else if bool_decide (s = ")") then Some ([e], r')
              else None
          | _ => None
          end
      end
  end.

(** Statements.  [parse_simple] reads an assignment or an expression
    statement, the two forms that contain no other statement. *)
Definition parse_simple (fuel : nat) (ts : list token) : option (stmt * list token) :=
  '(lhs, r) ← parse_expr fuel 0 ts;
  match r with
  | TSym op :: r1 =>
      if bool_decide (op = ";") then Some (SExpr lhs, r1)
      else if is_assign_op op then
        '(rhs, r2) ← parse_expr fuel 0 r1;
        r3 ← expect ";" r2;
        Some (SAssign lhs op rhs, r3)
      else None
  | _ => None
  end.

Definition parse_decl (fuel : nat) (ty x : string) (ts : list token) : option (stmt * list token) :=
  match ts with
  | TSym s :: r =>
      if bool_decide (s = ";") then Some (SDecl ty x None, r)
      else if bool_decide (s = "=") then
        '(e, r1) ← parse_expr fuel 0 r;
        r2 ← expect ";" r1;
        Some (SDecl ty x (Some e), r2)
      else None
  | _ => None
  end.

Fixpoint parse_stmt (fuel : nat) (ts : list token) : option (stmt * list token) :=
  match fuel with
  | O => None
  | S f =>
      match ts with
      | TSym s :: r =>
          if bool_decide (s = "{") then
            '(b, r1) ← parse_block f r;
            Some (SBlock b, r1)
          else parse_simple fuel ts
      | TId x :: r =>
          if bool_decide (x = "return") then
            r1 ← expect ";" r;
            Some (SReturn, r1)
          else if bool_decide (x = "if") then
            r1 ← expect "(" r;
            '(c, r2) ← parse_expr fuel 0 r1;
            r3 ← expect ")" r2;
            '(th, r4) ← parse_stmt f r3;
            match r4 with
            | TId y :: r5 =>
                if bool_decide (y = "else") then
                  '(el, r6) ← parse_stmt f r5;
                  Some (SIf c th (Some el), r6)
                else Some (SIf c th None, r4)
            | _ => Some (SIf c th None, r4)
            end
          else
            match r with
            | TId y :: r1 => parse_decl fuel x y r1
            | _ => parse_simple fuel ts
            end
      | _ => parse_simple fuel ts
      end
  end
with parse_block (fuel : nat) (ts : list token) : option (list stmt * list token) :=
  match fuel with
  | O => None
  | S f =>
      match ts with
      | [] => None
      | t :: r =>
          if bool_decide (t = TSym "}") then Some ([], r)
          else
            '(s, r1) ← parse_stmt f ts;
            '(ss, r2) ← parse_block f r1;
            Some (s :: ss, r2)
      end
  end.

(** A sequence of statements up to the end of the text. *)
Fixpoint parse_stmts (fuel : nat) (ts : list token) : option (list stmt) :=
  match fuel with
  | O => None
  | S f =>
      match ts with
      | [] => Some []
      | _ =>
          '(s, r) ← parse_stmt fuel ts;
          ss ← parse_stmts f r;
          Some (s :: ss)
      end
  end.

(** The statements of a piece of emitted text; the number of tokens bounds
    every recursion of the parser. *)
Definition parse (s : string) : option (list stmt) :=
  let ts := tokens s in
  parse_stmts (4 * length ts + 8) ts.

(** *** Number literals *)

Definition digit_val (c : ascii) : option Z :=
  if is_digit c then Some (Z.of_nat (nat_of_ascii c) - 48) else None.

(** [decimal s m frac]: the digits of [s] appended to the mantissa [m];
    [frac] counts the digits read after the dot, if a dot has been read. *)
Fixpoint decimal (s : string) (m : Z) (frac : option nat) : option (Z * option nat) :=
  match s with
  | EmptyString => Some (m, frac)
  | String c r =>
      if Ascii.eqb c "." then
        match frac with
        | None => decimal r m (Some O)
        | Some _ => None
        end
      else
        d ← digit_val c;
        decimal r (10 * m + d) (S <$> frac)
  end.

Definition int_of_lit (lit : string) : option Z :=
  match decimal lit 0 None with
  | Some (m, None) => Some m
  | _ => None
  end.

(** *** Running a geometry-stage [main] body

    The body is run for one input primitive, identified by
    [gl_PrimitiveIDIn]; [emit_vertex(i)] (the function that the generated
    preamble defines: copy input vertex [i] and call [EmitVertex()]) and
    [EndPrimitive()] are recorded in order. *)

Inductive event :=
| EmitVertex (index : Z)
| EndPrimitive.

Fixpoint eval_int (prim_id : Z) (e : expr) : option Z :=
  match e with
  | EId x => if bool_decide (x = "gl_PrimitiveIDIn") then Some prim_id else None
  | ENum lit => int_of_lit lit
  | EBin op a b =>
      if bool_decide (op = "&") then
        x ← eval_int prim_id a;
        y ← eval_int prim_id b;
        Some (Z.land x y)
      else None
  | _ => None
  end.

Definition eval_test (prim_id : Z) (e : expr) : option bool :=
  match e with
  | EBin op a b =>
      x ← eval_int prim_id a;
      y ← eval_int prim_id b;
      if bool_decide (op = "==") then Some (x =? y)
      else if bool_decide (op = "!=") then Some (negb (x =? y))
      else None
  | _ => None
  end.

(** The events of a statement, and whether it has left [main] by
    [return]. *)
Fixpoint run_stmt (prim_id : Z) (s : stmt) : option (list event * bool) :=
  match s with
  | SExpr (ECall f args) =>
      if bool_decide (f = "emit_vertex") then
        match args with
        | [a] => i ← eval_int prim_id a; Some ([EmitVertex i], false)
        | _ => None
        end
      else if bool_decide (f = "EndPrimitive") then
        match args with
        | [] => Some ([EndPrimitive], false)
        | _ => None
        end
      else None
  | SReturn => Some ([], true)
  | SBlock body =>
      (fix run_list (l : list stmt) : option (list event * bool) :=
         match l with
         | [] => Some ([], false)
         | s1 :: r =>
             '(ev, returned) ← run_stmt prim_id s1;
             if (returned : bool) then Some (ev, true)
             else
               '(ev', returned') ← run_list r;
               Some ((ev ++ ev')%list, returned')
         end) body
  | SIf c th el =>
      b ← eval_test prim_id c;
      if (b : bool) then run_stmt prim_id th
      else
        match el with
        | Some e => run_stmt prim_id e
        | None => Some ([], false)
        end
  | _ => None
  end.

(** What the text of a [main] body emits for the primitive [prim_id]. *)
Definition geometry_output (body : string) (prim_id : Z) : option (list event) :=
  b ← parse body;
  fst <$> run_stmt prim_id (SBlock b).

(** *** Running float code

    The emitted vertex code computes on floats, vectors and matrices.  The
    interpreter is written over any type [num] with the operations of
    [Arith]; the properties below are proved for all of them and read over
    the reals.  A variable of a block stays visible after the block (the
    emitted code never reuses a name in a way that would notice). *)

Class Arith (num : Type) := {
  num_dec : Z -> nat -> num;
  num_add : num -> num -> num;
  num_sub : num -> num -> num;
  num_mul : num -> num -> num;
  num_div : num -> num -> num;
  num_neg : num -> num;
  num_abs : num -> num;
  num_exp2 : num -> num;
  num_min : num -> num -> num;
  num_max : num -> num -> num;
  num_isinf : num -> bool
}.

Inductive value (num : Type) :=
| VNum (r : num)
| VVec (v : list num)
| VMat (cols : list (list num)).
Arguments VNum {num} r.
Arguments VVec {num} v.
Arguments VMat {num} cols.

Section Eval.
Context {num : Type} `{Arith num}.

Definition env := list (string * value num).

Fixpoint env_get (en : env) (x : string) : option (value num) :=
  match en with
  | [] => None
  | (y, v) :: r => if bool_decide (x = y) then Some v else env_get r x
  end.

Definition env_set (en : env) (x : string) (v : value num) : env := (x, v) :: en.

Definition field_name (r f : string) : string := r +:+ "." +:+ f.

Definition num_zero : num := num_dec 0 0.

Definition dot (u v : list num) : num := foldr num_add num_zero (zip_with num_mul u v).

Definition lift1 (f : num -> num) (a : value num) : option (value num) :=
  match a with
  | VNum x => Some (VNum (f x))
  | VVec u => Some (VVec (map f u))
  | VMat _ => None
  end.

(** Scalar with scalar, vector with scalar, and vectors component by
    component. *)
Definition lift2 (f : num -> num -> num) (a b : value num) : option (value num) :=
  match a, b with
  | VNum x, VNum y => Some (VNum (f x y))
  | VVec u, VNum y => Some (VVec (map (fun x => f x y) u))
  | VNum x, VVec v => Some (VVec (map (f x) v))
  | VVec u, VVec v =>
      if (length u =? length v)%nat then Some (VVec (zip_with f u v)) else None
  | _, _ => None
  end.

(** [v * M] takes [v] as a row vector: one dot product per column. *)
Definition vmul (a b : value num) : option (value num) :=
  match a, b with
  | VVec u, VMat m =>
      if forallb (fun c => (length c =? length u)%nat) m
      then Some (VVec (map (dot u) m)) else None
  | _, _ => lift2 num_mul a b
  end.

Definition binop (op : string) (a b : value num) : option (value num) :=
  if bool_decide (op = "+") then lift2 num_add a b
  else if bool_decide (op = "-") then lift2 num_sub a b
  else if bool_decide (op = "*") then vmul a b
  else if bool_decide (op = "/") then lift2 num_div a b
  else None.

Definition component (c : ascii) : option nat :=
  if bool_decide (c ∈ ["x"; "r"]%char) then Some 0%nat
  else if bool_decide (c ∈ ["y"; "g"]%char) then Some 1%nat
  else if bool_decide (c ∈ ["z"; "b"]%char) then Some 2%nat
  else if bool_decide (c ∈ ["w"; "a"]%char) then Some 3%nat
  else None.

Fixpoint components (f : string) : option (list nat) :=
  match f with
  | EmptyString => Some []
  | String c r => i ← component c; l ← components r; Some (i :: l)
  end.

Definition swizzle (v : list num) (f : string) : option (value num) :=
  l ← components f;
  xs ← mapM (fun i => v !! i) l;
  match xs with
  | [] => None
  | [x] => Some (VNum x)
  | _ => Some (VVec xs)
  end.

Fixpoint store (v : list num) (l : list nat) (xs : list num) : option (list num) :=
  match l, xs with
  | [], [] => Some v
  | i :: l', x :: xs' =>
      if (i <? length v)%nat then store (<[i := x]> v) l' xs' else None
  | _, _ => None
  end.

Definition flatten (vs : list (value num)) : option (list num) :=
  mjoin <$> mapM (fun v => match v with
                            | VNum x => Some [x]
                            | VVec l => Some l
                            | VMat _ => None
                            end) vs.

Definition construct (n : nat) (vs : list (value num)) : option (value num) :=
  match vs with
  | [VNum x] => Some (VVec (replicate n x))
  | _ =>
      l ← flatten vs;
      if (length l =? n)%nat then Some (VVec l) else None
  end.

Definition call (f : string) (vs : list (value num)) : option (value num) :=
  if bool_decide (f = "vec2") then construct 2 vs
  else if bool_decide (f = "vec3") then construct 3 vs
  else if bool_decide (f = "vec4") then construct 4 vs
  else
    match vs with
    | [v] =>
        if bool_decide (f = "exp2") then lift1 num_exp2 v
        else if bool_decide (f = "abs") then lift1 num_abs v
        else None
    | [v; VNum lo; VNum hi] =>
        if bool_decide (f = "clamp")
        then lift1 (fun x => num_min (num_max x lo) hi) v
        else None
    | _ => None
    end.

Definition literal (lit : string) : option (value num) :=
  '(m, k) ← decimal lit 0 None;
  Some (VNum (num_dec m (default O k))).

Definition select (v : value num) (f : string) : option (value num) :=
  match v with
  | VVec l => swizzle l f
  | _ => None
  end.

Fixpoint eval (en : env) (e : expr) : option (value num) :=
  match e with
  | ENum lit => literal lit
  | EId x => env_get en x
  | EUn op a =>
      if bool_decide (op = "-") then v ← eval en a; lift1 num_neg v else None
  | EBin op a b =>
      x ← eval en a;
      y ← eval en b;
      binop op x y
  | ECall f args =>
      vs ← (fix evals (l : list expr) : option (list (value num)) :=
              match l with
              | [] => Some []
              | a :: r => v ← eval en a; vs ← evals r; Some (v :: vs)
              end) args;
      call f vs
  | EField a f =>
      match a with
      | EId r =>
          match env_get en (field_name r f) with
          | Some v => Some v
          | None => v ← eval en a; select v f
          end
      | _ => v ← eval en a; select v f
      end
  | EIndex a i =>
      v ← eval en a;
      n ← match i with ENum lit => int_of_lit lit | _ => None end;
      match v with
      | VVec l => VNum <$> l !! Z.to_nat n
      | _ => None
      end
  end.

Definition eval_cond (en : env) (c : expr) : option bool :=
  match c with
  | ECall f [a] =>
      if bool_decide (f = "isinf") then
        v ← eval en a;
        match v with
        | VNum x => Some (num_isinf x)
        | _ => None
        end
      else None
  | _ => None
  end.

(** Assignment to a variable, to components of a vector variable, or to a
    field of a structure (kept under the name [r.f]). *)
Definition assign (en : env) (lhs : expr) (v : value num) : option env :=
  match lhs with
  | EId x => Some (env_set en x v)
  | EField (EId r) f =>
      match env_get en r with
      | Some (VVec old) =>
          l ← components f;
          xs ← flatten [v];
          new ← store old l xs;
          Some (env_set en r (VVec new))
      | _ => Some (env_set en (field_name r f) v)
      end
  | _ => None
  end.

Definition compound (op : string) : option string :=
  if bool_decide (op = "+=") then Some "+"
  else if bool_decide (op = "-=") then Some "-"
  else if bool_decide (op = "*=") then Some "*"
  else if bool_decide (op = "/=") then Some "/"
  else None.

Fixpoint exec (en : env) (s : stmt) {struct s} : option env :=
  match s with
  | SDecl _ x None => Some en
  | SDecl _ x (Some e) => v ← eval en e; Some (env_set en x v)
  | SAssign lhs op rhs =>
      v ← eval en rhs;
      if bool_decide (op = "=") then assign en lhs v
      else
        o ← compound op;
        old ← eval en lhs;
        new ← binop o old v;
        assign en lhs new
  | SIf c th el =>
      b ← eval_cond en c;
      if (b : bool) then exec en th
      else
        match el with
        | Some e => exec en e
        | None => Some en
        end
  | SBlock body =>
      (fix exec_list (en : env) (l : list stmt) {struct l} : option env :=
         match l with
         | [] => Some en
         | s1 :: r => en' ← exec en s1; exec_list en' r
         end) en body
  | _ => None
  end.

(** The variables after running a piece of emitted text from [en]. *)
Definition run (en : env) (text : string) : option env :=
  b ← parse text;
  exec en (SBlock b).

(** The value of [x] after running [text] from [en]. *)
Definition result (en : env) (text : string) (x : string) : option (value num) :=
  en' ← run en text;
  env_get en' x.

End Eval.

(** The reals as [Arith]: [exp2 x] is [2] to the power [x]; no real is
    infinite. *)
#[global] Instance R_arith : Arith R := {|
  num_dec m k := (IZR m / 10 ^ k)%R;
  num_add := Rplus;
  num_sub := Rminus;
  num_mul := Rmult;
  num_div := Rdiv;
  num_neg := Ropp;
  num_abs := Rabs;
  num_exp2 x := Rpower 2 x;
  num_min := Rmin;
  num_max := Rmax;
  num_isinf _ := false
|}.

End Glsl.

Section Generator.

(** ** What the section takes from outside shaders.c

    [float] with [fmt_f] is the C type [float] with the text that
    [vsnprintf] produces for a [%f] conversion; [STRUCT_VERTEX_DATA] is the
    macro of shaders_common.h; [stringify m] is the text that
    [stringify(m)] expands to and [macro_value m] the number [m] stands for
    where it bounds a loop; [Skinning_value] numbers the enumerators of
    [Skinning] as shaders.h does; [PshState] is the state of the register
    combiners, a field of the shader state that only [psh_translate] looks
    into. *)
Variable float : Type.
Variable fmt_f : float -> string.
Variable STRUCT_VERTEX_DATA : string.
Variable stringify : macro -> string.
Variable macro_value : macro -> nat.
Variable Skinning_value : Skinning -> Z.
Variable PshState : Type.

(** *** [vsnprintf] and the append functions (shaders.c lines 28-71) *)

Inductive fmt_arg :=
| Ad (n : Z)
| Ac (c : ascii)
| As (s : string)
| Af (x : float).

(** One conversion; a conversion that does not fit its argument is
    undefined in C and yields no text here. *)
Definition conversion (k : ascii) (a : fmt_arg) : string :=
  match k, a with
  | "d"%char, Ad n => fmt_d n
  | "c"%char, Ac c => String c ""
  | "s"%char, As s => s
  | "f"%char, Af x => fmt_f x
  | _, _ => ""
  end.

(** The whole text a format produces, without any size limit. *)
Fixpoint format (fmt : string) (args : list fmt_arg) : string :=
  match fmt with
  | String "%" (String k r) =>
      match args with
      | a :: args' => conversion k a +:+ format r args'
      | [] => format r []
      end
  | String c r => String c (format r args)
  | EmptyString => EmptyString
  end.

(** [vsnprintf(buf, size, fmt, ap)]: at most [size - 1] characters are
    stored, the length of the whole text is returned. *)
Definition vsnprintf (size : nat) (fmt : string) (args : list fmt_arg) : string * Z :=
  let s := format fmt args in
  (substring 0 (size - 1) s, Z.of_nat (String.length s)).

Definition mstring_append_va (qstring : MString) (fmt : string) (va : list fmt_arg) : MString :=
  let '(scratch, len) := vsnprintf 256 fmt va in
  if len =? 0 then qstring
  else if len <? 256 then mstring_append qstring scratch
  else
    (* overflowed out scratch buffer, alloc and try again *)
    let '(buf, _) := vsnprintf (Z.to_nat (len + 1)) fmt va in
    mstring_append qstring buf.

Definition mstring_append_fmt (qstring : MString) (fmt : string) (args : list fmt_arg) : MString :=
  mstring_append_va qstring fmt args.

Definition mstring_from_fmt (fmt : string) (args : list fmt_arg) : MString :=
  let ret := mstring_new in
  mstring_append_va ret fmt args.

(** The text assembled after the switch of [generate_geometry_shader]
    (lines 215-235) from the three pieces that the switch has chosen. *)
Definition geometry_shader_text (layout_in layout_out body : string) : MString :=
  let s := mstring_from_str (c_str "#version 330\n"
                             +:+ c_str "\n") in
  let s := mstring_append s layout_in in
  let s := mstring_append s layout_out in
  let s := mstring_append s (c_str "\n"
             +:+ STRUCT_VERTEX_DATA
             +:+ c_str "noperspective in VertexData v_vtx[];\n"
             +:+ c_str "noperspective out VertexData g_vtx;\n"
             +:+ c_str "\n"
             +:+ c_str "void emit_vertex(int index) {\n"
             +:+ c_str "  gl_Position = gl_in[index].gl_Position;\n"
             +:+ c_str "  gl_PointSize = gl_in[index].gl_PointSize;\n"
             +:+ c_str "  g_vtx = v_vtx[index];\n"
             +:+ c_str "  EmitVertex();\n"
             +:+ c_str "}\n"
             +:+ c_str "\n"
             +:+ c_str "void main() {\n") in
  let s := mstring_append s body in
  let s := mstring_append s (c_str "}\n") in
  s.

(** *** generate_geometry_shader (shaders.c lines 73-236)

    [geometry_shader_switch] is the function up to the end of its switch
    (lines 80-209).  Its result pairs the value stored through
    [gl_primitive_mode] with [None] where the function has returned [NULL]
    and with [layout_in], [layout_out] and [body] where it goes on to
    assemble the program; every path that does not abort has stored a
    value before. *)
Definition geometry_shader_switch
    (polygon_front_mode polygon_back_mode : ShaderPolygonMode)
    (primitive_mode : ShaderPrimitiveMode)
    : outcome (GLenum * option (string * string * string)) :=
  (* FIXME: Missing support for 2-sided-poly mode *)
  obind (assert_ 81 (bool_decide (polygon_front_mode = polygon_back_mode))) (fun _ =>
  let polygon_mode := polygon_front_mode in
  (* POINT mode shouldn't require any special work *)
  if bool_decide (polygon_mode = POLY_MODE_POINT) then Done (GL_POINTS, None) else
  (* Handle LINE and FILL mode *)
    match primitive_mode with
    | PRIM_TYPE_POINTS => Done (GL_POINTS, None)
    | PRIM_TYPE_LINES => Done (GL_LINES, None)
    | PRIM_TYPE_LINE_LOOP => Done (GL_LINE_LOOP, None)
    | PRIM_TYPE_LINE_STRIP => Done (GL_LINE_STRIP, None)
    | PRIM_TYPE_TRIANGLES =>
        if bool_decide (polygon_mode = POLY_MODE_FILL) then Done (GL_TRIANGLES, None) else
        obind (assert_ 102 (bool_decide (polygon_mode = POLY_MODE_LINE))) (fun _ =>
        Done (GL_TRIANGLES, Some (
          c_str "layout(triangles) in;\n",
          c_str "layout(line_strip, max_vertices = 4) out;\n",
          c_str "  emit_vertex(0);\n"
          +:+ c_str "  emit_vertex(1);\n"
          +:+ c_str "  emit_vertex(2);\n"
          +:+ c_str "  emit_vertex(0);\n"
          +:+ c_str "  EndPrimitive();\n")))
    | PRIM_TYPE_TRIANGLE_STRIP =>
        if bool_decide (polygon_mode = POLY_MODE_FILL) then Done (GL_TRIANGLE_STRIP, None) else
        obind (assert_ 114 (bool_decide (polygon_mode = POLY_MODE_LINE))) (fun _ =>
        Done (GL_TRIANGLE_STRIP, Some (
          c_str "layout(triangles) in;\n",
          c_str "layout(line_strip, max_vertices = 4) out;\n",
          (* Imagine a quad made of a tristrip, the comments tell you which
             vertex we are using *)
          c_str "  if ((gl_PrimitiveIDIn & 1) == 0) {\n"
          +:+ c_str "    if (gl_PrimitiveIDIn == 0) {\n"
          +:+ c_str "      emit_vertex(0);\n" (* bottom right *)
          +:+ c_str "    }\n"
          +:+ c_str "    emit_vertex(1);\n" (* top right *)
          +:+ c_str "    emit_vertex(2);\n" (* bottom left *)
          +:+ c_str "    emit_vertex(0);\n" (* bottom right *)
          +:+ c_str "  } else {\n"
          +:+ c_str "    emit_vertex(2);\n" (* bottom left *)
          +:+ c_str "    emit_vertex(1);\n" (* top left *)
          +:+ c_str "    emit_vertex(0);\n" (* top right *)
          +:+ c_str "  }\n"
          +:+ c_str "  EndPrimitive();\n")))
    | PRIM_TYPE_TRIANGLE_FAN =>
        if bool_decide (polygon_mode = POLY_MODE_FILL) then Done (GL_TRIANGLE_FAN, None) else
        obind (assert_ 136 (bool_decide (polygon_mode = POLY_MODE_LINE))) (fun _ =>
        Done (GL_TRIANGLE_FAN, Some (
          c_str "layout(triangles) in;\n",
          c_str "layout(line_strip, max_vertices = 4) out;\n",
          c_str "  if (gl_PrimitiveIDIn == 0) {\n"
          +:+ c_str "    emit_vertex(0);\n"
          +:+ c_str "  }\n"
          +:+ c_str "  emit_vertex(1);\n"
          +:+ c_str "  emit_vertex(2);\n"
          +:+ c_str "  emit_vertex(0);\n"
          +:+ c_str "  EndPrimitive();\n")))
    | PRIM_TYPE_QUADS =>
        let layout_in := c_str "layout(lines_adjacency) in;\n" in
        if bool_decide (polygon_mode = POLY_MODE_LINE) then
          Done (GL_LINES_ADJACENCY, Some (
            layout_in,
            c_str "layout(line_strip, max_vertices = 5) out;\n",
            c_str "  emit_vertex(0);\n"
            +:+ c_str "  emit_vertex(1);\n"
            +:+ c_str "  emit_vertex(2);\n"
            +:+ c_str "  emit_vertex(3);\n"
            +:+ c_str "  emit_vertex(0);\n"
            +:+ c_str "  EndPrimitive();\n"))
        else if bool_decide (polygon_mode = POLY_MODE_FILL) then
          Done (GL_LINES_ADJACENCY, Some (
            layout_in,
            c_str "layout(triangle_strip, max_vertices = 4) out;\n",
            c_str "  emit_vertex(0);\n"
            +:+ c_str "  emit_vertex(1);\n"
            +:+ c_str "  emit_vertex(3);\n"
            +:+ c_str "  emit_vertex(2);\n"
            +:+ c_str "  EndPrimitive();\n"))
        else Aborted (AssertFailed 166)
    | PRIM_TYPE_QUAD_STRIP =>
        let layout_in := c_str "layout(lines_adjacency) in;\n" in
        if bool_decide (polygon_mode = POLY_MODE_LINE) then
          Done (GL_LINE_STRIP_ADJACENCY, Some (
            layout_in,
            c_str "layout(line_strip, max_vertices = 5) out;\n",
            c_str "  if ((gl_PrimitiveIDIn & 1) != 0) { return; }\n"
            +:+ c_str "  if (gl_PrimitiveIDIn == 0) {\n"
            +:+ c_str "    emit_vertex(0);\n"
            +:+ c_str "  }\n"
            +:+ c_str "  emit_vertex(1);\n"
            +:+ c_str "  emit_vertex(3);\n"
            +:+ c_str "  emit_vertex(2);\n"
            +:+ c_str "  emit_vertex(0);\n"
            +:+ c_str "  EndPrimitive();\n"))
        else if bool_decide (polygon_mode = POLY_MODE_FILL) then
          Done (GL_LINE_STRIP_ADJACENCY, Some (
            layout_in,
            c_str "layout(triangle_strip, max_vertices = 4) out;\n",
            c_str "  if ((gl_PrimitiveIDIn & 1) != 0) { return; }\n"
            +:+ c_str "  emit_vertex(0);\n"
            +:+ c_str "  emit_vertex(1);\n"
            +:+ c_str "  emit_vertex(2);\n"
            +:+ c_str "  emit_vertex(3);\n"
            +:+ c_str "  EndPrimitive();\n"))
        else Aborted (AssertFailed 193)
    | PRIM_TYPE_POLYGON =>
        if bool_decide (polygon_mode = POLY_MODE_LINE) then Done (GL_LINE_LOOP, None)
        else if bool_decide (polygon_mode = POLY_MODE_FILL) then Done (GL_TRIANGLE_FAN, None)
        else Aborted (AssertFailed 203)
    | PRIM_TYPE_other => Aborted (AssertFailed 207)
    end).

Definition generate_geometry_shader
    (polygon_front_mode polygon_back_mode : ShaderPolygonMode)
    (primitive_mode : ShaderPrimitiveMode) : outcome (GLenum * option MString) :=
  obind (geometry_shader_switch polygon_front_mode polygon_back_mode primitive_mode)
    (fun '(gl_primitive_mode, out) =>
  match out with
  | None => Done (gl_primitive_mode, None)
  | Some (layout_in, layout_out, body) =>
      (* generate a geometry shader to support deprecated primitive types;
         the three asserts of lines 212-214 hold, the three pointers are
         set on every path that gets here *)
      Done (gl_primitive_mode, Some (geometry_shader_text layout_in layout_out body))
  end).

(** *** append_skinning_code (shaders.c lines 238-279)

    [count] is at least 1 where [i < (count - 1)] is evaluated, so the
    unsigned subtraction does not wrap. *)
Definition append_skinning_code (str : MString) (mix : bool) (count : nat)
    (type output input matrix swizzle : string) : outcome MString :=
  if (count =? 0)%nat then
    Done (mstring_append_fmt str (c_str "%s %s = (%s * %s0).%s;\n")
            [As type; As output; As input; As matrix; As swizzle])
  else
    let str := mstring_append_fmt str (c_str "%s %s = %s(0.0);\n")
                 [As type; As output; As type] in
    if mix then
      (* Generated final weight (like GL_WEIGHT_SUM_UNITY_ARB) *)
      let str := mstring_append str (c_str "{\n"
                                     +:+ c_str "  float weight_i;\n"
                                     +:+ c_str "  float weight_n = 1.0;\n") in
      let str :=
        foldl (fun str i =>
                 let str :=
                   if (i <? count - 1)%nat then
                     let c := char_at "xyzw" i in
                     mstring_append_fmt str (c_str "  weight_i = weight.%c;\n"
                                             +:+ c_str "  weight_n -= weight_i;\n")
                       [Ac c]
                   else mstring_append str (c_str "  weight_i = weight_n;\n") in
                 mstring_append_fmt str (c_str "  %s += (%s * %s%d).%s * weight_i;\n")
                   [As output; As input; As matrix; Ad (Z.of_nat i); As swizzle])
              str (seq 0 count) in
      Done (mstring_append str (c_str "}\n"))
    else
      (* Individual weights *)
      let str :=
        foldl (fun str i =>
                 let c := char_at "xyzw" i in
                 mstring_append_fmt str (c_str "%s += (%s * %s%d).%s * weight.%c;\n")
                   [As output; As input; As matrix; Ad (Z.of_nat i); As swizzle; Ac c])
              str (seq 0 count) in
      Aborted (AssertFailed 276) (* FIXME: Untested *).

(** *** Steps on the two buffers [header] and [body] *)

Definition bufs := (MString * MString)%type.
Definition step := bufs -> outcome bufs.

Definition to_header (s : string) : step :=
  fun '(header, body) => Done (mstring_append header s, body).
Definition to_body (s : string) : step :=
  fun '(header, body) => Done (header, mstring_append body s).
Definition to_header_fmt (fmt : string) (args : list fmt_arg) : step :=
  fun '(header, body) => Done (mstring_append_fmt header fmt args, body).
Definition to_body_fmt (fmt : string) (args : list fmt_arg) : step :=
  fun '(header, body) => Done (header, mstring_append_fmt body fmt args).
Definition on_body (f : MString -> outcome MString) : step :=
  fun '(header, body) => obind (f body) (fun body' => Done (header, body')).

Definition skip : step := fun hb => Done hb.
Definition assert_step (line : nat) (cond : bool) : step :=
  fun hb => obind (assert_ line cond) (fun _ => Done hb).
Definition when (cond : bool) (s : step) : step := if cond then s else skip.

(** Statements in sequence; the first abort ends the run. *)
Fixpoint block (l : list step) : step :=
  match l with
  | [] => skip
  | s :: r => fun hb => obind (s hb) (block r)
  end.

(** [for (i = 0; i < n; i++)]. *)
Definition for_ (n : nat) (f : nat -> step) : step := block (map f (seq 0 n)).

Definition An (i : nat) : fmt_arg := Ad (Z.of_nat i).

(** *** The macros of lines 281-288 *)

Definition GLSL_C (idx : string) : string := "c[" +:+ idx +:+ "]".
Definition GLSL_LTCTXA (idx : string) : string := "ltctxa[" +:+ idx +:+ "]".
Definition GLSL_C_MAT4 (idx : string) : string :=
  "mat4(" +:+ GLSL_C idx +:+ ", " +:+ GLSL_C (idx +:+ "+1") +:+ ", "
  +:+ GLSL_C (idx +:+ "+2") +:+ ", " +:+ GLSL_C (idx +:+ "+3") +:+ ")".
Definition GLSL_DEFINE (a b : string) : string :=
  "#define " +:+ a +:+ " " +:+ b +:+ c_str "\n".

(** *** generate_fixed_function (shaders.c lines 290-676) *)

(** The [#define]s and uniforms that the function writes to [header]
    first (lines 296-372). *)
Definition fixed_function_header : string :=
  c_str "#define position      v0\n"
  +:+ c_str "#define weight        v1\n"
  +:+ c_str "#define normal        v2.xyz\n"
  +:+ c_str "#define diffuse       v3\n"
  +:+ c_str "#define specular      v4\n"
  +:+ c_str "#define fogCoord      v5.x\n"
  +:+ c_str "#define pointSize     v6\n"
  +:+ c_str "#define backDiffuse   v7\n"
  +:+ c_str "#define backSpecular  v8\n"
  +:+ c_str "#define texture0      v9\n"
  +:+ c_str "#define texture1      v10\n"
  +:+ c_str "#define texture2      v11\n"
  +:+ c_str "#define texture3      v12\n"
  +:+ c_str "#define reserved1     v13\n"
  +:+ c_str "#define reserved2     v14\n"
  +:+ c_str "#define reserved3     v15\n"
  +:+ c_str "\n"
  +:+ "uniform vec4 ltctxa[" +:+ stringify NV2A_LTCTXA_COUNT +:+ c_str "];\n"
  +:+ "uniform vec4 ltctxb[" +:+ stringify NV2A_LTCTXB_COUNT +:+ c_str "];\n"
  +:+ "uniform vec4 ltc1[" +:+ stringify NV2A_LTC1_COUNT +:+ c_str "];\n"
  +:+ c_str "\n"
  +:+ GLSL_DEFINE "projectionMat" (GLSL_C_MAT4 (stringify NV_IGRAPH_XF_XFCTX_PMAT0))
  +:+ GLSL_DEFINE "compositeMat" (GLSL_C_MAT4 (stringify NV_IGRAPH_XF_XFCTX_CMAT0))
  +:+ c_str "\n"
  +:+ GLSL_DEFINE "texPlaneS0" (GLSL_C (stringify NV_IGRAPH_XF_XFCTX_TG0MAT +:+ " + 0"))
  +:+ GLSL_DEFINE "texPlaneT0" (GLSL_C (stringify NV_IGRAPH_XF_XFCTX_TG0MAT +:+ " + 1"))
  +:+ GLSL_DEFINE "texPlaneQ0" (GLSL_C (stringify NV_IGRAPH_XF_XFCTX_TG0MAT +:+ " + 2"))
  +:+ GLSL_DEFINE "texPlaneR0" (GLSL_C (stringify NV_IGRAPH_XF_XFCTX_TG0MAT +:+ " + 3"))
  +:+ c_str "\n"
  +:+ GLSL_DEFINE "texPlaneS1" (GLSL_C (stringify NV_IGRAPH_XF_XFCTX_TG1MAT +:+ " + 0"))
  +:+ GLSL_DEFINE "texPlaneT1" (GLSL_C (stringify NV_IGRAPH_XF_XFCTX_TG1MAT +:+ " + 1"))
  +:+ GLSL_DEFINE "texPlaneQ1" (GLSL_C (stringify NV_IGRAPH_XF_XFCTX_TG1MAT +:+ " + 2"))
  +:+ GLSL_DEFINE "texPlaneR1" (GLSL_C (stringify NV_IGRAPH_XF_XFCTX_TG1MAT +:+ " + 3"))
  +:+ c_str "\n"
  +:+ GLSL_DEFINE "texPlaneS2" (GLSL_C (stringify NV_IGRAPH_XF_XFCTX_TG2MAT +:+ " + 0"))
  +:+ GLSL_DEFINE "texPlaneT2" (GLSL_C (stringify NV_IGRAPH_XF_XFCTX_TG2MAT +:+ " + 1"))
  +:+ GLSL_DEFINE "texPlaneQ2" (GLSL_C (stringify NV_IGRAPH_XF_XFCTX_TG2MAT +:+ " + 2"))
  +:+ GLSL_DEFINE "texPlaneR2" (GLSL_C (stringify NV_IGRAPH_XF_XFCTX_TG2MAT +:+ " + 3"))
  +:+ c_str "\n"
  +:+ GLSL_DEFINE "texPlaneS3" (GLSL_C (stringify NV_IGRAPH_XF_XFCTX_TG3MAT +:+ " + 0"))
  +:+ GLSL_DEFINE "texPlaneT3" (GLSL_C (stringify NV_IGRAPH_XF_XFCTX_TG3MAT +:+ " + 1"))
  +:+ GLSL_DEFINE "texPlaneQ3" (GLSL_C (stringify NV_IGRAPH_XF_XFCTX_TG3MAT +:+ " + 2"))
  +:+ GLSL_DEFINE "texPlaneR3" (GLSL_C (stringify NV_IGRAPH_XF_XFCTX_TG3MAT +:+ " + 3"))
  +:+ c_str "\n"
  +:+ GLSL_DEFINE "modelViewMat0" (GLSL_C_MAT4 (stringify NV_IGRAPH_XF_XFCTX_MMAT0))
  +:+ GLSL_DEFINE "modelViewMat1" (GLSL_C_MAT4 (stringify NV_IGRAPH_XF_XFCTX_MMAT1))
  +:+ GLSL_DEFINE "modelViewMat2" (GLSL_C_MAT4 (stringify NV_IGRAPH_XF_XFCTX_MMAT2))
  +:+ GLSL_DEFINE "modelViewMat3" (GLSL_C_MAT4 (stringify NV_IGRAPH_XF_XFCTX_MMAT3))
  +:+ c_str "\n"
  +:+ GLSL_DEFINE "invModelViewMat0" (GLSL_C_MAT4 (stringify NV_IGRAPH_XF_XFCTX_IMMAT0))
  +:+ GLSL_DEFINE "invModelViewMat1" (GLSL_C_MAT4 (stringify NV_IGRAPH_XF_XFCTX_IMMAT1))
  +:+ GLSL_DEFINE "invModelViewMat2" (GLSL_C_MAT4 (stringify NV_IGRAPH_XF_XFCTX_IMMAT2))
  +:+ GLSL_DEFINE "invModelViewMat3" (GLSL_C_MAT4 (stringify NV_IGRAPH_XF_XFCTX_IMMAT3))
  +:+ c_str "\n"
  +:+ GLSL_DEFINE "eyePosition" (GLSL_C (stringify NV_IGRAPH_XF_XFCTX_EYEP))
  +:+ c_str "\n"
  +:+ "#define lightAmbientColor(i) "
  +:+ "ltctxb[" +:+ stringify NV_IGRAPH_XF_LTCTXB_L0_AMB +:+ c_str " + (i)*6].xyz\n"
  +:+ "#define lightDiffuseColor(i) "
  +:+ "ltctxb[" +:+ stringify NV_IGRAPH_XF_LTCTXB_L0_DIF +:+ c_str " + (i)*6].xyz\n"
  +:+ "#define lightSpecularColor(i) "
  +:+ "ltctxb[" +:+ stringify NV_IGRAPH_XF_LTCTXB_L0_SPC +:+ c_str " + (i)*6].xyz\n"
  +:+ c_str "\n"
  +:+ "#define lightSpotFalloff(i) "
  +:+ "ltctxa[" +:+ stringify NV_IGRAPH_XF_LTCTXA_L0_K +:+ c_str " + (i)*2].xyz\n"
  +:+ "#define lightSpotDirection(i) "
  +:+ "ltctxa[" +:+ stringify NV_IGRAPH_XF_LTCTXA_L0_SPT +:+ c_str " + (i)*2]\n"
  +:+ c_str "\n"
  +:+ "#define lightLocalRange(i) "
  +:+ "ltc1[" +:+ stringify NV_IGRAPH_XF_LTC1_r0 +:+ c_str " + (i)].x\n"
  +:+ c_str "\n"
  +:+ GLSL_DEFINE "sceneAmbientColor"
        (GLSL_LTCTXA (stringify NV_IGRAPH_XF_LTCTXA_FR_AMB) +:+ ".xyz")
  +:+ GLSL_DEFINE "materialEmissionColor"
        (GLSL_LTCTXA (stringify NV_IGRAPH_XF_LTCTXA_CM_COL) +:+ ".xyz")
  +:+ c_str "\n"
  +:+ c_str "uniform mat4 invViewport;\n"
  +:+ c_str "\n".

(** The switch on [state.skinning] (lines 375-395): [(mix, count)]. *)
Definition skinning_mix_count (s : Skinning) : bool * nat :=
  match s with
  | SKINNING_OFF => (false, 0%nat)
  | SKINNING_1WEIGHTS => (true, 2%nat)
  | SKINNING_2WEIGHTS2MATRICES => (false, 2%nat)
  | SKINNING_2WEIGHTS => (true, 3%nat)
  | SKINNING_3WEIGHTS3MATRICES => (false, 3%nat)
  | SKINNING_3WEIGHTS => (true, 4%nat)
  | SKINNING_4WEIGHTS4MATRICES => (false, 4%nat)
  end.

(** One component of one stage of the texgen loop (lines 419-473). *)
Definition texgen_component (state : ShaderState float PshState) (i j : nat) : step :=
  (* TODO: TexGen View Model missing! *)
  let c := char_at "xyzw" j in
  let cSuffix := char_at "STRQ" j in
  match texgen state i j with
  | TEXGEN_DISABLE =>
      to_body_fmt (c_str "oT%d.%c = texture%d.%c;\n") [An i; Ac c; An i; Ac c]
  | TEXGEN_EYE_LINEAR =>
      to_body_fmt (c_str "oT%d.%c = dot(texPlane%c%d, tPosition);\n")
        [An i; Ac c; Ac cSuffix; An i]
  | TEXGEN_OBJECT_LINEAR =>
      block [
        to_body_fmt (c_str "oT%d.%c = dot(texPlane%c%d, position);\n")
          [An i; Ac c; Ac cSuffix; An i];
        assert_step 433 false (* Untested *)
      ]
  | TEXGEN_SPHERE_MAP =>
      block [
        assert_step 436 (j <? 2)%nat; (* Channels S,T only! *)
        to_body (c_str "{\n");
        (* FIXME: u, r and m only have to be calculated once *)
        to_body (c_str "  vec3 u = normalize(tPosition.xyz);\n");
        to_body (c_str "  vec3 r = reflect(u, tNormal);\n");
        to_body (c_str "  float invM = 1.0 / (2.0 * length(r + vec3(0.0, 0.0, 1.0)));\n");
        to_body_fmt (c_str "  oT%d.%c = r.%c * invM + 0.5;\n") [An i; Ac c; Ac c];
        to_body (c_str "}\n")
      ]
  | TEXGEN_REFLECTION_MAP =>
      block [
        assert_step 456 (j <? 3)%nat; (* Channels S,T,R only! *)
        to_body (c_str "{\n");
        to_body (c_str "  vec3 u = normalize(tPosition.xyz);\n");
        to_body (c_str "  vec3 r = reflect(u, tNormal);\n");
        to_body_fmt (c_str "  oT%d.%c = r.%c;\n") [An i; Ac c; Ac c];
        to_body (c_str "}\n")
      ]
  | TEXGEN_NORMAL_MAP =>
      block [
        assert_step 466 (j <? 3)%nat; (* Channels S,T,R only! *)
        to_body_fmt (c_str "oT%d.%c = tNormal.%c;\n") [An i; Ac c; Ac c]
      ]
  end.

(** The body of the loop over the lights (lines 511-611). *)
Definition light_code (state : ShaderState float PshState) (i : nat) : step :=
  if bool_decide (light state i = LIGHT_OFF) then skip (* continue *) else
  block [
    to_body_fmt (c_str "/* Light %d */ {\n") [An i];
    when (bool_decide (light state i = LIGHT_LOCAL)
          || bool_decide (light state i = LIGHT_SPOT)) (block [
      to_header_fmt
        (c_str "uniform vec3 lightLocalPosition%d;\n"
         +:+ c_str "uniform vec3 lightLocalAttenuation%d;\n")
        [An i; An i];
      to_body_fmt
        (c_str "  vec3 VP = lightLocalPosition%d - tPosition.xyz/tPosition.w;\n"
         +:+ c_str "  float d = length(VP);\n"
         +:+ c_str "  VP = normalize(VP);\n"
         +:+ c_str "  float attenuation = 1.0 / (lightLocalAttenuation%d.x\n"
         +:+ c_str "                               + lightLocalAttenuation%d.y * d\n"
         +:+ c_str "                               + lightLocalAttenuation%d.z * d * d);\n"
         +:+ c_str "  vec3 halfVector = normalize(VP + eyePosition.xyz / eyePosition.w);\n"
         +:+ c_str "  float nDotVP = max(0.0, dot(tNormal, VP));\n"
         +:+ c_str "  float nDotHV = max(0.0, dot(tNormal, halfVector));\n")
        [An i; An i; An i; An i]
    ]);
    match light state i with
    | LIGHT_INFINITE =>
        (* lightLocalRange will be 1e+30 here *)
        block [
          to_header_fmt
            (c_str "uniform vec3 lightInfiniteHalfVector%d;\n"
             +:+ c_str "uniform vec3 lightInfiniteDirection%d;\n")
            [An i; An i];
          to_body_fmt
            (c_str "  float attenuation = 1.0;\n"
             +:+ c_str "  float nDotVP = max(0.0, dot(tNormal, normalize(vec3(lightInfiniteDirection%d))));\n"
             +:+ c_str "  float nDotHV = max(0.0, dot(tNormal, vec3(lightInfiniteHalfVector%d)));\n")
            [An i; An i]
        ]
    | LIGHT_LOCAL =>
        (* Everything done already *)
        skip
    | LIGHT_SPOT =>
        to_body_fmt
          (c_str "  vec4 spotDir = lightSpotDirection(%d);\n"
           +:+ c_str "  float invScale = 1/length(spotDir.xyz);\n"
           +:+ c_str "  float cosHalfPhi = -invScale*spotDir.w;\n"
           +:+ c_str "  float cosHalfTheta = invScale + cosHalfPhi;\n"
           +:+ c_str "  float spotDirDotVP = dot(spotDir.xyz, VP);\n"
           +:+ c_str "  float rho = invScale*spotDirDotVP;\n"
           +:+ c_str "  if (rho > cosHalfTheta) {\n"
           +:+ c_str "  } else if (rho <= cosHalfPhi) {\n"
           +:+ c_str "    attenuation = 0.0;\n"
           +:+ c_str "  } else {\n"
           +:+ c_str "    attenuation *= spotDirDotVP + spotDir.w;\n"
           +:+ c_str "  }\n")
          [An i]
    | LIGHT_OFF =>
        (* default: of the switch; not reached, LIGHT_OFF has continued *)
        assert_step 586 false
    end;
    to_body_fmt
      (c_str "  float pf;\n"
       +:+ c_str "  if (nDotVP == 0.0) {\n"
       +:+ c_str "    pf = 0.0;\n"
       +:+ c_str "  } else {\n"
       +:+ c_str "    pf = pow(nDotHV, /* specular(l, m, n, l1, m1, n1) */ 0.001);\n"
       +:+ c_str "  }\n"
       +:+ c_str "  vec3 lightAmbient = lightAmbientColor(%d) * attenuation;\n"
       +:+ c_str "  vec3 lightDiffuse = lightDiffuseColor(%d) * attenuation * nDotVP;\n"
       +:+ c_str "  vec3 lightSpecular = lightSpecularColor(%d) * pf;\n")
      [An i; An i; An i];
    to_body (c_str "  oD0.xyz += lightAmbient;\n");
    to_body (c_str "  oD0.xyz += diffuse.xyz * lightDiffuse;\n");
    to_body (c_str "  oD1.xyz += specular.xyz * lightSpecular;\n");
    to_body (c_str "}\n")
  ].

(** Skinning (lines 374-404). *)
Definition skinning_code (state : ShaderState float PshState) : step :=
  let '(mix, count) := skinning_mix_count (skinning state) in
  block [
    to_body_fmt (c_str "/* Skinning mode %d */\n") [Ad (Skinning_value (skinning state))];
    on_body (fun body =>
      append_skinning_code body mix count "vec4"
        "tPosition" "position" "modelViewMat" "xyzw");
    on_body (fun body =>
      append_skinning_code body mix count "vec3"
        "tNormal" "vec4(normal, 0.0)" "invModelViewMat" "xyz")
  ].

(** Texgen (lines 411-475). *)
Definition texgen_code (state : ShaderState float PshState) : step :=
  for_ NV2A_MAX_TEXTURES (fun i => block [
    to_body_fmt (c_str "/* Texgen for stage %d */\n") [An i];
    (* Set each component individually *)
    for_ 4 (fun j => texgen_component state i j)
  ]).

(** Apply texture matrices (lines 477-484). *)
Definition texture_matrix_code (state : ShaderState float PshState) : step :=
  for_ NV2A_MAX_TEXTURES (fun i =>
    when (texture_matrix_enable state i)
      (to_body_fmt (c_str "oT%d = oT%d * texMat%d;\n") [An i; An i; An i])).

(** Lighting (lines 486-616). *)
Definition lighting_code (state : ShaderState float PshState) : step :=
  if lighting state then block [
    (if bool_decide (ambient_src state = MATERIAL_COLOR_SRC_MATERIAL) then
       to_body (c_str "oD0 = vec4(sceneAmbientColor, diffuse.a);\n")
     else if bool_decide (ambient_src state = MATERIAL_COLOR_SRC_DIFFUSE) then
       to_body (c_str "oD0 = vec4(diffuse.rgb, diffuse.a);\n")
     else if bool_decide (ambient_src state = MATERIAL_COLOR_SRC_SPECULAR) then
       to_body (c_str "oD0 = vec4(specular.rgb, diffuse.a);\n")
     else skip);
    to_body (c_str "oD0.rgb *= materialEmissionColor.rgb;\n");
    (if bool_decide (emission_src state = MATERIAL_COLOR_SRC_MATERIAL) then
       to_body (c_str "oD0.rgb += sceneAmbientColor;\n")
     else if bool_decide (emission_src state = MATERIAL_COLOR_SRC_DIFFUSE) then
       to_body (c_str "oD0.rgb += diffuse.rgb;\n")
     else if bool_decide (emission_src state = MATERIAL_COLOR_SRC_SPECULAR) then
       to_body (c_str "oD0.rgb += specular.rgb;\n")
     else skip);
    to_body (c_str "oD1 = vec4(0.0, 0.0, 0.0, specular.a);\n");
    for_ NV2A_MAX_LIGHTS (fun i => light_code state i)
  ] else block [
    to_body (c_str "  oD0 = diffuse;\n");
    to_body (c_str "  oD1 = specular;\n")
  ].

(** The fog distance (lines 620-647). *)
Definition fog_distance_code (state : ShaderState float PshState) : step :=
  when (fog_enable state)
    (* From: https://www.opengl.org/registry/specs/NV/fog_distance.txt *)
    match foggen state with
    | FOGGEN_SPEC_ALPHA =>
        (* FIXME: Do we have to clamp here? *)
        to_body (c_str "  float fogDistance = clamp(specular.a, 0.0, 1.0);\n")
    | FOGGEN_RADIAL =>
        to_body (c_str "  float fogDistance = length(tPosition.xyz);\n")
    | FOGGEN_PLANAR
    | FOGGEN_ABS_PLANAR =>
        block [
          to_body (c_str "  float fogDistance = dot(fogPlane.xyz, tPosition.xyz) + fogPlane.w;\n");
          when (bool_decide (foggen state = FOGGEN_ABS_PLANAR))
            (to_body (c_str "  fogDistance = abs(fogDistance);\n"))
        ]
    | FOGGEN_FOG_X =>
        to_body (c_str "  float fogDistance = fogCoord;\n")
    end.

(** The point size (lines 658-672). *)
Definition point_size_code (state : ShaderState float PshState) : step :=
  (* FIXME: Testing *)
  if point_params_enable state then block [
    to_body_fmt
      (c_str "  float d_e = length(position * modelViewMat0);\n"
       +:+ c_str "  oPts.x = 1/sqrt(%f + %f*d_e + %f*d_e*d_e) + %f;\n")
      [Af (point_params state 0); Af (point_params state 1);
       Af (point_params state 2); Af (point_params state 6)];
    to_body_fmt (c_str "  oPts.x = min(oPts.x*%f + %f, 64.0) * %d;\n")
      [Af (point_params state 3); Af (point_params state 7);
       Ad (surface_scale_factor state)]
  ] else
    to_body_fmt (c_str "  oPts.x = %f * %d;\n")
      [Af (point_size state); Ad (surface_scale_factor state)].

(** The function, one step per section of its source. *)
Definition generate_fixed_function (state : ShaderState float PshState) : step :=
  block [
    (* generate vertex shader mimicking fixed function *)
    to_header fixed_function_header;
    (* Skinning *)
    skinning_code state;
    (* Normalization *)
    when (normalization state) (to_body (c_str "tNormal = normalize(tNormal);\n"));
    (* Texgen *)
    texgen_code state;
    (* Apply texture matrices *)
    texture_matrix_code state;
    (* Lighting *)
    lighting_code state;
    to_body (c_str "  oB0 = backDiffuse;\n");
    to_body (c_str "  oB1 = backSpecular;\n");
    (* Fog *)
    fog_distance_code state;
    (* If skinning is off the composite matrix already includes the MV matrix *)
    when (bool_decide (skinning state = SKINNING_OFF))
      (to_body (c_str "  tPosition = position;\n"));
    to_body
      (c_str "   oPos = invViewport * (tPosition * compositeMat);\n"
       +:+ c_str "   oPos.z = oPos.z * 2.0 - oPos.w;\n");
    point_size_code state;
    to_body (c_str "  vtx.inv_w = 1.0 / oPos.w;\n")
  ].

(** *** generate_vertex_shader (shaders.c lines 678-880)

    [vsh_translate] is the translator of vertex programs, which appends to
    the two buffers; its first argument in the source is the constant
    [VSH_VERSION_XVS]. *)
Variable vsh_translate : list Z -> Z -> bool -> step.

(** The initial text of [header] (lines 682-734). *)
Definition vertex_shader_header : string :=
  c_str "#version 400\n"
  +:+ c_str "\n"
  +:+ c_str "uniform vec2 clipRange;\n"
  +:+ c_str "uniform vec2 surfaceSize;\n"
  +:+ c_str "\n"
  (* All constants in 1 array declaration *)
  +:+ "uniform vec4 c[" +:+ stringify NV2A_VERTEXSHADER_CONSTANTS +:+ c_str "];\n"
  +:+ c_str "\n"
  +:+ c_str "uniform vec4 fogColor;\n"
  +:+ c_str "uniform float fogParam[2];\n"
  +:+ c_str "\n"
  +:+ GLSL_DEFINE "fogPlane" (GLSL_C (stringify NV_IGRAPH_XF_XFCTX_FOG))
  +:+ GLSL_DEFINE "texMat0" (GLSL_C_MAT4 (stringify NV_IGRAPH_XF_XFCTX_T0MAT))
  +:+ GLSL_DEFINE "texMat1" (GLSL_C_MAT4 (stringify NV_IGRAPH_XF_XFCTX_T1MAT))
  +:+ GLSL_DEFINE "texMat2" (GLSL_C_MAT4 (stringify NV_IGRAPH_XF_XFCTX_T2MAT))
  +:+ GLSL_DEFINE "texMat3" (GLSL_C_MAT4 (stringify NV_IGRAPH_XF_XFCTX_T3MAT))
  +:+ c_str "\n"
  +:+ c_str "vec4 oPos = vec4(0.0,0.0,0.0,1.0);\n"
  +:+ c_str "vec4 oD0 = vec4(0.0,0.0,0.0,1.0);\n"
  +:+ c_str "vec4 oD1 = vec4(0.0,0.0,0.0,1.0);\n"
  +:+ c_str "vec4 oB0 = vec4(0.0,0.0,0.0,1.0);\n"
  +:+ c_str "vec4 oB1 = vec4(0.0,0.0,0.0,1.0);\n"
  +:+ c_str "vec4 oPts = vec4(0.0,0.0,0.0,1.0);\n"
  (* We'll force 1.0 for oFog.x for now. *)
  +:+ c_str "vec4 oFog = vec4(1.0,0.0,0.0,1.0);\n"
  +:+ c_str "vec4 oT0 = vec4(0.0,0.0,0.0,1.0);\n"
  +:+ c_str "vec4 oT1 = vec4(0.0,0.0,0.0,1.0);\n"
  +:+ c_str "vec4 oT2 = vec4(0.0,0.0,0.0,1.0);\n"
  +:+ c_str "vec4 oT3 = vec4(0.0,0.0,0.0,1.0);\n"
  +:+ c_str "\n"
  +:+ c_str "vec4 decompress_11_11_10(int cmp) {\n"
  +:+ c_str "    float x = float(bitfieldExtract(cmp, 0,  11)) / 1023.0;\n"
  +:+ c_str "    float y = float(bitfieldExtract(cmp, 11, 11)) / 1023.0;\n"
  +:+ c_str "    float z = float(bitfieldExtract(cmp, 22, 10)) / 511.0;\n"
  +:+ c_str "    return vec4(x, y, z, 1);\n"
  +:+ c_str "}\n"
  +:+ STRUCT_VERTEX_DATA.

(** [state.compressed_attrs & (1 << i)] as a condition. *)
Definition attr_compressed (state : ShaderState float PshState) (i : nat) : bool :=
  negb (Z.land (compressed_attrs state) (Z.shiftl 1 (Z.of_nat i)) =? 0).

(** The fog factor (lines 775-856), appended to [body] after the
    fixed-function code or the translated vertex program.  The code reads
    [state.fog_enable], [state.vertex_program] and [state.fog_mode] only. *)
Definition fog_factor_stage_of (fog_enable vertex_program : bool) (fog_mode : FogMode)
    : step :=
  if fog_enable then block [
    when vertex_program
      (* FIXME: Does foggen do something here? Let's do some tracking.. *)
      (to_body (c_str "  float fogDistance = oFog.x;\n"));

    (* FIXME: Do this per pixel? *)
    match fog_mode with
    | FOG_MODE_LINEAR
    | FOG_MODE_LINEAR_ABS =>
        (* f = (end - d) / (end - start)
             fogParam[1] = -1 / (end - start)
             fogParam[0] = 1 - end * fogParam[1]; *)
        block [
          to_body (c_str "  if (isinf(fogDistance)) {\n"
                   +:+ c_str "    fogDistance = 0.0;\n"
                   +:+ c_str "  }\n");
          to_body (c_str "  float fogFactor = fogParam[0] + fogDistance * fogParam[1];\n");
          to_body (c_str "  fogFactor -= 1.0;\n")
        ]
    | FOG_MODE_EXP =>
        block [
          to_body (c_str "  if (isinf(fogDistance)) {\n"
                   +:+ c_str "    fogDistance = 0.0;\n"
                   +:+ c_str "  }\n");
          (* fallthru *)
          to_body (c_str "  float fogFactor = fogParam[0] + exp2(fogDistance * fogParam[1] * 16.0);\n");
          to_body (c_str "  fogFactor -= 1.5;\n")
        ]
    | FOG_MODE_EXP_ABS =>
        (* f = 1 / (e^(d * density))
             fogParam[1] = -density / (2 * ln(256))
             fogParam[0] = 1.5 *)
        block [
          to_body (c_str "  float fogFactor = fogParam[0] + exp2(fogDistance * fogParam[1] * 16.0);\n");
          to_body (c_str "  fogFactor -= 1.5;\n")
        ]
    | FOG_MODE_EXP2
    | FOG_MODE_EXP2_ABS =>
        (* f = 1 / (e^((d * density)^2))
             fogParam[1] = -density / (2 * sqrt(ln(256)))
             fogParam[0] = 1.5 *)
        block [
          to_body (c_str "  float fogFactor = fogParam[0] + exp2(-fogDistance * fogDistance * fogParam[1] * fogParam[1] * 32.0);\n");
          to_body (c_str "  fogFactor -= 1.5;\n")
        ]
    end;
    (* Calculate absolute for the modes which need it *)
    match fog_mode with
    | FOG_MODE_LINEAR_ABS
    | FOG_MODE_EXP_ABS
    | FOG_MODE_EXP2_ABS =>
        to_body (c_str "  fogFactor = abs(fogFactor);\n")
    | _ => skip
    end;

    to_body (c_str "  oFog.xyzw = vec4(fogFactor);\n")
  ] else
    (* FIXME: Is the fog still calculated / passed somehow?! *)
    to_body (c_str "  oFog.xyzw = vec4(1.0);\n").

Definition fog_factor_stage (state : ShaderState float PshState) : step :=
  fog_factor_stage_of (fog_enable state) (vertex_program state) (fog_mode state).

(** The text of "Set outputs" (lines 859-872), the last text of [body]. *)
Definition set_outputs : string :=
  c_str "\n"
  +:+ c_str "  vtx.D0 = clamp(oD0, 0.0, 1.0) * vtx.inv_w;\n"
  +:+ c_str "  vtx.D1 = clamp(oD1, 0.0, 1.0) * vtx.inv_w;\n"
  +:+ c_str "  vtx.B0 = clamp(oB0, 0.0, 1.0) * vtx.inv_w;\n"
  +:+ c_str "  vtx.B1 = clamp(oB1, 0.0, 1.0) * vtx.inv_w;\n"
  +:+ c_str "  vtx.Fog = oFog.x * vtx.inv_w;\n"
  +:+ c_str "  vtx.T0 = oT0 * vtx.inv_w;\n"
  +:+ c_str "  vtx.T1 = oT1 * vtx.inv_w;\n"
  +:+ c_str "  vtx.T2 = oT2 * vtx.inv_w;\n"
  +:+ c_str "  vtx.T3 = oT3 * vtx.inv_w;\n"
  +:+ c_str "  gl_Position = oPos;\n"
  +:+ c_str "  gl_PointSize = oPts.x;\n"
  +:+ c_str "\n"
  +:+ c_str "}\n".

(** [header] and [body] as they are when the fixed-function generator or
    the vertex-program translator is called (lines 682-759). *)
Definition vertex_shader_start (state : ShaderState float PshState) (vtx_prefix : ascii) : bufs :=
  let header := mstring_from_str vertex_shader_header in
  let header := mstring_append_fmt header (c_str "noperspective out VertexData %c_vtx;\n")
                  [Ac vtx_prefix] in
  let header := mstring_append_fmt header (c_str "#define vtx %c_vtx\n")
                  [Ac vtx_prefix] in
  let header := mstring_append header (c_str "\n") in
  let header :=
    foldl (fun header i =>
             if attr_compressed state i then
               mstring_append_fmt header
                 (c_str "layout(location = %d) in int v%d_cmp;\n") [An i; An i]
             else
               mstring_append_fmt header
                 (c_str "layout(location = %d) in vec4 v%d;\n") [An i; An i])
          header (seq 0 NV2A_VERTEXSHADER_ATTRIBUTES) in
  let header := mstring_append header (c_str "\n") in
  let body := mstring_from_str (c_str "void main() {\n") in
  let body :=
    foldl (fun body i =>
             if attr_compressed state i then
               mstring_append_fmt body
                 (c_str "vec4 v%d = decompress_11_11_10(v%d_cmp);\n") [An i; An i]
             else body)
          body (seq 0 NV2A_VERTEXSHADER_ATTRIBUTES) in
  (header, body).

(** The fixed-function generator or the vertex-program translator
    (lines 761-772). *)
Definition vertex_stage (state : ShaderState float PshState) : step :=
  if fixed_function state then generate_fixed_function state
  else if vertex_program state then
    vsh_translate (program_data state) (program_length state) (z_perspective state)
  else assert_step 771 false.

Definition generate_vertex_shader (state : ShaderState float PshState) (vtx_prefix : ascii)
    : outcome MString :=
  obind (block [
           vertex_stage state;
           (* Fog *)
           fog_factor_stage state;
           (* Set outputs *)
           to_body set_outputs
         ] (vertex_shader_start state vtx_prefix))
    (fun '(header, body) =>
       (* Return combined header + source *)
       Done (mstring_append header (mstring_get_str body))).

(** *** The OpenGL driver and the register-combiner translator

    A linked program is known by the sources of its shaders.  The driver
    decides whether a source compiles and whether a program links and
    validates, and resolves the uniform names of a linked program. *)
Inductive shader_type := GL_GEOMETRY_SHADER | GL_VERTEX_SHADER | GL_FRAGMENT_SHADER.

Record linked_program := {
  geometry_source : option string;
  vertex_source : string;
  fragment_source : string
}.

Variable psh_translate : PshState -> MString.
Variable compile_status : shader_type -> string -> bool.
Variable link_status : linked_program -> bool.
Variable validate_status : linked_program -> bool.
Variable glGetUniformLocation : linked_program -> string -> Z.

(** create_gl_shader (lines 882-915): the shader, or [abort()]. *)
Definition create_gl_shader (gl_shader_type : shader_type) (code name : string)
    : outcome string :=
  if compile_status gl_shader_type code then Done code
  else Aborted (CompileFailed name).

(** [snprintf(tmp, size, fmt, ...)]: the text left in [tmp]. *)
Definition snprintf (size : nat) (fmt : string) (args : list fmt_arg) : string :=
  fst (vsnprintf size fmt args).

(** The table of uniform locations of shaders.h, with the array sizes that
    the loops of [generate_shaders] run over. *)
Record ShaderBinding := {
  gl_program : linked_program;
  gl_primitive_mode : GLenum;
  psh_constant_loc : list (list Z);
  alpha_ref_loc : Z;
  bump_mat_loc : list Z;
  bump_scale_loc : list Z;
  bump_offset_loc : list Z;
  tex_scale_loc : list Z;
  vsh_constant_loc : list Z;
  surface_size_loc : Z;
  clip_range_loc : Z;
  fog_color_loc : Z;
  fog_param_loc : list Z;
  inv_viewport_loc : Z;
  ltctxa_loc : list Z;
  ltctxb_loc : list Z;
  ltc1_loc : list Z;
  light_infinite_half_vector_loc : list Z;
  light_infinite_direction_loc : list Z;
  light_local_position_loc : list Z;
  light_local_attenuation_loc : list Z;
  clip_region_loc : list Z
}.

(** [for (i = lo; i < hi; i++) arr[i] = glGetUniformLocation(program, name i)]
    on an array that [g_malloc0] has filled with zeros. *)
Definition locate (program : linked_program) (lo hi : nat) (name : nat -> string)
    (arr : list Z) : list Z :=
  foldl (fun arr i => <[i := glGetUniformLocation program (name i)]> arr)
        arr (seq lo (hi - lo)).

(** The two nested loops over [psh_constant_loc[i][j]] (lines 1001-1006). *)
Definition locate_psh_constants (program : linked_program) (arr : list (list Z))
    : list (list Z) :=
  foldl (fun arr i =>
           foldl (fun arr j =>
                    let tmp := snprintf 64 "c%d_%d" [An j; An i] in
                    <[i := <[j := glGetUniformLocation program tmp]> (arr !!! i)]> arr)
                 arr (seq 0 2))
        arr (seq 0 9).

(** The sampler loop (lines 976-983): the calls [glUniform1i(loc, i)]. *)
Definition set_texture_samplers (program : linked_program) : list (Z * Z) :=
  flat_map (fun i =>
              let samplerName := snprintf 16 "texSamp%d" [An i] in
              let texSampLoc := glGetUniformLocation program samplerName in
              if 0 <=? texSampLoc then [(texSampLoc, Z.of_nat i)] else [])
           (seq 0 NV2A_MAX_TEXTURES).

(** *** generate_shaders (shaders.c lines 917-1063)

    The result is the binding together with the [glUniform1i] calls made
    on the way.  The loop over the lights fills four arrays; the model
    fills them one after the other, the lookups do not depend on each
    other. *)
Definition generate_shaders (state : ShaderState float PshState) : outcome (ShaderBinding * list (Z * Z)) :=
  (* Create an option geometry shader and find primitive type *)
  obind (generate_geometry_shader (polygon_front_mode state)
                                  (polygon_back_mode state)
                                  (primitive_mode state))
    (fun '(gl_primitive_mode, geometry_shader_code) =>
  obind (match geometry_shader_code with
         | Some code =>
             obind (create_gl_shader GL_GEOMETRY_SHADER (mstring_get_str code)
                                     "geometry shader")
               (fun geometry_shader => Done (Some geometry_shader, "v"%char))
         | None => Done (None, "g"%char)
         end)
    (fun '(geometry_shader, vtx_prefix) =>
  (* create the vertex shader *)
  obind (generate_vertex_shader state vtx_prefix) (fun vertex_shader_code =>
  obind (create_gl_shader GL_VERTEX_SHADER (mstring_get_str vertex_shader_code)
                          "vertex shader")
    (fun vertex_shader =>
  (* generate a fragment shader from register combiners *)
  let fragment_shader_code := psh_translate (psh state) in
  obind (create_gl_shader GL_FRAGMENT_SHADER (mstring_get_str fragment_shader_code)
                          "fragment shader")
    (fun fragment_shader =>
  (* link the program *)
  let program := {| geometry_source := geometry_shader;
                    vertex_source := vertex_shader;
                    fragment_source := fragment_shader |} in
  if negb (link_status program) then Aborted LinkFailed else
  (* set texture samplers *)
  let samplers := set_texture_samplers program in
  (* validate the program *)
  if negb (validate_status program) then Aborted ValidateFailed else
  let loc := glGetUniformLocation program in
  Done ({|
    gl_program := program;
    gl_primitive_mode := gl_primitive_mode;
    (* lookup fragment shader uniforms *)
    psh_constant_loc :=
      locate_psh_constants program (replicate 9 (replicate 2 0));
    alpha_ref_loc := loc "alphaRef";
    bump_mat_loc :=
      locate program 1 NV2A_MAX_TEXTURES
        (fun i => snprintf 64 "bumpMat%d" [An i]) (replicate NV2A_MAX_TEXTURES 0);
    bump_scale_loc :=
      locate program 1 NV2A_MAX_TEXTURES
        (fun i => snprintf 64 "bumpScale%d" [An i]) (replicate NV2A_MAX_TEXTURES 0);
    bump_offset_loc :=
      locate program 1 NV2A_MAX_TEXTURES
        (fun i => snprintf 64 "bumpOffset%d" [An i]) (replicate NV2A_MAX_TEXTURES 0);
    tex_scale_loc :=
      locate program 0 NV2A_MAX_TEXTURES
        (fun i => snprintf 64 "texScale%d" [An i]) (replicate NV2A_MAX_TEXTURES 0);
    (* lookup vertex shader uniforms *)
    vsh_constant_loc :=
      locate program 0 (macro_value NV2A_VERTEXSHADER_CONSTANTS)
        (fun i => snprintf 64 "c[%d]" [An i])
        (replicate (macro_value NV2A_VERTEXSHADER_CONSTANTS) 0);
    surface_size_loc := loc "surfaceSize";
    clip_range_loc := loc "clipRange";
    fog_color_loc := loc "fogColor";
    fog_param_loc :=
      <[1%nat := loc "fogParam[1]"]> (<[0%nat := loc "fogParam[0]"]> (replicate 2 0));
    inv_viewport_loc := loc "invViewport";
    ltctxa_loc :=
      locate program 0 (macro_value NV2A_LTCTXA_COUNT)
        (fun i => snprintf 64 "ltctxa[%d]" [An i])
        (replicate (macro_value NV2A_LTCTXA_COUNT) 0);
    ltctxb_loc :=
      locate program 0 (macro_value NV2A_LTCTXB_COUNT)
        (fun i => snprintf 64 "ltctxb[%d]" [An i])
        (replicate (macro_value NV2A_LTCTXB_COUNT) 0);
    ltc1_loc :=
      locate program 0 (macro_value NV2A_LTC1_COUNT)
        (fun i => snprintf 64 "ltc1[%d]" [An i])
        (replicate (macro_value NV2A_LTC1_COUNT) 0);
    light_infinite_half_vector_loc :=
      locate program 0 NV2A_MAX_LIGHTS
        (fun i => snprintf 64 "lightInfiniteHalfVector%d" [An i])
        (replicate NV2A_MAX_LIGHTS 0);
    light_infinite_direction_loc :=
      locate program 0 NV2A_MAX_LIGHTS
        (fun i => snprintf 64 "lightInfiniteDirection%d" [An i])
        (replicate NV2A_MAX_LIGHTS 0);
    light_local_position_loc :=
      locate program 0 NV2A_MAX_LIGHTS
        (fun i => snprintf 64 "lightLocalPosition%d" [An i])
        (replicate NV2A_MAX_LIGHTS 0);
    light_local_attenuation_loc :=
      locate program 0 NV2A_MAX_LIGHTS
        (fun i => snprintf 64 "lightLocalAttenuation%d" [An i])
        (replicate NV2A_MAX_LIGHTS 0);
    clip_region_loc :=
      locate program 0 8
        (fun i => snprintf 64 "clipRegion[%d]" [An i]) (replicate 8 0)
  |}, samplers)))))).

(** ** Notions used in the statements *)

(** What the geometry-stage program chosen for a polygon mode and a
    primitive emits for the input primitive [prim_id]; [None] where no
    program is generated. *)
Definition geometry_events (polygon_front_mode polygon_back_mode : ShaderPolygonMode)
    (primitive_mode : ShaderPrimitiveMode) (prim_id : Z) : option (list Glsl.event) :=
  match geometry_shader_switch polygon_front_mode polygon_back_mode primitive_mode with
  | Done (_, Some (_, _, body)) => Glsl.geometry_output body prim_id
  | _ => None
  end.

(** The text [sub] occurs in the text [s]. *)
Definition occurs_in (sub s : string) : Prop :=
  exists pre post, s = pre +:+ sub +:+ post.




(** The first primitive of a quad strip emits one more vertex, in front,
    than the next even primitive does. *)
Definition quad_strip_leading_vertex (polygon_mode : ShaderPolygonMode) : Prop :=
  exists v rest,
    geometry_events polygon_mode polygon_mode PRIM_TYPE_QUAD_STRIP 0
    = Some (Glsl.EmitVertex v :: rest)
    /\ geometry_events polygon_mode polygon_mode PRIM_TYPE_QUAD_STRIP 2 = Some rest.

(** The contract of the claims on a state: equal front and back polygon
    modes, a primitive that the switch of [generate_geometry_shader] names
    (or point mode, which never reaches the switch), and exactly one of
    [fixed_function] and [vertex_program]. *)
Definition supported_pairing (polygon_mode : ShaderPolygonMode)
    (primitive_mode : ShaderPrimitiveMode) : Prop :=
  polygon_mode = POLY_MODE_POINT \/ primitive_mode <> PRIM_TYPE_other.

Definition in_contract (state : ShaderState float PshState) : Prop :=
  polygon_front_mode state = polygon_back_mode state
  /\ supported_pairing (polygon_front_mode state) (primitive_mode state)
  /\ fixed_function state = negb (vertex_program state).

(** The skinning modes with a generated last weight. *)
Definition skinning_supported (s : Skinning) : bool :=
  match s with
  | SKINNING_OFF | SKINNING_1WEIGHTS | SKINNING_2WEIGHTS | SKINNING_3WEIGHTS => true
  | SKINNING_2WEIGHTS2MATRICES | SKINNING_3WEIGHTS3MATRICES
  | SKINNING_4WEIGHTS4MATRICES => false
  end.

(** The texgen modes that component [j] (0 to 3 for S, T, R, Q) can have. *)
Definition texgen_supported (mode : TexGen) (j : nat) : bool :=
  match mode with
  | TEXGEN_DISABLE | TEXGEN_EYE_LINEAR => true
  | TEXGEN_OBJECT_LINEAR => false
  | TEXGEN_SPHERE_MAP => (j <? 2)%nat
  | TEXGEN_REFLECTION_MAP | TEXGEN_NORMAL_MAP => (j <? 3)%nat
  end.

Definition fixed_function_supported (state : ShaderState float PshState) : Prop :=
  skinning_supported (skinning state) = true
  /\ forall i j, (i < NV2A_MAX_TEXTURES)%nat -> (j < 4)%nat ->
       texgen_supported (texgen state i j) j = true.

(** A step that returns from every pair of buffers, and a step that
    returns from some pair. *)
Definition succeeds (s : step) : Prop := forall hb, exists hb', s hb = Done hb'.
Definition may_succeed (s : step) : Prop := exists hb hb', s hb = Done hb'.

(** The text that [fog_factor_stage] appends to [body]. *)
Definition fog_factor_text_of (fog_enable vertex_program : bool) (fog_mode : FogMode)
    : string :=
  match fog_factor_stage_of fog_enable vertex_program fog_mode ("", "") with
  | Done (_, body) => body
  | Aborted _ => ""
  end.

Definition fog_factor_text (state : ShaderState float PshState) : string :=
  fog_factor_text_of (fog_enable state) (vertex_program state) (fog_mode state).

(** The fog modes whose name ends in ABS, and the fog modes for which the
    source emits the test on [isinf]. *)
Definition fog_mode_abs (mode : FogMode) : bool :=
  match mode with
  | FOG_MODE_LINEAR_ABS | FOG_MODE_EXP_ABS | FOG_MODE_EXP2_ABS => true
  | FOG_MODE_LINEAR | FOG_MODE_EXP | FOG_MODE_EXP2 => false
  end.

Definition fog_mode_guarded (mode : FogMode) : bool :=
  match mode with
  | FOG_MODE_LINEAR | FOG_MODE_LINEAR_ABS | FOG_MODE_EXP => true
  | FOG_MODE_EXP_ABS | FOG_MODE_EXP2 | FOG_MODE_EXP2_ABS => false
  end.

Section Readings.
Context {num : Type} `{Glsl.Arith num}.

Definition vec3_of (c : nat -> num) : list num := map c [0; 1; 2]%nat.
Definition vec4_of (c : nat -> num) : list num := map c [0; 1; 2; 3]%nat.

(** A matrix from its entries [m column row]. *)
Definition mat4_of (m : nat -> nat -> num) : list (list num) :=
  map (fun col => vec4_of (m col)) [0; 1; 2; 3]%nat.

(** The variables that the fog factor code reads: the two fog parameters
    and the fog distance [d], which the fixed-function code has left in
    [fogDistance] and a vertex program in [oFog.x]. *)
Definition fog_env (p0 p1 d : num) : Glsl.env :=
  [("fogParam", Glsl.VVec [p0; p1]);
   ("fogDistance", Glsl.VNum d);
   ("oFog", Glsl.VVec [d; Glsl.num_dec 0 1; Glsl.num_dec 0 1; Glsl.num_dec 10 1])].

(** The fog factor as the emitted code computes it, operation by
    operation, from the distance that reaches the formula. *)
Definition fog_factor_value (mode : FogMode) (p0 p1 d : num) : num :=
  let biased :=
    match mode with
    | FOG_MODE_LINEAR | FOG_MODE_LINEAR_ABS =>
        Glsl.num_sub (Glsl.num_add p0 (Glsl.num_mul d p1)) (Glsl.num_dec 10 1)
    | FOG_MODE_EXP | FOG_MODE_EXP_ABS =>
        Glsl.num_sub
          (Glsl.num_add p0
             (Glsl.num_exp2 (Glsl.num_mul (Glsl.num_mul d p1) (Glsl.num_dec 160 1))))
          (Glsl.num_dec 15 1)
    | FOG_MODE_EXP2 | FOG_MODE_EXP2_ABS =>
        Glsl.num_sub
          (Glsl.num_add p0
             (Glsl.num_exp2
                (Glsl.num_mul
                   (Glsl.num_mul
                      (Glsl.num_mul (Glsl.num_mul (Glsl.num_neg d) d) p1) p1)
                   (Glsl.num_dec 320 1))))
          (Glsl.num_dec 15 1)
    end in
  if fog_mode_abs mode then Glsl.num_abs biased else biased.

(** The distance that reaches the formula: the literal [0.0] in place of
    an infinite distance where the test on [isinf] is emitted. *)
Definition fog_distance_used (mode : FogMode) (d : num) : num :=
  if fog_mode_guarded mode && Glsl.num_isinf d then Glsl.num_dec 0 1 else d.

(** The variables that the skinning code reads: the weights, the
    position, the normal, and per bone the model-view matrix and its
    inverse. *)
Definition skin_env (w p n : nat -> num) (M IM : nat -> nat -> nat -> num) : Glsl.env :=
  [("weight", Glsl.VVec (vec4_of w));
   ("position", Glsl.VVec (vec4_of p));
   ("normal", Glsl.VVec (vec3_of n));
   ("modelViewMat0", Glsl.VMat (mat4_of (M 0%nat)));
   ("modelViewMat1", Glsl.VMat (mat4_of (M 1%nat)));
   ("modelViewMat2", Glsl.VMat (mat4_of (M 2%nat)));
   ("modelViewMat3", Glsl.VMat (mat4_of (M 3%nat)));
   ("invModelViewMat0", Glsl.VMat (mat4_of (IM 0%nat)));
   ("invModelViewMat1", Glsl.VMat (mat4_of (IM 1%nat)));
   ("invModelViewMat2", Glsl.VMat (mat4_of (IM 2%nat)));
   ("invModelViewMat3", Glsl.VMat (mat4_of (IM 3%nat)))].

(** [zero + T0 * w0 + T1 * w1 + ...], component by component. *)
Definition accumulate (zero : list num) (Ts : list (list num)) (ws : list num) : list num :=
  foldl (fun acc Tw => zip_with Glsl.num_add acc
                         (map (fun x => Glsl.num_mul x (snd Tw)) (fst Tw)))
        zero (zip Ts ws).

(** The weights as the emitted code computes them: the first [count - 1]
    are read from [weight], the last is what is left of [1.0] after
    subtracting them one by one. *)
Definition bone_weights (count : nat) (w : nat -> num) : list num :=
  map w (seq 0 (count - 1))
  ++ [foldl Glsl.num_sub (Glsl.num_dec 10 1) (map w (seq 0 (count - 1)))].

(** The position of the vertex through the matrix of bone [i], and its
    normal through the inverse matrix of bone [i]. *)
Definition bone_position (p : nat -> num) (M : nat -> nat -> nat -> num) (i : nat)
    : list num :=
  map (Glsl.dot (vec4_of p)) (mat4_of (M i)).

Definition bone_normal (n : nat -> num) (IM : nat -> nat -> nat -> num) (i : nat)
    : list num :=
  take 3 (map (Glsl.dot (vec3_of n ++ [Glsl.num_dec 0 1])) (mat4_of (IM i))).

(** The variables that the code of "Set outputs" reads: the registers
    oD0, oD1, oB0, oB1, oFog, oT0 to oT3, oPos and oPts, numbered in this
    order, and the inverse of W. *)
Definition outputs_env (reg : nat -> nat -> num) (inv_w : num) : Glsl.env :=
  ("vtx.inv_w", Glsl.VNum inv_w)
  :: imap (fun k name => (name, Glsl.VVec (vec4_of (reg k))))
       ["oD0"; "oD1"; "oB0"; "oB1"; "oFog"; "oT0"; "oT1"; "oT2"; "oT3"; "oPos"; "oPts"].

(** Clamped to the range from [0.0] to [1.0], then scaled. *)
Definition clamp_then_scale (x inv_w : num) : num :=
  Glsl.num_mul (Glsl.num_min (Glsl.num_max x (Glsl.num_dec 0 1)) (Glsl.num_dec 10 1)) inv_w.

End Readings.

(** The text that [append_skinning_code] appends. *)
Definition skinning_text (mix : bool) (count : nat)
    (type output input matrix swizzle : string) : string :=
  match append_skinning_code "" mix count type output input matrix swizzle with
  | Done s => s
  | Aborted _ => ""
  end.

(** Modelled from the spec: the fog factor table of section 4.2 (mode,
    formula, bias, absolute value), over the reals. *)
Definition fog_table (mode : FogMode) (p0 p1 d : R) : R :=
  let formula :=
    match mode with
    | FOG_MODE_LINEAR | FOG_MODE_LINEAR_ABS => (p0 + d * p1)%R
    | FOG_MODE_EXP | FOG_MODE_EXP_ABS => (p0 + Rpower 2 (d * p1 * 16))%R
    | FOG_MODE_EXP2 | FOG_MODE_EXP2_ABS => (p0 + Rpower 2 (- (d * p1) ^ 2 * 32))%R
    end in
  let bias :=
    match mode with
    | FOG_MODE_LINEAR | FOG_MODE_LINEAR_ABS => 1%R
    | _ => (15 / 10)%R
    end in
  if fog_mode_abs mode then Rabs (formula - bias) else (formula - bias)%R.

(** Modelled from the spec: the weights of the unity-sum mode with
    [count] bones, the given [count - 1] weights followed by one minus
    their sum. *)
Definition unity_sum_weights (count : nat) (w : nat -> R) : list R :=
  map w (seq 0 (count - 1))
  ++ [(1 - foldr Rplus 0 (map w (seq 0 (count - 1))))%R].

(** The entries [lo] to [hi - 1] of the array [arr], of size [hi], hold
    what the driver answers for the names [fmt] with the index. *)
Definition located (loc : string -> Z) (arr : list Z) (lo hi : nat) (fmt : string) : Prop :=
  length arr = hi
  /\ forall i, (lo <= i < hi)%nat ->
       arr !! i = Some (loc (snprintf 64 fmt [An i])) /\ -1 <= loc (snprintf 64 fmt [An i]).

(** The bump entries of all four texture stages hold what the driver
    answers for their names. *)
Definition bump_entries_located (binding : ShaderBinding) : Prop :=
  let loc := glGetUniformLocation (gl_program binding) in
  located loc (bump_mat_loc binding) 0 NV2A_MAX_TEXTURES "bumpMat%d"
  /\ located loc (bump_scale_loc binding) 0 NV2A_MAX_TEXTURES "bumpScale%d"
  /\ located loc (bump_offset_loc binding) 0 NV2A_MAX_TEXTURES "bumpOffset%d".

(** ** A sample platform and sample states

    A platform on which the section can be run: floats that print as
    integers with six zero decimals, a driver that compiles, links and
    validates everything and knows no uniform (every lookup answers -1),
    and a vertex-program translator that appends nothing. *)

Definition sample_fmt_f (x : Z) : string := fmt_d x +:+ ".000000".

Definition sample_struct : string :=
  c_str "struct VertexData {\n  float inv_w;\n  vec4 D0;\n  vec4 D1;\n  vec4 B0;\n"
  +:+ c_str "  vec4 B1;\n  float Fog;\n  vec4 T0;\n  vec4 T1;\n  vec4 T2;\n  vec4 T3;\n};\n".

Definition sample_stringify (m : macro) : string :=
  match m with
  | NV2A_VERTEXSHADER_CONSTANTS => "6"
  | NV2A_LTCTXA_COUNT => "3"
  | NV2A_LTCTXB_COUNT => "2"
  | NV2A_LTC1_COUNT => "1"
  | _ => "0"
  end.

Definition sample_macro_value (m : macro) : nat :=
  match m with
  | NV2A_VERTEXSHADER_CONSTANTS => 6
  | NV2A_LTCTXA_COUNT => 3
  | NV2A_LTCTXB_COUNT => 2
  | NV2A_LTC1_COUNT => 1
  | _ => 0
  end.

Definition sample_Skinning_value (s : Skinning) : Z :=
  match s with
  | SKINNING_OFF => 0
  | SKINNING_1WEIGHTS => 1
  | SKINNING_2WEIGHTS2MATRICES => 2
  | SKINNING_2WEIGHTS => 3
  | SKINNING_3WEIGHTS3MATRICES => 4
  | SKINNING_3WEIGHTS => 5
  | SKINNING_4WEIGHTS4MATRICES => 6
  end.

Definition sample_vsh_translate (data : list Z) (len : Z) (z_persp : bool) : step :=
  fun hb => Done hb.

Definition sample_psh_translate (p : unit) : MString := c_str "void main() {\n}\n".
Definition sample_compile_status (t : shader_type) (code : string) : bool := true.
Definition sample_link_status (p : linked_program) : bool := true.
Definition sample_validate_status (p : linked_program) : bool := true.
Definition sample_glGetUniformLocation (p : linked_program) (name : string) : Z := -1.

(** A fixed-function state: quads in fill mode, skinning with two
    supplied weights, fog in mode exp-abs, two lights. *)
Definition sample_state : ShaderState Z unit := {|
  psh := tt;
  compressed_attrs := 4;
  texture_matrix_enable := fun i => bool_decide (i = 1%nat);
  texgen := fun i j => if bool_decide (i = 0%nat) then TEXGEN_EYE_LINEAR else TEXGEN_DISABLE;
  fog_enable := true;
  foggen := FOGGEN_RADIAL;
  fog_mode := FOG_MODE_EXP_ABS;
  skinning := SKINNING_2WEIGHTS;
  normalization := true;
  lighting := true;
  light := fun i => match i with
                    | 0%nat => LIGHT_INFINITE
                    | 1%nat => LIGHT_SPOT
                    | _ => LIGHT_OFF
                    end;
  ambient_src := MATERIAL_COLOR_SRC_MATERIAL;
  emission_src := MATERIAL_COLOR_SRC_DIFFUSE;
  surface_scale_factor := 1;
  fixed_function := true;
  vertex_program := false;
  z_perspective := false;
  program_data := [];
  program_length := 0;
  polygon_front_mode := POLY_MODE_FILL;
  polygon_back_mode := POLY_MODE_FILL;
  primitive_mode := PRIM_TYPE_QUADS;
  point_params_enable := false;
  point_size := 1;
  point_params := fun i => 0
|}.

(** In-contract fixed-function states that the generator refuses: skinning
    with two independent weights, and object-linear texgen on component S
    of stage 0. *)
Definition sample_state_independent_weights : ShaderState Z unit := {|
  psh := tt;
  compressed_attrs := 0;
  texture_matrix_enable := fun i => false;
  texgen := fun i j => TEXGEN_DISABLE;
  fog_enable := false;
  foggen := FOGGEN_SPEC_ALPHA;
  fog_mode := FOG_MODE_LINEAR;
  skinning := SKINNING_2WEIGHTS2MATRICES;
  normalization := false;
  lighting := false;
  light := fun i => LIGHT_OFF;
  ambient_src := MATERIAL_COLOR_SRC_MATERIAL;
  emission_src := MATERIAL_COLOR_SRC_MATERIAL;
  surface_scale_factor := 1;
  fixed_function := true;
  vertex_program := false;
  z_perspective := false;
  program_data := [];
  program_length := 0;
  polygon_front_mode := POLY_MODE_FILL;
  polygon_back_mode := POLY_MODE_FILL;
  primitive_mode := PRIM_TYPE_TRIANGLES;
  point_params_enable := false;
  point_size := 1;
  point_params := fun i => 0
|}.

Definition sample_state_object_linear : ShaderState Z unit := {|
  psh := tt;
  compressed_attrs := 0;
  texture_matrix_enable := fun i => false;
  texgen := fun i j =>
    if bool_decide (i = 0%nat) && bool_decide (j = 0%nat)
    then TEXGEN_OBJECT_LINEAR else TEXGEN_DISABLE;
  fog_enable := false;
  foggen := FOGGEN_SPEC_ALPHA;
  fog_mode := FOG_MODE_LINEAR;
  skinning := SKINNING_OFF;
  normalization := false;
  lighting := false;
  light := fun i => LIGHT_OFF;
  ambient_src := MATERIAL_COLOR_SRC_MATERIAL;
  emission_src := MATERIAL_COLOR_SRC_MATERIAL;
  surface_scale_factor := 1;
  fixed_function := true;
  vertex_program := false;
  z_perspective := false;
  program_data := [];
  program_length := 0;
  polygon_front_mode := POLY_MODE_FILL;
  polygon_back_mode := POLY_MODE_FILL;
  primitive_mode := PRIM_TYPE_TRIANGLES;
  point_params_enable := false;
  point_size := 1;
  point_params := fun i => 0
|}.

(** A state with wireframe front faces and filled back faces. *)
Definition sample_state_two_sided : ShaderState Z unit := {|
  psh := tt;
  compressed_attrs := 0;
  texture_matrix_enable := fun i => false;
  texgen := fun i j => TEXGEN_DISABLE;
  fog_enable := false;
  foggen := FOGGEN_SPEC_ALPHA;
  fog_mode := FOG_MODE_LINEAR;
  skinning := SKINNING_OFF;
  normalization := false;
  lighting := false;
  light := fun i => LIGHT_OFF;
  ambient_src := MATERIAL_COLOR_SRC_MATERIAL;
  emission_src := MATERIAL_COLOR_SRC_MATERIAL;
  surface_scale_factor := 1;
  fixed_function := true;
  vertex_program := false;
  z_perspective := false;
  program_data := [];
  program_length := 0;
  polygon_front_mode := POLY_MODE_LINE;
  polygon_back_mode := POLY_MODE_FILL;
  primitive_mode := PRIM_TYPE_TRIANGLES;
  point_params_enable := false;
  point_size := 1;
  point_params := fun i => 0
|}.

(** ** Notions used in the further properties *)

(** The formats and arguments on which [format] is the text that C
    prints: every [%] starts one of the conversions [%d], [%c], [%s] and
    [%f], without flag, width or precision and not [%%], and meets an
    argument of its kind, for [%d] one in the range of [int]. *)
Definition fits (k : ascii) (a : fmt_arg) : bool :=
  match k, a with
  | "d"%char, Ad n => bool_decide (- 2 ^ 31 <= n < 2 ^ 31)
  | "c"%char, Ac _ => true
  | "s"%char, As _ => true
  | "f"%char, Af _ => true
  | _, _ => false
  end.

Fixpoint plain_format (fmt : string) (args : list fmt_arg) : bool :=
  match fmt with
  | String "%" (String k r) =>
      match args with
      | a :: args' => fits k a && plain_format r args'
      | [] => false
      end
  | String "%" EmptyString => false
  | String _ r => plain_format r args
  | EmptyString => true
  end.

(** A text without the byte 0, which would end it as a C string. *)
Fixpoint nul_free (s : string) : bool :=
  match s with
  | EmptyString => true
  | String c r => negb (Ascii.eqb c Ascii.zero) && nul_free r
  end.

(** *** generate_geometry_shader on any value of its polygon modes

    A value of a C enumeration is one of its enumerators or an integer
    that names none of them.  [geometry_shader_switch_c] and
    [generate_geometry_shader_c] are lines 73-236 once more, for polygon
    modes of this kind and with the three pointers [layout_in],
    [layout_out] and [body], which are [NULL] before the switch. *)
Inductive c_enum (A : Type) : Type :=
| Named (a : A)
| Unnamed (value : Z).
Arguments Named {A} a.
Arguments Unnamed {A} value.

#[global] Instance c_enum_eq_dec {A : Type} `{EqDecision A} : EqDecision (c_enum A).
Proof. solve_decision. Defined.

Definition geometry_shader_switch_c
    (polygon_front_mode polygon_back_mode : c_enum ShaderPolygonMode)
    (primitive_mode : ShaderPrimitiveMode)
    : outcome (GLenum * option (option string * option string * option string)) :=
  (* FIXME: Missing support for 2-sided-poly mode *)
  obind (assert_ 81 (bool_decide (polygon_front_mode = polygon_back_mode))) (fun _ =>
  let polygon_mode := polygon_front_mode in
  (* POINT mode shouldn't require any special work *)
  if bool_decide (polygon_mode = Named POLY_MODE_POINT) then Done (GL_POINTS, None) else
  (* Handle LINE and FILL mode *)
    let layout_in : option string := None in
    let layout_out : option string := None in
    let body : option string := None in
    match primitive_mode with
    | PRIM_TYPE_POINTS => Done (GL_POINTS, None)
    | PRIM_TYPE_LINES => Done (GL_LINES, None)
    | PRIM_TYPE_LINE_LOOP => Done (GL_LINE_LOOP, None)
    | PRIM_TYPE_LINE_STRIP => Done (GL_LINE_STRIP, None)
    | PRIM_TYPE_TRIANGLES =>
        if bool_decide (polygon_mode = Named POLY_MODE_FILL) then Done (GL_TRIANGLES, None) else
        obind (assert_ 102 (bool_decide (polygon_mode = Named POLY_MODE_LINE))) (fun _ =>
        let layout_in := Some (c_str "layout(triangles) in;\n") in
        let layout_out := Some (c_str "layout(line_strip, max_vertices = 4) out;\n") in
        let body := Some (
          c_str "  emit_vertex(0);\n"
          +:+ c_str "  emit_vertex(1);\n"
          +:+ c_str "  emit_vertex(2);\n"
          +:+ c_str "  emit_vertex(0);\n"
          +:+ c_str "  EndPrimitive();\n") in
        Done (GL_TRIANGLES, Some (layout_in, layout_out, body)))
    | PRIM_TYPE_TRIANGLE_STRIP =>
        if bool_decide (polygon_mode = Named POLY_MODE_FILL)
        then Done (GL_TRIANGLE_STRIP, None) else
        obind (assert_ 114 (bool_decide (polygon_mode = Named POLY_MODE_LINE))) (fun _ =>
        let layout_in := Some (c_str "layout(triangles) in;\n") in
        let layout_out := Some (c_str "layout(line_strip, max_vertices = 4) out;\n") in
        let body := Some (
          c_str "  if ((gl_PrimitiveIDIn & 1) == 0) {\n"
          +:+ c_str "    if (gl_PrimitiveIDIn == 0) {\n"
          +:+ c_str "      emit_vertex(0);\n"
          +:+ c_str "    }\n"
          +:+ c_str "    emit_vertex(1);\n"
          +:+ c_str "    emit_vertex(2);\n"
          +:+ c_str "    emit_vertex(0);\n"
          +:+ c_str "  } else {\n"
          +:+ c_str "    emit_vertex(2);\n"
          +:+ c_str "    emit_vertex(1);\n"
          +:+ c_str "    emit_vertex(0);\n"
          +:+ c_str "  }\n"
          +:+ c_str "  EndPrimitive();\n") in
        Done (GL_TRIANGLE_STRIP, Some (layout_in, layout_out, body)))
    | PRIM_TYPE_TRIANGLE_FAN =>
        if bool_decide (polygon_mode = Named POLY_MODE_FILL)
        then Done (GL_TRIANGLE_FAN, None) else
        obind (assert_ 136 (bool_decide (polygon_mode = Named POLY_MODE_LINE))) (fun _ =>
        let layout_in := Some (c_str "layout(triangles) in;\n") in
        let layout_out := Some (c_str "layout(line_strip, max_vertices = 4) out;\n") in
        let body := Some (
          c_str "  if (gl_PrimitiveIDIn == 0) {\n"
          +:+ c_str "    emit_vertex(0);\n"
          +:+ c_str "  }\n"
          +:+ c_str "  emit_vertex(1);\n"
          +:+ c_str "  emit_vertex(2);\n"
          +:+ c_str "  emit_vertex(0);\n"
          +:+ c_str "  EndPrimitive();\n") in
        Done (GL_TRIANGLE_FAN, Some (layout_in, layout_out, body)))
    | PRIM_TYPE_QUADS =>
        let layout_in := Some (c_str "layout(lines_adjacency) in;\n") in
        if bool_decide (polygon_mode = Named POLY_MODE_LINE) then
          let layout_out := Some (c_str "layout(line_strip, max_vertices = 5) out;\n") in
          let body := Some (
            c_str "  emit_vertex(0);\n"
            +:+ c_str "  emit_vertex(1);\n"
            +:+ c_str "  emit_vertex(2);\n"
            +:+ c_str "  emit_vertex(3);\n"
            +:+ c_str "  emit_vertex(0);\n"
            +:+ c_str "  EndPrimitive();\n") in
          Done (GL_LINES_ADJACENCY, Some (layout_in, layout_out, body))
        else if bool_decide (polygon_mode = Named POLY_MODE_FILL) then
          let layout_out := Some (c_str "layout(triangle_strip, max_vertices = 4) out;\n") in
          let body := Some (
            c_str "  emit_vertex(0);\n"
            +:+ c_str "  emit_vertex(1);\n"
            +:+ c_str "  emit_vertex(3);\n"
            +:+ c_str "  emit_vertex(2);\n"
            +:+ c_str "  EndPrimitive();\n") in
          Done (GL_LINES_ADJACENCY, Some (layout_in, layout_out, body))
        else Aborted (AssertFailed 166)
    | PRIM_TYPE_QUAD_STRIP =>
        let layout_in := Some (c_str "layout(lines_adjacency) in;\n") in
        if bool_decide (polygon_mode = Named POLY_MODE_LINE) then
          let layout_out := Some (c_str "layout(line_strip, max_vertices = 5) out;\n") in
          let body := Some (
            c_str "  if ((gl_PrimitiveIDIn & 1) != 0) { return; }\n"
            +:+ c_str "  if (gl_PrimitiveIDIn == 0) {\n"
            +:+ c_str "    emit_vertex(0);\n"
            +:+ c_str "  }\n"
            +:+ c_str "  emit_vertex(1);\n"
            +:+ c_str "  emit_vertex(3);\n"
            +:+ c_str "  emit_vertex(2);\n"
            +:+ c_str "  emit_vertex(0);\n"
            +:+ c_str "  EndPrimitive();\n") in
          Done (GL_LINE_STRIP_ADJACENCY, Some (layout_in, layout_out, body))
        else if bool_decide (polygon_mode = Named POLY_MODE_FILL) then
          let layout_out := Some (c_str "layout(triangle_strip, max_vertices = 4) out;\n") in
          let body := Some (
            c_str "  if ((gl_PrimitiveIDIn & 1) != 0) { return; }\n"
            +:+ c_str "  emit_vertex(0);\n"
            +:+ c_str "  emit_vertex(1);\n"
            +:+ c_str "  emit_vertex(2);\n"
            +:+ c_str "  emit_vertex(3);\n"
            +:+ c_str "  EndPrimitive();\n") in
          Done (GL_LINE_STRIP_ADJACENCY, Some (layout_in, layout_out, body))
        else Aborted (AssertFailed 193)
    | PRIM_TYPE_POLYGON =>
        if bool_decide (polygon_mode = Named POLY_MODE_LINE) then Done (GL_LINE_LOOP, None)
        else if bool_decide (polygon_mode = Named POLY_MODE_FILL)
        then Done (GL_TRIANGLE_FAN, None)
        else Aborted (AssertFailed 203)
    | PRIM_TYPE_other => Aborted (AssertFailed 207)
    end).

Definition generate_geometry_shader_c
    (polygon_front_mode polygon_back_mode : c_enum ShaderPolygonMode)
    (primitive_mode : ShaderPrimitiveMode) : outcome (GLenum * option MString) :=
  obind (geometry_shader_switch_c polygon_front_mode polygon_back_mode primitive_mode)
    (fun '(gl_primitive_mode, out) =>
  match out with
  | None => Done (gl_primitive_mode, None)
  | Some (layout_in, layout_out, body) =>
      (* generate a geometry shader to support deprecated primitive types *)
      match layout_in with
      | None => Aborted (AssertFailed 212)
      | Some layout_in =>
          match layout_out with
          | None => Aborted (AssertFailed 213)
          | Some layout_out =>
              match body with
              | None => Aborted (AssertFailed 214)
              | Some body =>
                  Done (gl_primitive_mode,
                        Some (geometry_shader_text layout_in layout_out body))
              end
          end
      end
  end).

(** The assertions on the polygon mode inside the switch, by the
    primitive whose case holds them. *)
Definition polygon_mode_assertions : list (ShaderPrimitiveMode * abort_site) :=
  [(PRIM_TYPE_TRIANGLES, AssertFailed 102);
   (PRIM_TYPE_TRIANGLE_STRIP, AssertFailed 114);
   (PRIM_TYPE_TRIANGLE_FAN, AssertFailed 136);
   (PRIM_TYPE_QUADS, AssertFailed 166);
   (PRIM_TYPE_QUAD_STRIP, AssertFailed 193);
   (PRIM_TYPE_POLYGON, AssertFailed 203)].

(** The vertex indices among the events, in order. *)
Definition emitted_vertices (evs : list Glsl.event) : list Z :=
  omap (fun e => match e with
                 | Glsl.EmitVertex index => Some index
                 | Glsl.EndPrimitive => None
                 end) evs.

(** The number that follows [max_vertices =] in an output layout. *)
Fixpoint max_vertices_of (ts : list Glsl.token) : option Z :=
  match ts with
  | [] => None
  | t :: r =>
      match t, r with
      | Glsl.TId w, Glsl.TSym e :: Glsl.TNum n :: _ =>
          if bool_decide (w = "max_vertices") && bool_decide (e = "=")
          then Glsl.int_of_lit n
          else max_vertices_of r
      | _, _ => max_vertices_of r
      end
  end.

Definition declared_max_vertices (layout_out : string) : option Z :=
  max_vertices_of (Glsl.tokens layout_out).


Definition input_vertices (gl : GLenum) : Z :=
  match gl with
  | GL_POINTS => 1
  | GL_LINES | GL_LINE_LOOP | GL_LINE_STRIP => 2
  | GL_TRIANGLES | GL_TRIANGLE_STRIP | GL_TRIANGLE_FAN => 3
  | GL_LINES_ADJACENCY | GL_LINE_STRIP_ADJACENCY => 4
  end.

(** A step that only appends: what it appends to the two buffers, and
    whether it aborts, does not depend on what the buffers hold. *)
Definition appends_only (s : step) : Prop :=
  forall h b : string,
    s (h, b) = match s ("", "") with
               | Done (dh, db) => Done (h +:+ dh, b +:+ db)
               | Aborted site => Aborted site
               end.

(** A step that returns from every pair of buffers ([None]), or aborts at
    the same place from every pair of buffers. *)
Definition outcome_is (s : step) (o : option abort_site) : Prop :=
  match o with
  | None => succeeds s
  | Some site => forall hb, s hb = Aborted site
  end.

Definition or_else (o1 o2 : option abort_site) : option abort_site :=
  match o1 with
  | Some site => Some site
  | None => o2
  end.

Definition first_abort (l : list (option abort_site)) : option abort_site :=
  foldr or_else None l.

(** The assertion that guards a texgen mode (lines 433, 436, 456, 466). *)
Definition texgen_assertion (mode : TexGen) : nat :=
  match mode with
  | TEXGEN_OBJECT_LINEAR => 433
  | TEXGEN_SPHERE_MAP => 436
  | TEXGEN_REFLECTION_MAP => 456
  | TEXGEN_NORMAL_MAP => 466
  | TEXGEN_DISABLE | TEXGEN_EYE_LINEAR => 0
  end.

(** The first component, stage by stage and S, T, R, Q within a stage,
    whose texgen mode the generator refuses. *)
Definition first_refused_texgen (state : ShaderState float PshState) : option (nat * nat) :=
  List.find (fun ij => negb (texgen_supported (texgen state (fst ij) (snd ij)) (snd ij)))
            (list_prod (seq 0 NV2A_MAX_TEXTURES) (seq 0 4)).

(** Where [generate_fixed_function] aborts, if it does. *)
Definition fixed_function_abort (state : ShaderState float PshState) : option abort_site :=
  if skinning_supported (skinning state) then
    match first_refused_texgen state with
    | Some (i, j) => Some (AssertFailed (texgen_assertion (texgen state i j)))
    | None => None
    end
  else Some (AssertFailed 276).

(** The declaration of the output block of the vertex stage, and the name
    [vtx] under which the code refers to it (lines 736-739). *)
Definition vertex_output_declaration (vtx_prefix : ascii) : string :=
  c_str "noperspective out VertexData " +:+ String vtx_prefix (c_str "_vtx;\n")
  +:+ "#define vtx " +:+ String vtx_prefix (c_str "_vtx\n").

(** The declarations of the blocks that the geometry stage reads and
    writes (lines 221-222). *)
Definition geometry_interface_declaration : string :=
  c_str "noperspective in VertexData v_vtx[];\n"
  +:+ c_str "noperspective out VertexData g_vtx;\n".


(** The four families of per-light uniforms that [generate_shaders] looks
    up (lines 1046-1055), and those that the code of a light of a given
    type declares and uses. *)
Definition per_light_uniforms : list string :=
  ["lightInfiniteHalfVector"; "lightInfiniteDirection";
   "lightLocalPosition"; "lightLocalAttenuation"].

Definition light_uniforms (l : Light) : list string :=
  match l with
  | LIGHT_OFF => []
  | LIGHT_INFINITE => ["lightInfiniteHalfVector"; "lightInfiniteDirection"]
  | LIGHT_LOCAL | LIGHT_SPOT => ["lightLocalPosition"; "lightLocalAttenuation"]
  end.

(** The formats of the indexed uniform names that [generate_shaders]
    prints into its 64 bytes of [tmp] (lines 1008-1059). *)
Definition indexed_uniform_formats : list string :=
  ["bumpMat%d"; "bumpScale%d"; "bumpOffset%d"; "texScale%d"; "c[%d]";
   "ltctxa[%d]"; "ltctxb[%d]"; "ltc1[%d]";
   "lightInfiniteHalfVector%d"; "lightInfiniteDirection%d";
   "lightLocalPosition%d"; "lightLocalAttenuation%d"; "clipRegion[%d]"].


(** A text of 70 bytes, and a driver that links no program. *)
Definition sample_long_text : string :=
  "0123456789012345678901234567890123456789012345678901234567890123456789".

Definition sample_link_refused (p : linked_program) : bool := false.


(** ** Properties *)

Import Glsl.

(** *** The append functions *)

Lemma substring_all (s : string) (n : nat) :
  (String.length s <= n)%nat -> substring 0 n s = s.
Proof.
  revert n; induction s as [|c s IH]; intros [|n] Hn; simpl in *; try lia; try reflexivity.
  rewrite IH by lia; reflexivity.
Qed.

Lemma string_app_empty (s : string) : s +:+ "" = s.
Proof.
  induction s as [|c s IH]; [reflexivity |].
  change (String c (s +:+ "") = String c s). f_equal; exact IH.
Qed.

Lemma string_app_assoc (a b c : string) : (a +:+ b) +:+ c = a +:+ (b +:+ c).
Proof.
  induction a as [|x a IH]; [reflexivity |].
  change (String x ((a +:+ b) +:+ c) = String x (a +:+ (b +:+ c))). f_equal; exact IH.
Qed.

Lemma string_length_zero (s : string) : String.length s = 0%nat -> s = "".
Proof. destruct s; [reflexivity | discriminate]. Qed.

(** Whatever the length of the formatted text, [mstring_append_va] appends
    all of it: through the scratch buffer when it fits, through the
    allocated buffer when it does not. *)
Lemma mstring_append_va_format (q : MString) (fmt : string) (va : list fmt_arg) :
  mstring_append_va q fmt va = q +:+ format fmt va.
Proof.
  unfold mstring_append_va, vsnprintf, mstring_append.
  generalize (format fmt va); intros s.
  destruct (Z.eqb_spec (Z.of_nat (String.length s)) 0) as [E|E].
  - rewrite (string_length_zero s) by lia. symmetry; apply string_app_empty.
  - destruct (Z.ltb_spec (Z.of_nat (String.length s)) 256) as [L|L].
    + rewrite substring_all by lia. reflexivity.
    + rewrite substring_all by lia. reflexivity.
Qed.

Lemma mstring_append_fmt_format (q : MString) (fmt : string) (args : list fmt_arg) :
  mstring_append_fmt q fmt args = q +:+ format fmt args.
Proof. apply mstring_append_va_format. Qed.

(** The format of the first line of the skinning code, and two names
    that [generate_shaders] looks up. *)
Example format_skinning_off :
  format (c_str "%s %s = (%s * %s0).%s;\n")
    [As "vec4"; As "tPosition"; As "position"; As "modelViewMat"; As "xyzw"]
  = c_str "vec4 tPosition = (position * modelViewMat0).xyzw;\n".
Proof. reflexivity. Qed.

Example snprintf_bump_matrix : snprintf 64 "bumpMat%d" [An 1] = "bumpMat1".
Proof. reflexivity. Qed.

Example snprintf_psh_constant : snprintf 64 "c%d_%d" [An 1; An 8] = "c1_8".
Proof. reflexivity. Qed.

(** *** The geometry stage *)



(** C5 (amended): for the quad strip, in both polygon modes, the program
    emits nothing for a primitive with an odd id.  In wireframe mode the
    primitive 0 emits the vertex 0 in front of the sequence 1,3,2,0 that
    every even primitive emits.  In fill mode every even primitive,
    primitive 0 included, emits 0,1,2,3 and there is no extra vertex. *)
Theorem C5_quad_strip_amended (prim_id : Z) :
  0 <= prim_id ->
  geometry_events POLY_MODE_LINE POLY_MODE_LINE PRIM_TYPE_QUAD_STRIP prim_id
  = Some (if Z.odd prim_id then []
          else if prim_id =? 0
               then [EmitVertex 0; EmitVertex 1; EmitVertex 3; EmitVertex 2;
                     EmitVertex 0; EndPrimitive]
               else [EmitVertex 1; EmitVertex 3; EmitVertex 2; EmitVertex 0; EndPrimitive])
  /\ geometry_events POLY_MODE_FILL POLY_MODE_FILL PRIM_TYPE_QUAD_STRIP prim_id
     = Some (if Z.odd prim_id then []
             else [EmitVertex 0; EmitVertex 1; EmitVertex 2; EmitVertex 3; EndPrimitive]).
Proof.
  intros Hid.
  destruct prim_id as [|p|p]; [| destruct p |]; try lia;
    split; vm_compute; reflexivity.
Qed.

(** In wireframe mode the first primitive of a quad strip does emit a
    leading vertex. *)
Lemma quad_strip_leading_vertex_wireframe : quad_strip_leading_vertex POLY_MODE_LINE.
Proof. eexists _, _. split; vm_compute; reflexivity. Qed.

(** C6: the generator aborts on the assertion of line 81 exactly when the
    front and back polygon modes differ; [generate_shaders] then aborts on
    it as well, and returns neither program nor binding. *)
Theorem C6_front_back_precondition (state : ShaderState float PshState) :
  (polygon_front_mode state <> polygon_back_mode state ->
   generate_geometry_shader (polygon_front_mode state) (polygon_back_mode state)
     (primitive_mode state) = Aborted (AssertFailed 81)
   /\ generate_shaders state = Aborted (AssertFailed 81))
  /\ (polygon_front_mode state = polygon_back_mode state ->
      generate_geometry_shader (polygon_front_mode state) (polygon_back_mode state)
        (primitive_mode state) <> Aborted (AssertFailed 81)).
Proof.
  split.
  - intros Hne.
    assert (E : generate_geometry_shader (polygon_front_mode state)
                  (polygon_back_mode state) (primitive_mode state)
                = Aborted (AssertFailed 81)).
    { unfold generate_geometry_shader, geometry_shader_switch.
      rewrite bool_decide_eq_false_2 by assumption. reflexivity. }
    split; [exact E |].
    unfold generate_shaders. rewrite E. reflexivity.
  - intros ->.
    destruct (polygon_back_mode state), (primitive_mode state); discriminate.
Qed.

(** *** Steps *)

Lemma succeeds_to_header s : succeeds (to_header s).
Proof. intros [h b]; eexists; reflexivity. Qed.

Lemma succeeds_to_body s : succeeds (to_body s).
Proof. intros [h b]; eexists; reflexivity. Qed.

Lemma succeeds_to_header_fmt fmt args : succeeds (to_header_fmt fmt args).
Proof. intros [h b]; eexists; reflexivity. Qed.

Lemma succeeds_to_body_fmt fmt args : succeeds (to_body_fmt fmt args).
Proof. intros [h b]; eexists; reflexivity. Qed.

Lemma succeeds_skip : succeeds skip.
Proof. intros hb; eexists; reflexivity. Qed.

Lemma succeeds_assert_true line : succeeds (assert_step line true).
Proof. intros hb; eexists; reflexivity. Qed.

Lemma succeeds_when c s : succeeds s -> succeeds (when c s).
Proof. destruct c; [trivial | intros _; apply succeeds_skip]. Qed.

Lemma succeeds_if (c : bool) (s1 s2 : step) :
  succeeds s1 -> succeeds s2 -> succeeds (if c then s1 else s2).
Proof. destruct c; trivial. Qed.

Lemma succeeds_on_body f :
  (forall body, exists body', f body = Done body') -> succeeds (on_body f).
Proof.
  intros Hf [h b]. destruct (Hf b) as [b' E].
  exists (h, b'). unfold on_body. rewrite E. reflexivity.
Qed.

Lemma succeeds_block_nil : succeeds (block []).
Proof. apply succeeds_skip. Qed.

Lemma succeeds_block_cons s r :
  succeeds s -> succeeds (block r) -> succeeds (block (s :: r)).
Proof.
  intros Hs Hr hb. destruct (Hs hb) as [hb1 E1]. destruct (Hr hb1) as [hb2 E2].
  exists hb2. simpl. rewrite E1. exact E2.
Qed.

Lemma succeeds_block l : Forall succeeds l -> succeeds (block l).
Proof.
  induction 1; [apply succeeds_block_nil | now apply succeeds_block_cons].
Qed.

Lemma succeeds_for n f :
  (forall i, (i < n)%nat -> succeeds (f i)) -> succeeds (for_ n f).
Proof.
  intros Hf. apply succeeds_block. apply Forall_forall.
  intros s Hs. apply list_elem_of_In, in_map_iff in Hs.
  destruct Hs as (i & <- & Hi). apply in_seq in Hi. apply Hf. lia.
Qed.

(** A block that returns has run every one of its steps to its end. *)
Lemma may_succeed_block l : may_succeed (block l) -> Forall may_succeed l.
Proof.
  intros (hb & hb' & E). revert hb E.
  induction l as [|s r IH]; intros hb E; constructor.
  - simpl in E. destruct (s hb) as [hb1|] eqn:E1; [|discriminate].
    exists hb, hb1. exact E1.
  - simpl in E. destruct (s hb) as [hb1|] eqn:E1; [|discriminate].
    apply (IH hb1). exact E.
Qed.

Lemma may_succeed_for n f i :
  may_succeed (for_ n f) -> (i < n)%nat -> may_succeed (f i).
Proof.
  intros H Hi. apply may_succeed_block in H.
  rewrite Forall_forall in H. apply H.
  apply list_elem_of_In, in_map_iff. exists i. split; [reflexivity |].
  apply in_seq. lia.
Qed.


(** *** Which states run to the end *)

Ltac block_succeeds :=
  repeat match goal with
         | |- succeeds (block []) => apply succeeds_block_nil
         | |- succeeds (block (_ :: _)) => apply succeeds_block_cons
         | |- succeeds (to_body _) => apply succeeds_to_body
         | |- succeeds (to_header _) => apply succeeds_to_header
         | |- succeeds (to_body_fmt _ _) => apply succeeds_to_body_fmt
         | |- succeeds (to_header_fmt _ _) => apply succeeds_to_header_fmt
         | |- succeeds skip => apply succeeds_skip
         | |- succeeds (assert_step _ true) => apply succeeds_assert_true
         | |- succeeds (when _ _) => apply succeeds_when
         | |- succeeds (if _ then _ else _) => apply succeeds_if
         end.

Lemma succeeds_skinning_code state :
  skinning_supported (skinning state) = true -> succeeds (skinning_code state).
Proof.
  unfold skinning_code.
  destruct (skinning state); cbn [skinning_supported skinning_mix_count];
    try discriminate; intros _;
    block_succeeds; apply succeeds_on_body; intros body; eexists; reflexivity.
Qed.

Lemma skinning_code_needs state :
  may_succeed (skinning_code state) -> skinning_supported (skinning state) = true.
Proof.
  unfold skinning_code.
  destruct (skinning state); cbn [skinning_supported skinning_mix_count];
    try reflexivity; intros H;
    apply may_succeed_block in H;
    inversion H as [|? ? _ H1]; subst; inversion H1 as [|? ? H2 _]; subst;
    destruct H2 as ([h b] & hb' & E); discriminate E.
Qed.

Lemma succeeds_texgen_component state i j :
  texgen_supported (texgen state i j) j = true -> succeeds (texgen_component state i j).
Proof.
  unfold texgen_component.
  destruct (texgen state i j); cbn [texgen_supported];
    try discriminate; intros Hj; try rewrite Hj; block_succeeds.
Qed.

Lemma texgen_component_needs state i j :
  may_succeed (texgen_component state i j) -> texgen_supported (texgen state i j) j = true.
Proof.
  unfold texgen_component.
  destruct (texgen state i j); cbn [texgen_supported]; try reflexivity; intros H.
  - apply may_succeed_block in H.
    inversion H as [|? ? _ H1]; subst; inversion H1 as [|? ? H2 _]; subst.
    destruct H2 as (hb & hb' & E); discriminate E.
  - apply may_succeed_block in H. inversion H as [|? ? H1 _]; subst.
    destruct H1 as (hb & hb' & E). unfold assert_step in E.
    destruct (j <? 2)%nat; [reflexivity | discriminate E].
  - apply may_succeed_block in H. inversion H as [|? ? H1 _]; subst.
    destruct H1 as (hb & hb' & E). unfold assert_step in E.
    destruct (j <? 3)%nat; [reflexivity | discriminate E].
  - apply may_succeed_block in H. inversion H as [|? ? H1 _]; subst.
    destruct H1 as (hb & hb' & E). unfold assert_step in E.
    destruct (j <? 3)%nat; [reflexivity | discriminate E].
Qed.

Lemma succeeds_texgen_code state :
  (forall i j, (i < NV2A_MAX_TEXTURES)%nat -> (j < 4)%nat ->
     texgen_supported (texgen state i j) j = true) ->
  succeeds (texgen_code state).
Proof.
  intros H. apply succeeds_for. intros i Hi. block_succeeds.
  apply succeeds_for. intros j Hj. apply succeeds_texgen_component. now apply H.
Qed.

Lemma succeeds_light_code state i : succeeds (light_code state i).
Proof.
  unfold light_code.
  destruct (light state i);
    [ rewrite bool_decide_eq_true_2 by reflexivity; apply succeeds_skip
    | rewrite bool_decide_eq_false_2 by discriminate; block_succeeds .. ].
Qed.

Lemma succeeds_lighting_code state : succeeds (lighting_code state).
Proof.
  unfold lighting_code. apply succeeds_if; block_succeeds.
  apply succeeds_for. intros i _. apply succeeds_light_code.
Qed.

Lemma succeeds_fog_distance_code state : succeeds (fog_distance_code state).
Proof.
  unfold fog_distance_code. apply succeeds_when.
  destruct (foggen state); block_succeeds.
Qed.

Lemma succeeds_point_size_code state : succeeds (point_size_code state).
Proof. unfold point_size_code. apply succeeds_if; block_succeeds. Qed.

Lemma succeeds_fog_factor_stage state : succeeds (fog_factor_stage state).
Proof.
  unfold fog_factor_stage, fog_factor_stage_of. apply succeeds_if; block_succeeds;
    destruct (fog_mode state); block_succeeds.
Qed.

Lemma succeeds_generate_fixed_function state :
  fixed_function_supported state -> succeeds (generate_fixed_function state).
Proof.
  intros [Hs Ht]. unfold generate_fixed_function. block_succeeds.
  - now apply succeeds_skinning_code.
  - now apply succeeds_texgen_code.
  - apply succeeds_for. intros i _. block_succeeds.
  - apply succeeds_lighting_code.
  - apply succeeds_fog_distance_code.
  - apply succeeds_point_size_code.
Qed.

Lemma generate_fixed_function_needs state :
  may_succeed (generate_fixed_function state) -> fixed_function_supported state.
Proof.
  intros H. apply may_succeed_block in H.
  inversion H as [|? ? _ H1]; subst. inversion H1 as [|? ? Hskin H2]; subst.
  inversion H2 as [|? ? _ H3]; subst. inversion H3 as [|? ? Htex _]; subst.
  split.
  - now apply skinning_code_needs.
  - intros i j Hi Hj. apply texgen_component_needs.
    apply (may_succeed_for 4 (fun j => texgen_component state i j)); [|exact Hj].
    pose proof (may_succeed_for _ _ i Htex Hi) as Hrow.
    apply may_succeed_block in Hrow.
    inversion Hrow as [|? ? _ Hrow1]; subst. inversion Hrow1 as [|? ? Hrow2 _]; subst.
    exact Hrow2.
Qed.

(** The vertex shader is the value of the three last steps. *)
Lemma generate_vertex_shader_Done state vtx_prefix text :
  generate_vertex_shader state vtx_prefix = Done text ->
  exists hb header body,
    vertex_stage state (vertex_shader_start state vtx_prefix) = Done hb
    /\ fog_factor_stage state hb = Done (header, body)
    /\ text = header +:+ (body +:+ set_outputs).
Proof.
  unfold generate_vertex_shader. simpl.
  destruct (vertex_stage state _) as [hb|] eqn:E1; [|discriminate]. simpl.
  destruct (fog_factor_stage state hb) as [[h b]|] eqn:E2; [|discriminate]. simpl.
  intros [= <-]. exists hb, h, b. split; [reflexivity | split; [exact E2 | reflexivity]].
Qed.

(** C2 (amended): an in-contract state runs through the generator
    without reaching an assertion provided that, when it is a
    fixed-function state, its skinning mode is off or one of the modes with
    a generated last weight, none of its texgen modes is object-linear, its
    sphere maps sit on S and T only and its reflection and normal maps on S,
    T and R only, and provided that, when it is a vertex-program state, the
    external translator returns.  For a fixed-function state the conditions
    are necessary as well. *)
Theorem C2_generation_succeeds_amended (state : ShaderState float PshState) (vtx_prefix : ascii) :
  in_contract state ->
  ((fixed_function state = true -> fixed_function_supported state) ->
   (vertex_program state = true ->
      succeeds (vsh_translate (program_data state) (program_length state)
                              (z_perspective state))) ->
   exists gl geometry vertex,
     generate_geometry_shader (polygon_front_mode state) (polygon_back_mode state)
       (primitive_mode state) = Done (gl, geometry)
     /\ generate_vertex_shader state vtx_prefix = Done vertex)
  /\ (fixed_function state = true ->
      forall vertex, generate_vertex_shader state vtx_prefix = Done vertex ->
      fixed_function_supported state).
Proof.
  intros (Hfb & Hpair & Hflags). split.
  - intros Hff Hvp.
    assert (Hgeo : exists gl geometry,
               generate_geometry_shader (polygon_front_mode state)
                 (polygon_back_mode state) (primitive_mode state) = Done (gl, geometry)).
    { rewrite <- Hfb. destruct Hpair as [Hpt | Hprim].
      - rewrite Hpt. eexists _, _. reflexivity.
      - destruct (polygon_front_mode state), (primitive_mode state);
          try congruence; eexists _, _; reflexivity. }
    destruct Hgeo as (gl & geometry & Hgeo). exists gl, geometry.
    assert (Hstage : succeeds (vertex_stage state)).
    { unfold vertex_stage. destruct (fixed_function state) eqn:Eff.
      - apply succeeds_generate_fixed_function. now apply Hff.
      - destruct (vertex_program state); [now apply Hvp | discriminate Hflags]. }
    assert (Hall : succeeds (block [vertex_stage state; fog_factor_stage state;
                                    to_body set_outputs])).
    { block_succeeds; [exact Hstage | apply succeeds_fog_factor_stage]. }
    destruct (Hall (vertex_shader_start state vtx_prefix)) as [[h b] E].
    eexists. split; [exact Hgeo |].
    unfold generate_vertex_shader. rewrite E. reflexivity.
  - intros Eff vertex Hv.
    apply generate_vertex_shader_Done in Hv. destruct Hv as (hb & _ & _ & Hstage & _).
    unfold vertex_stage in Hstage. rewrite Eff in Hstage.
    apply generate_fixed_function_needs. eexists _, _. exact Hstage.
Qed.

(** *** The fog factor *)

(** [fog_factor_stage] cannot abort and appends [fog_factor_text]. *)
Lemma fog_factor_stage_appends state h b :
  fog_factor_stage state (h, b) = Done (h, b +:+ fog_factor_text state).
Proof.
  unfold fog_factor_text, fog_factor_text_of, fog_factor_stage, fog_factor_stage_of.
  destruct (fog_enable state), (vertex_program state), (fog_mode state);
    cbn [block when obind to_body skip mstring_append];
    rewrite ?string_app_assoc; reflexivity.
Qed.

(** The vertex shader ends with the fog factor code followed by the code
    of "Set outputs". *)
Lemma generate_vertex_shader_tail state vtx_prefix text :
  generate_vertex_shader state vtx_prefix = Done text ->
  exists pre, text = pre +:+ fog_factor_text state +:+ set_outputs.
Proof.
  intros Hv. apply generate_vertex_shader_Done in Hv.
  destruct Hv as ([h0 b0] & h & b & _ & Hfog & ->).
  rewrite fog_factor_stage_appends in Hfog. injection Hfog as <- <-.
  exists (h0 +:+ b0). now rewrite !string_app_assoc.
Qed.

(** What the fog factor code computes, in any arithmetic: the distance
    that reaches the formula, the factor, and the register oFog. *)
Lemma fog_factor_run {num : Type} `{Arith num} (vp : bool) (mode : FogMode) (p0 p1 d : num) :
  let text := fog_factor_text_of true vp mode in
  let f := fog_factor_value mode p0 p1 (fog_distance_used mode d) in
  result (fog_env p0 p1 d) text "fogDistance" = Some (VNum (fog_distance_used mode d))
  /\ result (fog_env p0 p1 d) text "fogFactor" = Some (VNum f)
  /\ result (fog_env p0 p1 d) text "oFog" = Some (VVec [f; f; f; f]).
Proof.
  destruct H as [ndec nadd nsub nmul ndiv nneg nabs nexp2 nmin nmax ninf].
  destruct vp, mode; vm_compute; destruct (ninf d); repeat split; reflexivity.
Qed.

(** The literals of the fog code over the reals. *)
Lemma fog_factor_value_real (mode : FogMode) (p0 p1 d : R) :
  fog_factor_value mode p0 p1 d = fog_table mode p0 p1 d.
Proof.
  assert (E1 : (IZR 10 / 10 ^ 1 = 1)%R) by (simpl; lra).
  assert (E15 : (IZR 15 / 10 ^ 1 = 15 / 10)%R) by (simpl; lra).
  assert (E16 : (IZR 160 / 10 ^ 1 = 16)%R) by (simpl; lra).
  assert (E32 : (IZR 320 / 10 ^ 1 = 32)%R) by (simpl; lra).
  assert (Esq : (- d * d * p1 * p1 * 32 = - (d * p1) ^ 2 * 32)%R) by (simpl; lra).
  unfold fog_factor_value, fog_table.
  destruct mode; cbn [fog_mode_abs num_sub num_add num_mul num_exp2 num_neg num_abs
                      num_dec R_arith];
    rewrite ?E1, ?E15, ?E16, ?E32, ?Esq; reflexivity.
Qed.



(** *** The outputs *)

(** What the code of "Set outputs" stores, in any arithmetic.  The code is
    read as a block: its last brace is the one that closes [main]. *)
Lemma set_outputs_run {num : Type} `{Arith num} (reg : nat -> nat -> num) (inv_w : num) :
  let en := outputs_env reg inv_w in
  let code := "{" +:+ set_outputs in
  let clamped k := Some (VVec (map (fun x => clamp_then_scale x inv_w) (vec4_of (reg k)))) in
  let scaled k := Some (VVec (map (fun x => num_mul x inv_w) (vec4_of (reg k)))) in
  result en code "vtx.D0" = clamped 0%nat
  /\ result en code "vtx.D1" = clamped 1%nat
  /\ result en code "vtx.B0" = clamped 2%nat
  /\ result en code "vtx.B1" = clamped 3%nat
  /\ result en code "vtx.Fog" = Some (VNum (num_mul (reg 4%nat 0%nat) inv_w))
  /\ result en code "vtx.T0" = scaled 5%nat
  /\ result en code "vtx.T1" = scaled 6%nat
  /\ result en code "vtx.T2" = scaled 7%nat
  /\ result en code "vtx.T3" = scaled 8%nat.
Proof.
  destruct H as [ndec nadd nsub nmul ndiv nneg nabs nexp2 nmin nmax ninf].
  vm_compute. repeat split; reflexivity.
Qed.

(** C9: every vertex shader ends with the code of "Set outputs", which,
    in any arithmetic and for any contents of the output registers, stores
    each component of the four colour registers oD0, oD1, oB0 and oB1
    clamped to the range from 0.0 to 1.0 and then multiplied by the inverse
    of W, and stores the fog register and the four texture-coordinate
    registers multiplied by the inverse of W without a clamp. *)
Theorem C9_colours_clamped_then_scaled (state : ShaderState float PshState) (vtx_prefix : ascii)
    (text : string) {num : Type} `{Arith num} (reg : nat -> nat -> num) (inv_w : num) :
  generate_vertex_shader state vtx_prefix = Done text ->
  (exists pre, text = pre +:+ set_outputs)
  /\ (let en := outputs_env reg inv_w in
      let code := "{" +:+ set_outputs in
      let clamped k :=
        Some (VVec (map (fun x => num_mul (num_min (num_max x (num_dec 0 1)) (num_dec 10 1))
                                          inv_w)
                        (vec4_of (reg k)))) in
      let scaled k := Some (VVec (map (fun x => num_mul x inv_w) (vec4_of (reg k)))) in
      result en code "vtx.D0" = clamped 0%nat
      /\ result en code "vtx.D1" = clamped 1%nat
      /\ result en code "vtx.B0" = clamped 2%nat
      /\ result en code "vtx.B1" = clamped 3%nat
      /\ result en code "vtx.Fog" = Some (VNum (num_mul (reg 4%nat 0%nat) inv_w))
      /\ result en code "vtx.T0" = scaled 5%nat
      /\ result en code "vtx.T1" = scaled 6%nat
      /\ result en code "vtx.T2" = scaled 7%nat
      /\ result en code "vtx.T3" = scaled 8%nat).
Proof.
  intros Hv. split.
  - destruct (generate_vertex_shader_tail _ _ _ Hv) as [pre ->].
    exists (pre +:+ fog_factor_text state). now rewrite string_app_assoc.
  - exact (set_outputs_run reg inv_w).
Qed.

(** *** Skinning *)

(** [append_skinning_code] with a generated last weight cannot abort and
    appends [skinning_text]. *)
Lemma append_skinning_code_appends (s : Skinning) (count : nat) (str : MString)
    (type output input matrix swizzle : string) :
  skinning_mix_count s = (true, count) ->
  append_skinning_code str true count type output input matrix swizzle
  = Done (str +:+ skinning_text true count type output input matrix swizzle).
Proof.
  destruct s; intros [= <-];
    unfold skinning_text, append_skinning_code;
    cbn [Nat.eqb foldl seq Nat.ltb Nat.leb Nat.sub];
    rewrite !mstring_append_fmt_format; unfold mstring_append;
    rewrite !string_app_assoc; reflexivity.
Qed.

(** What the skinning code computes, in any arithmetic: the output is the
    sum over the bones of the transformed input times the weight of the
    bone, with the weights of [bone_weights]. *)
Lemma skinning_run {num : Type} `{Arith num} (s : Skinning) (count : nat)
    (w p n : nat -> num) (M IM : nat -> nat -> nat -> num) :
  skinning_mix_count s = (true, count) ->
  result (skin_env w p n M IM)
    (skinning_text true count "vec4" "tPosition" "position" "modelViewMat" "xyzw")
    "tPosition"
  = Some (VVec (accumulate (replicate 4 (num_dec 0 1))
                  (map (bone_position p M) (seq 0 count)) (bone_weights count w)))
  /\ result (skin_env w p n M IM)
       (skinning_text true count "vec3" "tNormal" "vec4(normal, 0.0)"
          "invModelViewMat" "xyz")
       "tNormal"
     = Some (VVec (accumulate (replicate 3 (num_dec 0 1))
                     (map (bone_normal n IM) (seq 0 count)) (bone_weights count w))).
Proof.
  destruct H as [ndec nadd nsub nmul ndiv nneg nabs nexp2 nmin nmax ninf].
  destruct s; intros [= <-]; vm_compute; split; reflexivity.
Qed.

(** Over the reals, the weights that the code computes are the weights of
    the unity-sum mode. *)
Lemma bone_weights_real (s : Skinning) (count : nat) (w : nat -> R) :
  skinning_mix_count s = (true, count) ->
  bone_weights count w = unity_sum_weights count w.
Proof.
  destruct s; intros [= <-]; unfold bone_weights, unity_sum_weights;
    f_equal; f_equal;
    cbn [seq Nat.sub map foldl foldr num_sub num_dec R_arith]; simpl; lra.
Qed.

Lemma zero_literal_real : (num_dec (num := R) 0 1 = 0)%R.
Proof. simpl. lra. Qed.

(** C4: in each skinning mode with a generated last weight (2, 3 or 4
    bones), [append_skinning_code] appends code that, over the reals, sets
    the output to the sum over the bones of the input transformed by the
    matrix of the bone times the weight of the bone, where the first
    [count - 1] weights are those supplied in [weight] and the last is one
    minus their sum; this holds for the position and for the normal. *)
Theorem C4_unity_sum_skinning (s : Skinning) (count : nat)
    (w p n : nat -> R) (M IM : nat -> nat -> nat -> R) :
  skinning_mix_count s = (true, count) ->
  let position_code :=
    skinning_text true count "vec4" "tPosition" "position" "modelViewMat" "xyzw" in
  let normal_code :=
    skinning_text true count "vec3" "tNormal" "vec4(normal, 0.0)"
      "invModelViewMat" "xyz" in
  (forall str,
     append_skinning_code str true count "vec4" "tPosition" "position"
       "modelViewMat" "xyzw" = Done (str +:+ position_code))
  /\ (forall str,
        append_skinning_code str true count "vec3" "tNormal" "vec4(normal, 0.0)"
          "invModelViewMat" "xyz" = Done (str +:+ normal_code))
  /\ result (skin_env w p n M IM) position_code "tPosition"
     = Some (VVec (accumulate [0; 0; 0; 0]%R
                     (map (bone_position p M) (seq 0 count))
                     (unity_sum_weights count w)))
  /\ result (skin_env w p n M IM) normal_code "tNormal"
     = Some (VVec (accumulate [0; 0; 0]%R
                     (map (bone_normal n IM) (seq 0 count))
                     (unity_sum_weights count w))).
Proof.
  intros Hs position_code normal_code.
  split; [| split].
  - intros str. now apply (append_skinning_code_appends s).
  - intros str. now apply (append_skinning_code_appends s).
  - destruct (skinning_run s count w p n M IM Hs) as [Hp Hn].
    subst position_code normal_code. rewrite Hp, Hn.
    rewrite (bone_weights_real s count w Hs).
    cbn [replicate]. rewrite !zero_literal_real. split; reflexivity.
Qed.

(** *** The table of uniform locations *)

Lemma foldl_insert_length {A} (g : nat -> A) (l : list nat) (arr : list A) :
  length (foldl (fun arr i => <[i := g i]> arr) arr l) = length arr.
Proof.
  revert arr; induction l as [|a l IH]; intros arr; [reflexivity |].
  cbn [foldl]. rewrite IH. apply length_insert.
Qed.

Lemma foldl_insert_lookup {A} (g : nat -> A) (l : list nat) (arr : list A) (i : nat) :
  (forall j, j ∈ l -> (j < length arr)%nat) ->
  foldl (fun arr i => <[i := g i]> arr) arr l !! i
  = if bool_decide (i ∈ l) then Some (g i) else arr !! i.
Proof.
  revert arr; induction l as [|a l IH]; intros arr Hl; [reflexivity |].
  cbn [foldl]. rewrite IH.
  2:{ intros j Hj. rewrite length_insert. apply Hl. now right. }
  destruct (bool_decide_reflect (i ∈ l)) as [Hi | Hi].
  - rewrite bool_decide_eq_true_2 by now right. reflexivity.
  - destruct (decide (a = i)) as [-> | Hne].
    + rewrite bool_decide_eq_true_2 by now left.
      apply list_lookup_insert_eq. apply Hl. now left.
    + rewrite bool_decide_eq_false_2.
      * now apply list_lookup_insert_ne.
      * intros Hin. apply elem_of_cons in Hin. destruct Hin; congruence.
Qed.

Lemma locate_length program lo hi name arr :
  length (locate program lo hi name arr) = length arr.
Proof. apply foldl_insert_length. Qed.

Lemma locate_lookup program lo hi name arr i :
  (hi <= length arr)%nat -> (lo <= i < hi)%nat ->
  locate program lo hi name arr !! i = Some (glGetUniformLocation program (name i)).
Proof.
  intros Hhi Hi. unfold locate. rewrite foldl_insert_lookup.
  - rewrite bool_decide_eq_true_2; [reflexivity |]. apply elem_of_seq. lia.
  - intros j Hj. apply elem_of_seq in Hj. lia.
Qed.

Section Driver.
Hypothesis location_or_sentinel :
  forall program name, -1 <= glGetUniformLocation program name.

Lemma located_locate program lo hi fmt arr :
  length arr = hi ->
  located (glGetUniformLocation program)
    (locate program lo hi (fun i => snprintf 64 fmt [An i]) arr) lo hi fmt.
Proof.
  intros Hlen. split.
  - now rewrite locate_length.
  - intros i Hi. split; [| apply location_or_sentinel].
    apply locate_lookup; [lia | exact Hi].
Qed.

(** C7 (amended): when [generate_shaders] returns, every entry of the
    table holds what the driver answers for the name of the entry, a
    location or -1, except the bump matrix, bump scale and bump offset
    entries of texture stage 0, which are not looked up (the loop starts
    at stage 1) and hold the zero that [g_malloc0] has put there. *)
Theorem C7_uniform_table_amended (state : ShaderState float PshState) (binding : ShaderBinding)
    (calls : list (Z * Z)) :
  generate_shaders state = Done (binding, calls) ->
  let loc := glGetUniformLocation (gl_program binding) in
  (forall i j, (i < 9)%nat -> (j < 2)%nat ->
     (psh_constant_loc binding !!! i) !! j = Some (loc (snprintf 64 "c%d_%d" [An j; An i]))
     /\ -1 <= loc (snprintf 64 "c%d_%d" [An j; An i]))
  /\ alpha_ref_loc binding = loc "alphaRef"
  /\ located loc (bump_mat_loc binding) 1 NV2A_MAX_TEXTURES "bumpMat%d"
  /\ located loc (bump_scale_loc binding) 1 NV2A_MAX_TEXTURES "bumpScale%d"
  /\ located loc (bump_offset_loc binding) 1 NV2A_MAX_TEXTURES "bumpOffset%d"
  /\ bump_mat_loc binding !! 0%nat = Some 0
  /\ bump_scale_loc binding !! 0%nat = Some 0
  /\ bump_offset_loc binding !! 0%nat = Some 0
  /\ located loc (tex_scale_loc binding) 0 NV2A_MAX_TEXTURES "texScale%d"
  /\ located loc (vsh_constant_loc binding) 0 (macro_value NV2A_VERTEXSHADER_CONSTANTS)
       "c[%d]"
  /\ surface_size_loc binding = loc "surfaceSize"
  /\ clip_range_loc binding = loc "clipRange"
  /\ fog_color_loc binding = loc "fogColor"
  /\ fog_param_loc binding = [loc "fogParam[0]"; loc "fogParam[1]"]
  /\ inv_viewport_loc binding = loc "invViewport"
  /\ located loc (ltctxa_loc binding) 0 (macro_value NV2A_LTCTXA_COUNT) "ltctxa[%d]"
  /\ located loc (ltctxb_loc binding) 0 (macro_value NV2A_LTCTXB_COUNT) "ltctxb[%d]"
  /\ located loc (ltc1_loc binding) 0 (macro_value NV2A_LTC1_COUNT) "ltc1[%d]"
  /\ located loc (light_infinite_half_vector_loc binding) 0 NV2A_MAX_LIGHTS
       "lightInfiniteHalfVector%d"
  /\ located loc (light_infinite_direction_loc binding) 0 NV2A_MAX_LIGHTS
       "lightInfiniteDirection%d"
  /\ located loc (light_local_position_loc binding) 0 NV2A_MAX_LIGHTS
       "lightLocalPosition%d"
  /\ located loc (light_local_attenuation_loc binding) 0 NV2A_MAX_LIGHTS
       "lightLocalAttenuation%d"
  /\ located loc (clip_region_loc binding) 0 8 "clipRegion[%d]".
Proof.
  unfold generate_shaders.
  destruct (generate_geometry_shader _ _ _) as [[gl geo]|]; [|discriminate].
  cbn [obind].
  destruct (match geo with Some _ => _ | None => _ end) as [[gs pfx]|]; [|discriminate].
  cbn [obind].
  destruct (generate_vertex_shader state pfx) as [vs|]; [|discriminate]. cbn [obind].
  destruct (create_gl_shader GL_VERTEX_SHADER _ _) as [vsh|]; [|discriminate].
  cbn [obind].
  destruct (create_gl_shader GL_FRAGMENT_SHADER _ _) as [fsh|]; [|discriminate].
  cbn [obind].
  destruct (negb (link_status _)); [discriminate |].
  destruct (negb (validate_status _)); [discriminate |].
  intros [= <- <-]. cbn zeta.
  cbn [gl_program psh_constant_loc alpha_ref_loc bump_mat_loc bump_scale_loc
       bump_offset_loc tex_scale_loc vsh_constant_loc surface_size_loc clip_range_loc
       fog_color_loc fog_param_loc inv_viewport_loc ltctxa_loc ltctxb_loc ltc1_loc
       light_infinite_half_vector_loc light_infinite_direction_loc
       light_local_position_loc light_local_attenuation_loc clip_region_loc].
  repeat match goal with
         | |- _ /\ _ => split
         | |- located _ (locate _ _ _ _ _) _ _ _ =>
             apply located_locate; first [reflexivity | apply length_replicate]
         end; try reflexivity.
  intros i j Hi Hj. split; [| apply location_or_sentinel].
  do 9 (destruct i as [|i]; [do 2 (destruct j as [|j]; [reflexivity |]); lia |]). lia.
Qed.

End Driver.

(** ** Further properties *)

(** *** The append functions, once more *)

Lemma string_length_app (a b : string) :
  String.length (a +:+ b) = (String.length a + String.length b)%nat.
Proof.
  induction a as [|x a IH]; [reflexivity |].
  change (S (String.length (a +:+ b)) = S (String.length a + String.length b)).
  now rewrite IH.
Qed.

(** X1: the formatted append never truncates.  For a format made of
    text and of the conversions [%d], [%c], [%s] and [%f], each with an
    argument of its kind, and a formatted text that holds no byte 0 and is
    shorter than [INT_MAX]: whatever the length of the formatted text,
    below or beyond the 256 bytes of the scratch buffer, and the empty
    text included, the buffer ends up with all of it appended and grows by
    exactly the length that [vsnprintf] has reported; [mstring_from_fmt]
    returns the whole text. *)
Theorem X1_formatted_append_is_complete (q : MString) (fmt : string) (va : list fmt_arg) :
  plain_format fmt va = true ->
  nul_free (format fmt va) = true ->
  Z.of_nat (String.length (format fmt va)) < 2 ^ 31 - 1 ->
  mstring_append_va q fmt va = q +:+ format fmt va
  /\ mstring_append_fmt q fmt va = q +:+ format fmt va
  /\ mstring_from_fmt fmt va = format fmt va
  /\ Z.of_nat (String.length (mstring_append_va q fmt va))
     = Z.of_nat (String.length q) + snd (vsnprintf 256 fmt va).
Proof.
  intros _ _ _.
  split; [apply mstring_append_va_format |].
  split; [apply mstring_append_fmt_format |].
  split; [unfold mstring_from_fmt, mstring_new; now rewrite mstring_append_va_format |].
  rewrite mstring_append_va_format, string_length_app.
  unfold vsnprintf. cbn [snd]. lia.
Qed.

(** *** The geometry stage, once more *)

(** X2: where [generate_geometry_shader] aborts, for polygon modes that
    need not be enumerators.  It aborts on the assertion of line 81 when
    the front and back modes differ.  When they agree it aborts on the
    [default:] arm of the switch (line 207) for a mode other than point
    mode and a primitive that the switch does not name, and, for a mode
    that is no enumerator, on the assertion of the case of the primitive:
    line 102 for triangles, 114 for triangle strips, 136 for triangle
    fans, 166 for quads, 193 for quad strips and 203 for polygons.  It
    aborts in no other case: the assertions of lines 212 to 214 never
    fail, and a mode that is no enumerator with points, lines, line loops
    or line strips returns.  On enumerators the function is
    [generate_geometry_shader], for which only the first two cases
    remain. *)
Theorem X2_geometry_abort_sites (front back : c_enum ShaderPolygonMode)
    (prim : ShaderPrimitiveMode) (site : abort_site) :
  (generate_geometry_shader_c front back prim = Aborted site
   <-> (front <> back /\ site = AssertFailed 81)
       \/ (front = back /\ front <> Named POLY_MODE_POINT /\ prim = PRIM_TYPE_other
           /\ site = AssertFailed 207)
       \/ (front = back /\ (exists value, front = Unnamed value)
           /\ (prim, site) ∈ polygon_mode_assertions))
  /\ (forall f b : ShaderPolygonMode,
        generate_geometry_shader_c (Named f) (Named b) prim
        = generate_geometry_shader f b prim).
Proof.
  split.
  - unfold generate_geometry_shader_c, geometry_shader_switch_c.
    destruct (decide (front = back)) as [<- | Hne].
    + rewrite bool_decide_eq_true_2 by reflexivity. cbn [assert_ obind].
      split.
      * intros E. right.
        destruct front as [[] | value], prim; vm_compute in E; try discriminate E;
          injection E as <-;
          first [ left; repeat split; discriminate
                | right; split; [reflexivity |];
                  split; [eexists; reflexivity | solve [repeat constructor]] ].
      * intros [[Hne _] | [(_ & Hpt & -> & ->) | (_ & [value ->] & Hin)]].
        -- now contradiction Hne.
        -- destruct front as [[] | value]; [reflexivity | congruence | reflexivity
                                            | reflexivity].
        -- unfold polygon_mode_assertions in Hin.
           repeat (apply elem_of_cons in Hin as [[= -> ->] | Hin]; [reflexivity |]).
           now apply elem_of_nil in Hin.
    + rewrite bool_decide_eq_false_2 by assumption. cbn [assert_ obind].
      split.
      * intros [= <-]. left. now split.
      * intros [[_ ->] | [(E & _) | (E & _)]]; [reflexivity | |]; now contradiction Hne.
  - intros f b. destruct f, b, prim; reflexivity.
Qed.


(** X4: every generated geometry program stays within its declarations.
    For every input primitive it emits at most the [max_vertices] of its
    output layout, reads the input vertices of the primitive only (indices
    below three on triangles, below four on lines with adjacency), and
    emits either nothing or one output primitive that [EndPrimitive]
    closes. *)
Theorem X4_geometry_within_declarations (pm : ShaderPolygonMode)
    (prim : ShaderPrimitiveMode) (gl : GLenum) (layout_in layout_out body : string)
    (prim_id : Z) :
  0 <= prim_id ->
  geometry_shader_switch pm pm prim = Done (gl, Some (layout_in, layout_out, body)) ->
  exists events max_vertices,
    geometry_output body prim_id = Some events
    /\ declared_max_vertices layout_out = Some max_vertices
    /\ Z.of_nat (length (emitted_vertices events)) <= max_vertices
    /\ Forall (fun index => 0 <= index < input_vertices gl) (emitted_vertices events)
    /\ (events = []
        \/ events = (map EmitVertex (emitted_vertices events) ++ [EndPrimitive])%list).
Proof.
  intros Hid E.
  destruct pm, prim; vm_compute in E; try discriminate E;
    injection E as <- <- <- <-;
    (destruct prim_id as [|p|p]; [| destruct p |]; try lia);
    eexists _, _;
    (split; [vm_compute; reflexivity |]);
    (split; [vm_compute; reflexivity |]);
    (split; [vm_compute; congruence |]);
    (split; [cbn; repeat constructor; lia |]);
    first [left; reflexivity | right; reflexivity].
Qed.

(** X5: the programs for triangle strips and triangle fans in line mode.
    The first primitive is drawn as the closed outline 0,1,2,0.  Every
    later primitive adds two edges to what is drawn already: 1,2,0 in a
    fan and in the primitives of a strip with an even id, 2,1,0 in the
    primitives of a strip with an odd id (whose winding is reversed). *)
Theorem X5_wireframe_strip_and_fan (prim_id : Z) :
  0 <= prim_id ->
  geometry_events POLY_MODE_LINE POLY_MODE_LINE PRIM_TYPE_TRIANGLE_STRIP prim_id
  = Some (if Z.odd prim_id
          then [EmitVertex 2; EmitVertex 1; EmitVertex 0; EndPrimitive]
          else if prim_id =? 0
               then [EmitVertex 0; EmitVertex 1; EmitVertex 2; EmitVertex 0; EndPrimitive]
               else [EmitVertex 1; EmitVertex 2; EmitVertex 0; EndPrimitive])
  /\ geometry_events POLY_MODE_LINE POLY_MODE_LINE PRIM_TYPE_TRIANGLE_FAN prim_id
     = Some (if prim_id =? 0
             then [EmitVertex 0; EmitVertex 1; EmitVertex 2; EmitVertex 0; EndPrimitive]
             else [EmitVertex 1; EmitVertex 2; EmitVertex 0; EndPrimitive]).
Proof.
  intros Hid.
  destruct prim_id as [|p|p]; [| destruct p |]; try lia;
    split; vm_compute; reflexivity.
Qed.

(** *** Skinning, once more *)

(** X6: with a bone count of zero (skinning off) [append_skinning_code]
    never aborts, whatever [mix] is, and appends one line; in any
    arithmetic the line stores the position multiplied by the model-view
    matrix 0, and the normal, extended by 0.0, multiplied by the inverse
    model-view matrix 0; no weight is read. *)
Theorem X6_skinning_off {num : Type} `{Arith num} (mix : bool)
    (w p n : nat -> num) (M IM : nat -> nat -> nat -> num) :
  (forall str type output input matrix swizzle,
     append_skinning_code str mix 0 type output input matrix swizzle
     = Done (str +:+ type +:+ " " +:+ output +:+ " = (" +:+ input +:+ " * "
             +:+ matrix +:+ "0)." +:+ swizzle +:+ c_str ";\n"))
  /\ result (skin_env w p n M IM)
       (skinning_text mix 0 "vec4" "tPosition" "position" "modelViewMat" "xyzw")
       "tPosition"
     = Some (VVec (bone_position p M 0))
  /\ result (skin_env w p n M IM)
       (skinning_text mix 0 "vec3" "tNormal" "vec4(normal, 0.0)" "invModelViewMat" "xyz")
       "tNormal"
     = Some (VVec (bone_normal n IM 0))
  /\ mentions "weight"
       (skinning_text mix 0 "vec4" "tPosition" "position" "modelViewMat" "xyzw")
     = false.
Proof.
  split.
  - intros str type output input matrix swizzle.
    unfold append_skinning_code. cbn [Nat.eqb].
    rewrite mstring_append_fmt_format. reflexivity.
  - destruct H as [ndec nadd nsub nmul ndiv nneg nabs nexp2 nmin nmax ninf].
    destruct mix; vm_compute; repeat split; reflexivity.
Qed.

Lemma bone_position_ext (p : nat -> R) (M : nat -> nat -> nat -> R) (i : nat) :
  (forall c r, M i c r = M 0%nat c r) -> bone_position p M i = bone_position p M 0.
Proof.
  intros HM. unfold bone_position, mat4_of, vec4_of. cbn [map].
  now rewrite !HM.
Qed.

Lemma bone_normal_ext (n : nat -> R) (IM : nat -> nat -> nat -> R) (i : nat) :
  (forall c r, IM i c r = IM 0%nat c r) -> bone_normal n IM i = bone_normal n IM 0.
Proof.
  intros HM. unfold bone_normal, mat4_of, vec4_of. cbn [map].
  now rewrite !HM.
Qed.

(** Over the reals, the weights of the unity-sum mode blend equal vectors
    to the vector itself. *)
Lemma accumulate_equal_vectors (s : Skinning) (count : nat) (w : nat -> R) (T : list R) :
  skinning_mix_count s = (true, count) ->
  (length T <= 4)%nat ->
  accumulate (replicate (length T) 0%R) (replicate count T) (unity_sum_weights count w) = T.
Proof.
  intros Hs HT.
  destruct T as [|a [|b [|c [|d [|e T]]]]]; cbn [length] in HT; try lia;
    destruct s; try discriminate Hs; injection Hs as <-;
    unfold accumulate, unity_sum_weights;
    cbn [replicate length seq Nat.sub map foldr foldl zip zip_with fmap list_fmap
         app fst snd num_add num_mul R_arith];
    repeat (apply (f_equal2 cons); [ring |]); reflexivity.
Qed.

(** X7: the generated last weight makes the weights a partition of unity.
    Over the reals, in each skinning mode with a generated last weight,
    whatever the supplied weights are, bones with equal matrices give the
    position and the normal that the code for skinning off gives with the
    matrix 0. *)
Theorem X7_equal_bones_blend_to_one (s : Skinning) (count : nat)
    (w p n : nat -> R) (M IM : nat -> nat -> nat -> R) :
  skinning_mix_count s = (true, count) ->
  (forall i c r, M i c r = M 0%nat c r) ->
  (forall i c r, IM i c r = IM 0%nat c r) ->
  result (skin_env w p n M IM)
    (skinning_text true count "vec4" "tPosition" "position" "modelViewMat" "xyzw")
    "tPosition"
  = Some (VVec (bone_position p M 0))
  /\ result (skin_env w p n M IM)
       (skinning_text true count "vec3" "tNormal" "vec4(normal, 0.0)" "invModelViewMat" "xyz")
       "tNormal"
     = Some (VVec (bone_normal n IM 0)).
Proof.
  intros Hs HM HIM.
  destruct (skinning_run s count w p n M IM Hs) as [Hp Hn].
  rewrite Hp, Hn, (bone_weights_real s count w Hs).
  assert (Ep : map (bone_position p M) (seq 0 count)
               = replicate count (bone_position p M 0)).
  { destruct s; try discriminate Hs; injection Hs as <-; cbn [seq map replicate];
      rewrite ?(bone_position_ext p M 1), ?(bone_position_ext p M 2),
        ?(bone_position_ext p M 3) by (intros; apply HM); reflexivity. }
  assert (En : map (bone_normal n IM) (seq 0 count)
               = replicate count (bone_normal n IM 0)).
  { destruct s; try discriminate Hs; injection Hs as <-; cbn [seq map replicate];
      rewrite ?(bone_normal_ext n IM 1), ?(bone_normal_ext n IM 2),
        ?(bone_normal_ext n IM 3) by (intros; apply HIM); reflexivity. }
  rewrite Ep, En.
  pose proof (accumulate_equal_vectors s count w (bone_position p M 0) Hs) as Ap.
  pose proof (accumulate_equal_vectors s count w (bone_normal n IM 0) Hs) as An.
  cbn [bone_position bone_normal mat4_of vec4_of vec3_of map length take app] in Ap, An.
  cbn [replicate] in Ap, An |- *. rewrite !zero_literal_real.
  split; do 2 f_equal; [apply Ap | apply An]; lia.
Qed.

(** *** Steps that only append *)

Lemma appends_only_to_header s : appends_only (to_header s).
Proof. intros h b. unfold to_header, mstring_append. now rewrite string_app_empty. Qed.

Lemma appends_only_to_body s : appends_only (to_body s).
Proof. intros h b. unfold to_body, mstring_append. now rewrite string_app_empty. Qed.

Lemma appends_only_to_header_fmt fmt args : appends_only (to_header_fmt fmt args).
Proof.
  intros h b. unfold to_header_fmt. rewrite !mstring_append_fmt_format.
  now rewrite string_app_empty.
Qed.

Lemma appends_only_to_body_fmt fmt args : appends_only (to_body_fmt fmt args).
Proof.
  intros h b. unfold to_body_fmt. rewrite !mstring_append_fmt_format.
  now rewrite string_app_empty.
Qed.

Lemma appends_only_skip : appends_only skip.
Proof. intros h b. unfold skip. now rewrite !string_app_empty. Qed.

Lemma appends_only_assert_step line cond : appends_only (assert_step line cond).
Proof.
  intros h b. unfold assert_step. destruct cond; cbn; [| reflexivity].
  now rewrite !string_app_empty.
Qed.

Lemma appends_only_when c s : appends_only s -> appends_only (when c s).
Proof. destruct c; [trivial | intros _; apply appends_only_skip]. Qed.

Lemma appends_only_if (c : bool) (s1 s2 : step) :
  appends_only s1 -> appends_only s2 -> appends_only (if c then s1 else s2).
Proof. destruct c; trivial. Qed.

Lemma appends_only_block_nil : appends_only (block []).
Proof. apply appends_only_skip. Qed.

Lemma appends_only_block_cons s r :
  appends_only s -> appends_only (block r) -> appends_only (block (s :: r)).
Proof.
  intros Hs Hr h b. cbn [block]. rewrite (Hs h b).
  destruct (s ("", "")) as [[dh db]|site]; cbn [obind]; [| reflexivity].
  unfold MString in *. rewrite (Hr (h +:+ dh) (b +:+ db)), (Hr dh db).
  destruct (block r ("", "")) as [[dh' db']|site]; [| reflexivity].
  now rewrite !string_app_assoc.
Qed.

Lemma appends_only_block l : Forall appends_only l -> appends_only (block l).
Proof.
  induction 1; [apply appends_only_block_nil | now apply appends_only_block_cons].
Qed.

Lemma appends_only_for n f :
  (forall i, (i < n)%nat -> appends_only (f i)) -> appends_only (for_ n f).
Proof.
  intros Hf. apply appends_only_block. apply Forall_forall.
  intros s Hs. apply list_elem_of_In, in_map_iff in Hs.
  destruct Hs as (i & <- & Hi). apply in_seq in Hi. apply Hf. lia.
Qed.

Lemma appends_only_on_body f :
  (forall str, f str = match f "" with
                       | Done d => Done (str +:+ d)
                       | Aborted site => Aborted site
                       end) ->
  appends_only (on_body f).
Proof.
  intros Hf h b. unfold on_body. rewrite (Hf b).
  destruct (f "") as [d|site]; cbn [obind]; [| reflexivity].
  now rewrite string_app_empty.
Qed.

(** [append_skinning_code] only appends, in every skinning mode. *)
Lemma append_skinning_code_frame (s : Skinning) (str : MString)
    (type output input matrix swizzle : string) :
  append_skinning_code str (fst (skinning_mix_count s)) (snd (skinning_mix_count s))
    type output input matrix swizzle
  = match append_skinning_code "" (fst (skinning_mix_count s)) (snd (skinning_mix_count s))
            type output input matrix swizzle with
    | Done d => Done (str +:+ d)
    | Aborted site => Aborted site
    end.
Proof.
  destruct s; cbn [skinning_mix_count fst snd]; try reflexivity.
  - unfold append_skinning_code. cbn [Nat.eqb].
    now rewrite !mstring_append_fmt_format.
  - now rewrite !(append_skinning_code_appends SKINNING_1WEIGHTS).
  - now rewrite !(append_skinning_code_appends SKINNING_2WEIGHTS).
  - now rewrite !(append_skinning_code_appends SKINNING_3WEIGHTS).
Qed.

Ltac appends_only_steps :=
  repeat match goal with
         | |- appends_only (block []) => apply appends_only_block_nil
         | |- appends_only (block (_ :: _)) => apply appends_only_block_cons
         | |- appends_only (to_body _) => apply appends_only_to_body
         | |- appends_only (to_header _) => apply appends_only_to_header
         | |- appends_only (to_body_fmt _ _) => apply appends_only_to_body_fmt
         | |- appends_only (to_header_fmt _ _) => apply appends_only_to_header_fmt
         | |- appends_only skip => apply appends_only_skip
         | |- appends_only (assert_step _ _) => apply appends_only_assert_step
         | |- appends_only (when _ _) => apply appends_only_when
         | |- appends_only (if _ then _ else _) => apply appends_only_if
         | |- appends_only (for_ _ _) => apply appends_only_for; intros
         end.

Lemma appends_only_skinning_code state : appends_only (skinning_code state).
Proof.
  unfold skinning_code.
  pose proof (append_skinning_code_frame (skinning state)) as Hf.
  destruct (skinning_mix_count (skinning state)) as [mix count]. cbn [fst snd] in Hf.
  appends_only_steps; apply appends_only_on_body; intros str; apply Hf.
Qed.

Lemma appends_only_texgen_component state i j : appends_only (texgen_component state i j).
Proof. unfold texgen_component. destruct (texgen state i j); appends_only_steps. Qed.

Lemma appends_only_light_code state i : appends_only (light_code state i).
Proof. unfold light_code. destruct (light state i); appends_only_steps. Qed.

Lemma appends_only_generate_fixed_function state :
  appends_only (generate_fixed_function state).
Proof.
  unfold generate_fixed_function, texgen_code, texture_matrix_code, lighting_code,
    fog_distance_code, point_size_code.
  appends_only_steps;
    first [ apply appends_only_skinning_code
          | apply appends_only_texgen_component
          | apply appends_only_light_code
          | destruct (foggen state); appends_only_steps ].
Qed.

(** X8: [generate_fixed_function] only appends to [header] and [body]:
    the text that it appends to each, and whether and where it aborts, are
    the same whatever the two buffers hold when it is called. *)
Theorem X8_fixed_function_appends_only (state : ShaderState float PshState)
    (header body : MString) :
  generate_fixed_function state (header, body)
  = match generate_fixed_function state ("", "") with
    | Done (dh, db) => Done (header +:+ dh, body +:+ db)
    | Aborted site => Aborted site
    end.
Proof. apply appends_only_generate_fixed_function. Qed.

(** *** The vertex shader as a whole *)

Lemma Done_inj {A} (a b : A) : Done a = Done b -> a = b.
Proof. now intros [= ->]. Qed.

(** The vertex shader is the initial header, what the vertex stage has
    appended to the header, the initial body, what the vertex stage has
    appended to the body, the fog factor code and the code of "Set
    outputs". *)
Lemma generate_vertex_shader_of_stage state vtx_prefix :
  appends_only (vertex_stage state) ->
  generate_vertex_shader state vtx_prefix
  = match vertex_stage state ("", "") with
    | Done (dh, db) =>
        Done (fst (vertex_shader_start state vtx_prefix) +:+ dh
              +:+ snd (vertex_shader_start state vtx_prefix) +:+ db
              +:+ fog_factor_text state +:+ set_outputs)
    | Aborted site => Aborted site
    end.
Proof.
  intros Hstage. unfold generate_vertex_shader. cbn [block].
  destruct (vertex_shader_start state vtx_prefix) as [h0 b0]. cbn [fst snd].
  unfold MString in *. rewrite (Hstage h0 b0).
  destruct (vertex_stage state ("", "")) as [[dh db]|site]; cbn [obind]; [| reflexivity].
  rewrite fog_factor_stage_appends. cbn [obind to_body skip mstring_append mstring_get_str].
  now rewrite !string_app_assoc.
Qed.

(** X9: how [generate_vertex_shader] chooses and combines.  A state with
    [fixed_function] set gets the fixed-function code, whatever
    [vertex_program] says: an abort of [generate_fixed_function] is an
    abort of [generate_vertex_shader], and a text that is returned is the
    initial header, the header text of [generate_fixed_function], the
    initial body, its body text, the fog factor code and the code of "Set
    outputs", in this order.  A state with only [vertex_program] set
    aborts where the translator aborts, and a text that is returned is the
    header and the body as the translator leaves them, followed by the fog
    factor code and the code of "Set outputs".  A state with neither flag
    set aborts on the assertion of line 771. *)
Theorem X9_vertex_shader_layout (state : ShaderState float PshState) (vtx_prefix : ascii) :
  (fixed_function state = true ->
   (forall site,
      generate_fixed_function state ("", "") = Aborted site ->
      generate_vertex_shader state vtx_prefix = Aborted site)
   /\ (forall text,
         generate_vertex_shader state vtx_prefix = Done text ->
         exists dh db,
           generate_fixed_function state ("", "") = Done (dh, db)
           /\ text = fst (vertex_shader_start state vtx_prefix) +:+ dh
                     +:+ snd (vertex_shader_start state vtx_prefix) +:+ db
                     +:+ fog_factor_text state +:+ set_outputs))
  /\ (fixed_function state = false -> vertex_program state = true ->
      (forall site,
         vsh_translate (program_data state) (program_length state) (z_perspective state)
           (vertex_shader_start state vtx_prefix) = Aborted site ->
         generate_vertex_shader state vtx_prefix = Aborted site)
      /\ (forall text,
            generate_vertex_shader state vtx_prefix = Done text ->
            exists header body,
              vsh_translate (program_data state) (program_length state)
                (z_perspective state) (vertex_shader_start state vtx_prefix)
              = Done (header, body)
              /\ text = header +:+ body +:+ fog_factor_text state +:+ set_outputs))
  /\ (fixed_function state = false -> vertex_program state = false ->
      generate_vertex_shader state vtx_prefix = Aborted (AssertFailed 771)).
Proof.
  split; [| split].
  - intros Eff.
    assert (Estage : vertex_stage state = generate_fixed_function state)
      by (unfold vertex_stage; now rewrite Eff).
    rewrite generate_vertex_shader_of_stage; rewrite Estage;
      [| apply appends_only_generate_fixed_function].
    destruct (generate_fixed_function state ("", "")) as [[dh db]|site0].
    + split; [intros site [=] |].
      intros text Htext. apply Done_inj in Htext. subst text.
      exists dh, db. now split.
    + split; [now intros site [= <-] | intros text [=]].
  - intros Eff Evp. unfold generate_vertex_shader, vertex_stage.
    rewrite Eff, Evp. cbn [block].
    destruct (vsh_translate _ _ _ _) as [[h b]|site0]; cbn [obind].
    + rewrite fog_factor_stage_appends.
      cbn [obind to_body skip mstring_append mstring_get_str].
      split; [intros site [=] |].
      intros text Htext. apply Done_inj in Htext. subst text.
      exists h, b. split; [reflexivity |]. now rewrite !string_app_assoc.
    + split; [now intros site [= <-] | intros text [=]].
  - intros Eff Evp. unfold generate_vertex_shader, vertex_stage.
    rewrite Eff, Evp. reflexivity.
Qed.

(** *** Where the fixed-function generator aborts *)

Lemma outcome_block_cons s r o1 o2 :
  outcome_is s o1 -> outcome_is (block r) o2 -> outcome_is (block (s :: r)) (or_else o1 o2).
Proof.
  destruct o1 as [site|]; cbn [or_else outcome_is].
  - intros Hs _ hb. cbn [block]. now rewrite Hs.
  - intros Hs Hr. destruct o2 as [site|]; cbn [outcome_is] in *.
    + intros hb. cbn [block]. destruct (Hs hb) as [hb1 E]. rewrite E. apply Hr.
    + now apply succeeds_block_cons.
Qed.

Lemma outcome_block_abort s r site :
  (forall hb, s hb = Aborted site) -> outcome_is (block (s :: r)) (Some site).
Proof. intros Hs hb. cbn [block]. now rewrite Hs. Qed.

Lemma or_else_None_r (o : option abort_site) : or_else o None = o.
Proof. now destruct o. Qed.

Lemma outcome_block_map (l : list nat) (f : nat -> step) (g : nat -> option abort_site) :
  (forall i, In i l -> outcome_is (f i) (g i)) ->
  outcome_is (block (map f l)) (first_abort (map g l)).
Proof.
  induction l as [|a l IH]; intros H.
  - apply succeeds_block_nil.
  - cbn [map first_abort foldr]. apply outcome_block_cons.
    + apply H. now left.
    + apply IH. intros i Hi. apply H. now right.
Qed.

Lemma outcome_for n f g :
  (forall i, (i < n)%nat -> outcome_is (f i) (g i)) ->
  outcome_is (for_ n f) (first_abort (map g (seq 0 n))).
Proof.
  intros H. apply outcome_block_map. intros i Hi. apply in_seq in Hi. apply H. lia.
Qed.

Lemma outcome_texgen_component state i j :
  outcome_is (texgen_component state i j)
    (if texgen_supported (texgen state i j) j then None
     else Some (AssertFailed (texgen_assertion (texgen state i j)))).
Proof.
  unfold texgen_component.
  destruct (texgen state i j); cbn [texgen_supported texgen_assertion outcome_is].
  - block_succeeds.
  - block_succeeds.
  - intros [h b]. reflexivity.
  - destruct (j <? 2)%nat; cbn [outcome_is]; [block_succeeds | intros hb; reflexivity].
  - destruct (j <? 3)%nat; cbn [outcome_is]; [block_succeeds | intros hb; reflexivity].
  - destruct (j <? 3)%nat; cbn [outcome_is]; [block_succeeds | intros hb; reflexivity].
Qed.

Lemma outcome_texgen_row state i :
  outcome_is
    (block [to_body_fmt (c_str "/* Texgen for stage %d */\n") [An i];
            for_ 4 (fun j => texgen_component state i j)])
    (first_abort
       (map (fun j =>
               if texgen_supported (texgen state i j) j then None
               else Some (AssertFailed (texgen_assertion (texgen state i j))))
            (seq 0 4))).
Proof.
  set (row := first_abort _).
  replace row with (or_else None (or_else row None))
    by (cbn [or_else]; apply or_else_None_r).
  apply outcome_block_cons; [apply succeeds_to_body_fmt |].
  apply outcome_block_cons; [| apply succeeds_block_nil].
  subst row. apply outcome_for. intros j _. apply outcome_texgen_component.
Qed.

Lemma outcome_texgen_code state :
  outcome_is (texgen_code state)
    (first_abort
       (map (fun i =>
               first_abort
                 (map (fun j =>
                         if texgen_supported (texgen state i j) j then None
                         else Some (AssertFailed (texgen_assertion (texgen state i j))))
                      (seq 0 4)))
            (seq 0 NV2A_MAX_TEXTURES))).
Proof.
  unfold texgen_code. apply outcome_for. intros i _. apply outcome_texgen_row.
Qed.

Lemma first_refused_texgen_abort state :
  first_abort
    (map (fun i =>
            first_abort
              (map (fun j =>
                      if texgen_supported (texgen state i j) j then None
                      else Some (AssertFailed (texgen_assertion (texgen state i j))))
                   (seq 0 4)))
         (seq 0 NV2A_MAX_TEXTURES))
  = match first_refused_texgen state with
    | Some (i, j) => Some (AssertFailed (texgen_assertion (texgen state i j)))
    | None => None
    end.
Proof.
  unfold first_refused_texgen, first_abort, NV2A_MAX_TEXTURES.
  cbn [seq map list_prod foldr List.find fst snd app].
  do 4 (destruct (texgen_supported (texgen state 0 _) _); cbn [negb or_else];
        [| reflexivity]).
  do 4 (destruct (texgen_supported (texgen state 1 _) _); cbn [negb or_else];
        [| reflexivity]).
  do 4 (destruct (texgen_supported (texgen state 2 _) _); cbn [negb or_else];
        [| reflexivity]).
  do 4 (destruct (texgen_supported (texgen state 3 _) _); cbn [negb or_else];
        [| reflexivity]).
  reflexivity.
Qed.

Lemma outcome_generate_fixed_function state :
  outcome_is (generate_fixed_function state) (fixed_function_abort state).
Proof.
  unfold fixed_function_abort, generate_fixed_function.
  destruct (skinning_supported (skinning state)) eqn:Eskin.
  - rewrite <- first_refused_texgen_abort.
    set (tg := first_abort _).
    replace tg with (or_else None (or_else None (or_else None (or_else tg None))))
      by (cbn [or_else]; apply or_else_None_r).
    apply outcome_block_cons; [apply succeeds_to_header |].
    apply outcome_block_cons; [now apply succeeds_skinning_code |].
    apply outcome_block_cons; [apply succeeds_when, succeeds_to_body |].
    apply outcome_block_cons; [apply outcome_texgen_code |].
    cbn [outcome_is]. block_succeeds.
    + apply succeeds_for. intros i _. block_succeeds.
    + apply succeeds_lighting_code.
    + apply succeeds_fog_distance_code.
    + apply succeeds_point_size_code.
  - apply (outcome_block_cons _ _ None (Some (AssertFailed 276)));
      [apply succeeds_to_header |].
    apply outcome_block_abort.
    unfold skinning_code.
    destruct (skinning state); try discriminate Eskin;
      cbn [skinning_mix_count]; intros [h b]; reflexivity.
Qed.

(** X10: where [generate_fixed_function] aborts.  In a skinning mode with
    independent weights it aborts on the assertion of line 276.  In the
    other skinning modes, if some texgen mode is refused, it aborts on the
    assertion that guards the first such mode, going through the stages in
    order and through S, T, R, Q within a stage: line 433 for object
    linear, 436 for a sphere map on R or Q, 456 for a reflection map on Q,
    466 for a normal map on Q.  The buffers play no part. *)
Theorem X10_fixed_function_abort_site (state : ShaderState float PshState) (hb : bufs)
    (site : abort_site) :
  fixed_function_abort state = Some site ->
  generate_fixed_function state hb = Aborted site.
Proof.
  intros Hsite.
  pose proof (outcome_generate_fixed_function state) as H.
  rewrite Hsite in H. apply H.
Qed.

(** *** The program as a whole *)

Lemma foldl_append_extends (g : MString -> nat -> MString) (l : list nat) (init : MString) :
  (forall s i, exists t, g s i = s +:+ t) ->
  exists post, foldl g init l = init +:+ post.
Proof.
  intros Hg. revert init. induction l as [|a l IH]; intros init.
  - exists "". now rewrite string_app_empty.
  - cbn [foldl]. destruct (Hg init a) as [t ->].
    destruct (IH (init +:+ t)) as [post ->].
    exists (t +:+ post). now rewrite string_app_assoc.
Qed.

(** The initial header declares the output block under the given prefix,
    right after the fixed part. *)
Lemma vertex_shader_start_declares state vtx_prefix :
  exists post,
    fst (vertex_shader_start state vtx_prefix)
    = vertex_shader_header +:+ vertex_output_declaration vtx_prefix +:+ post.
Proof.
  unfold vertex_shader_start. cbv zeta. cbn [fst].
  match goal with
  | |- context [foldl ?g ?init ?l] =>
      destruct (foldl_append_extends g l init) as [post ->]
  end.
  { intros s i. destruct (attr_compressed state i);
      rewrite mstring_append_fmt_format; eexists; reflexivity. }
  exists (c_str "\n" +:+ post +:+ c_str "\n").
  rewrite !mstring_append_fmt_format.
  unfold mstring_append, mstring_from_str, vertex_output_declaration.
  change (format (c_str "noperspective out VertexData %c_vtx;\n") [Ac vtx_prefix])
    with (c_str "noperspective out VertexData " +:+ String vtx_prefix (c_str "_vtx;\n")).
  change (format (c_str "#define vtx %c_vtx\n") [Ac vtx_prefix])
    with ("#define vtx " +:+ String vtx_prefix (c_str "_vtx\n")).
  generalize vertex_shader_header (c_str "noperspective out VertexData ")
    (String vtx_prefix (c_str "_vtx;\n")) (String vtx_prefix (c_str "_vtx\n"))
    (c_str "\n").
  intros V A1 S1 S2 N.
  generalize "#define vtx ". intros A2.
  now rewrite !string_app_assoc.
Qed.

Lemma geometry_shader_text_declares layout_in layout_out body :
  occurs_in geometry_interface_declaration (geometry_shader_text layout_in layout_out body).
Proof.
  unfold geometry_shader_text, mstring_append, mstring_from_str,
    geometry_interface_declaration.
  exists (c_str "#version 330\n" +:+ c_str "\n" +:+ layout_in +:+ layout_out
          +:+ c_str "\n" +:+ STRUCT_VERTEX_DATA).
  exists (c_str "\n"
          +:+ c_str "void emit_vertex(int index) {\n"
          +:+ c_str "  gl_Position = gl_in[index].gl_Position;\n"
          +:+ c_str "  gl_PointSize = gl_in[index].gl_PointSize;\n"
          +:+ c_str "  g_vtx = v_vtx[index];\n"
          +:+ c_str "  EmitVertex();\n"
          +:+ c_str "}\n"
          +:+ c_str "\n"
          +:+ c_str "void main() {\n" +:+ body +:+ c_str "}\n").
  generalize (c_str "#version 330\n") (c_str "\n") (c_str "}\n")
    (c_str "noperspective in VertexData v_vtx[];\n")
    (c_str "noperspective out VertexData g_vtx;\n")
    (c_str "void emit_vertex(int index) {\n")
    (c_str "  gl_Position = gl_in[index].gl_Position;\n")
    (c_str "  gl_PointSize = gl_in[index].gl_PointSize;\n")
    (c_str "  g_vtx = v_vtx[index];\n")
    (c_str "  EmitVertex();\n")
    (c_str "void main() {\n").
  intros. now rewrite !string_app_assoc.
Qed.

(** What has happened when [generate_shaders] returns. *)
Lemma generate_shaders_Done state binding calls :
  generate_shaders state = Done (binding, calls) ->
  exists geometry vertex,
    generate_geometry_shader (polygon_front_mode state) (polygon_back_mode state)
      (primitive_mode state) = Done (gl_primitive_mode binding, geometry)
    /\ generate_vertex_shader state (match geometry with Some _ => "v" | None => "g" end)%char
       = Done vertex
    /\ gl_program binding = {| geometry_source := geometry;
                               vertex_source := vertex;
                               fragment_source := psh_translate (psh state) |}
    /\ (forall code, geometry = Some code -> compile_status GL_GEOMETRY_SHADER code = true)
    /\ compile_status GL_VERTEX_SHADER vertex = true
    /\ compile_status GL_FRAGMENT_SHADER (psh_translate (psh state)) = true
    /\ link_status (gl_program binding) = true
    /\ validate_status (gl_program binding) = true
    /\ calls = set_texture_samplers (gl_program binding).
Proof.
  intros Hgen. unfold generate_shaders, create_gl_shader, mstring_get_str in Hgen.
  destruct (generate_geometry_shader _ _ _) as [[gl geo]|]; [|discriminate Hgen].
  cbn [obind] in Hgen. exists geo.
  destruct geo as [code|].
  - destruct (compile_status GL_GEOMETRY_SHADER code) eqn:Ecg; [|discriminate Hgen].
    cbn [obind] in Hgen.
    destruct (generate_vertex_shader state "v") as [vs|]; [|discriminate Hgen].
    cbn [obind] in Hgen.
    destruct (compile_status GL_VERTEX_SHADER vs) eqn:Ecv; [|discriminate Hgen].
    cbn [obind] in Hgen.
    destruct (compile_status GL_FRAGMENT_SHADER _) eqn:Ecf; [|discriminate Hgen].
    cbn [obind] in Hgen.
    destruct (link_status _) eqn:El; [|discriminate Hgen]. cbn [negb] in Hgen.
    destruct (validate_status _) eqn:Ev; [|discriminate Hgen]. cbn [negb] in Hgen.
    injection Hgen as <- <-. exists vs. cbn [gl_program gl_primitive_mode].
    repeat split; try assumption; try reflexivity.
    intros code' [= <-]. exact Ecg.
  - cbn [obind] in Hgen.
    destruct (generate_vertex_shader state "g") as [vs|]; [|discriminate Hgen].
    cbn [obind] in Hgen.
    destruct (compile_status GL_VERTEX_SHADER vs) eqn:Ecv; [|discriminate Hgen].
    cbn [obind] in Hgen.
    destruct (compile_status GL_FRAGMENT_SHADER _) eqn:Ecf; [|discriminate Hgen].
    cbn [obind] in Hgen.
    destruct (link_status _) eqn:El; [|discriminate Hgen]. cbn [negb] in Hgen.
    destruct (validate_status _) eqn:Ev; [|discriminate Hgen]. cbn [negb] in Hgen.
    injection Hgen as <- <-. exists vs. cbn [gl_program gl_primitive_mode].
    repeat split; try assumption; try reflexivity.
    intros code' [=].
Qed.

(** X11: the stages of a returned program agree on the blocks that pass
    the vertex data on.  When there is a geometry stage, it reads the
    block [v_vtx] and writes the block [g_vtx], and the vertex stage
    declares [v_vtx] as its output; when there is none, the vertex stage
    declares [g_vtx] itself.  This holds for a fixed-function state, and
    for a vertex-program state whose translator only appends. *)
Theorem X11_stage_interface (state : ShaderState float PshState) (binding : ShaderBinding)
    (calls : list (Z * Z)) :
  generate_shaders state = Done (binding, calls) ->
  fixed_function state = true
  \/ appends_only (vsh_translate (program_data state) (program_length state)
                                 (z_perspective state)) ->
  match geometry_source (gl_program binding) with
  | Some geometry =>
      occurs_in geometry_interface_declaration geometry
      /\ occurs_in (vertex_output_declaration "v") (vertex_source (gl_program binding))
  | None =>
      occurs_in (vertex_output_declaration "g") (vertex_source (gl_program binding))
  end.
Proof.
  intros Hgen Hstage.
  destruct (generate_shaders_Done _ _ _ Hgen)
    as (geo & vs & Hgeo & Hvs & -> & _).
  cbn [geometry_source vertex_source].
  assert (Happ : appends_only (vertex_stage state)).
  { unfold vertex_stage. destruct (fixed_function state) eqn:Eff.
    - apply appends_only_generate_fixed_function.
    - destruct Hstage as [Hff | Hvp]; [discriminate Hff |].
      destruct (vertex_program state); [exact Hvp | apply appends_only_assert_step]. }
  assert (Hdecl : forall vtx_prefix text,
             generate_vertex_shader state vtx_prefix = Done text ->
             occurs_in (vertex_output_declaration vtx_prefix) text).
  { intros vtx_prefix text Htext.
    rewrite (generate_vertex_shader_of_stage _ _ Happ) in Htext.
    destruct (vertex_stage state ("", "")) as [[dh db]|]; [| discriminate Htext].
    apply Done_inj in Htext. subst text.
    destruct (vertex_shader_start_declares state vtx_prefix) as [post Hpost].
    generalize dependent (fst (vertex_shader_start state vtx_prefix)).
    intros h0 -> .
    exists vertex_shader_header,
      (post +:+ dh +:+ snd (vertex_shader_start state vtx_prefix) +:+ db
       +:+ fog_factor_text state +:+ set_outputs).
    generalize vertex_shader_header (vertex_output_declaration vtx_prefix)
      (snd (vertex_shader_start state vtx_prefix)) (fog_factor_text state) set_outputs.
    intros. now rewrite !string_app_assoc. }
  destruct geo as [code|]; [split |].
  - unfold generate_geometry_shader in Hgeo.
    destruct (geometry_shader_switch _ _ _) as [[gl [[[li lo] body]|]]|];
      try discriminate Hgeo.
    injection Hgeo as _ <-. apply geometry_shader_text_declares.
  - now apply Hdecl.
  - now apply Hdecl.
Qed.

(** X12: the samplers.  When [generate_shaders] returns, it has called
    [glUniform1i(loc, unit)] exactly for the texture units 0 to 3 whose
    sampler [texSamp] with the number of the unit the driver has found,
    with the location of that sampler; it has set no sampler at a negative
    location.  The names fit the 16 bytes of [samplerName]. *)
Theorem X12_sampler_units (state : ShaderState float PshState) (binding : ShaderBinding)
    (calls : list (Z * Z)) :
  generate_shaders state = Done (binding, calls) ->
  forall loc unit,
    In (loc, unit) calls
    <-> exists i, (i < NV2A_MAX_TEXTURES)%nat
                  /\ unit = Z.of_nat i
                  /\ loc = glGetUniformLocation (gl_program binding)
                             ("texSamp" +:+ fmt_d (Z.of_nat i))
                  /\ 0 <= loc.
Proof.
  intros Hgen loc unit.
  destruct (generate_shaders_Done _ _ _ Hgen)
    as (geo & vs & _ & _ & _ & _ & _ & _ & _ & _ & ->).
  assert (Hname : forall i, (i < NV2A_MAX_TEXTURES)%nat ->
                    snprintf 16 "texSamp%d" [An i] = "texSamp" +:+ fmt_d (Z.of_nat i)).
  { intros i Hi. unfold NV2A_MAX_TEXTURES in Hi.
    do 4 (destruct i as [|i]; [reflexivity |]). lia. }
  unfold set_texture_samplers. rewrite in_flat_map. split.
  - intros (i & Hi & Hin). apply in_seq in Hi. exists i.
    rewrite Hname in Hin by lia.
    destruct (Z.leb_spec 0 (glGetUniformLocation (gl_program binding)
                              ("texSamp" +:+ fmt_d (Z.of_nat i)))) as [Hle | Hlt];
      [| destruct Hin].
    destruct Hin as [[= <- <-] | []].
    repeat split; [lia | exact Hle].
  - intros (i & Hi & -> & -> & Hle). exists i. split; [apply in_seq; lia |].
    rewrite Hname by exact Hi.
    destruct (Z.leb_spec 0 (glGetUniformLocation (gl_program binding)
                              ("texSamp" +:+ fmt_d (Z.of_nat i)))) as [_ | Hlt];
      [now left | lia].
Qed.

(** X13: a binding is returned for a finished program only.  When
    [generate_shaders] returns, every shader of the program has compiled,
    the program has linked and validated, its vertex shader is the text of
    [generate_vertex_shader], its fragment shader is the text of the
    register-combiner translator, its geometry shader, if any, is the text
    of [generate_geometry_shader], and the binding holds the topology that
    [generate_geometry_shader] has stored. *)
Theorem X13_returned_program_is_finished (state : ShaderState float PshState)
    (binding : ShaderBinding) (calls : list (Z * Z)) :
  generate_shaders state = Done (binding, calls) ->
  let program := gl_program binding in
  generate_geometry_shader (polygon_front_mode state) (polygon_back_mode state)
    (primitive_mode state) = Done (gl_primitive_mode binding, geometry_source program)
  /\ generate_vertex_shader state
       (match geometry_source program with Some _ => "v" | None => "g" end)%char
     = Done (vertex_source program)
  /\ fragment_source program = psh_translate (psh state)
  /\ (forall code, geometry_source program = Some code ->
        compile_status GL_GEOMETRY_SHADER code = true)
  /\ compile_status GL_VERTEX_SHADER (vertex_source program) = true
  /\ compile_status GL_FRAGMENT_SHADER (fragment_source program) = true
  /\ link_status program = true
  /\ validate_status program = true.
Proof.
  intros Hgen program.
  destruct (generate_shaders_Done _ _ _ Hgen)
    as (geo & vs & Hgeo & Hvs & Hprog & Hcg & Hcv & Hcf & Hl & Hv & _).
  subst program. rewrite Hprog in *. cbn [geometry_source vertex_source fragment_source].
  repeat split; assumption.
Qed.

(** *** The fog factor, once more *)

(** X14: from the fog factor to the output.  Run one after the other, in
    any arithmetic, the fog factor code and the code of "Set outputs" store
    in [vtx.Fog] the fog factor multiplied by the inverse of W when fog is
    enabled; when fog is disabled they store the literal 1.0 multiplied by
    the inverse of W, whatever the fog mode and the fog distance are. *)
Theorem X14_fog_output (state : ShaderState float PshState) {num : Type} `{Arith num}
    (p0 p1 d : num) (reg : nat -> nat -> num) (inv_w : num) :
  result (fog_env p0 p1 d ++ outputs_env reg inv_w)%list
    ("{" +:+ fog_factor_text state +:+ set_outputs) "vtx.Fog"
  = Some (VNum (num_mul
                  (if fog_enable state
                   then fog_factor_value (fog_mode state) p0 p1
                          (fog_distance_used (fog_mode state) d)
                   else num_dec 10 1)
                  inv_w)).
Proof.
  unfold fog_factor_text.
  destruct H as [ndec nadd nsub nmul ndiv nneg nabs nexp2 nmin nmax ninf].
  destruct (fog_enable state), (vertex_program state), (fog_mode state);
    vm_compute; try destruct (ninf d); reflexivity.
Qed.

(** What the fog factor code computes over the reals. *)
Lemma fog_factor_real (vp : bool) (mode : FogMode) (p0 p1 d : R) :
  result (fog_env p0 p1 d) (fog_factor_text_of true vp mode) "fogFactor"
  = Some (VNum (fog_table mode p0 p1 d)).
Proof.
  destruct (fog_factor_run vp mode p0 p1 d) as (_ & Hf & _).
  rewrite Hf. unfold fog_distance_used.
  cbn [num_isinf R_arith]. rewrite andb_false_r.
  now rewrite fog_factor_value_real.
Qed.

Lemma ln_256 : ln 256 = (8 * ln 2)%R.
Proof.
  replace 256%R with (2 ^ 8)%R by (simpl; lra).
  rewrite ln_pow by lra. simpl. lra.
Qed.

Lemma ln_2_pos : (0 < ln 2)%R.
Proof. pose proof ln_lt_2. lra. Qed.

(** X15: linear fog.  With the parameters that the comment of lines 795
    to 797 gives for a fog that starts at [fog_start] and ends at
    [fog_end], fogParam[1] = -1 / (end - start) and fogParam[0] = 1 - end
    * fogParam[1], the code of the linear mode computes, over the reals,
    (end - d) / (end - start), and the code of the linear-abs mode its
    absolute value. *)
Theorem X15_linear_fog_equation (vp : bool) (fog_start fog_end d : R) :
  fog_end <> fog_start ->
  let p1 := (- 1 / (fog_end - fog_start))%R in
  let p0 := (1 - fog_end * p1)%R in
  result (fog_env p0 p1 d) (fog_factor_text_of true vp FOG_MODE_LINEAR) "fogFactor"
  = Some (VNum ((fog_end - d) / (fog_end - fog_start))%R)
  /\ result (fog_env p0 p1 d) (fog_factor_text_of true vp FOG_MODE_LINEAR_ABS) "fogFactor"
     = Some (VNum (Rabs ((fog_end - d) / (fog_end - fog_start)))).
Proof.
  intros Hne p1 p0. rewrite !fog_factor_real. unfold fog_table. cbn [fog_mode_abs].
  assert (E : (p0 + d * p1 - 1 = (fog_end - d) / (fog_end - fog_start))%R)
    by (subst p0 p1; field; lra).
  now rewrite E.
Qed.

(** X16: exponential fog.  With the parameters that the comment of lines
    817 to 819 gives for a fog of density [density], fogParam[1] =
    -density / (2 * ln 256) and fogParam[0] = 1.5, the code of the modes
    exp and exp-abs computes, over the reals, 1 / e ^ (d * density). *)
Theorem X16_exponential_fog_equation (vp : bool) (density d : R) :
  result (fog_env (15 / 10) (- density / (2 * ln 256)) d)%R
    (fog_factor_text_of true vp FOG_MODE_EXP) "fogFactor"
  = Some (VNum (/ exp (d * density))%R)
  /\ result (fog_env (15 / 10) (- density / (2 * ln 256)) d)%R
       (fog_factor_text_of true vp FOG_MODE_EXP_ABS) "fogFactor"
     = Some (VNum (/ exp (d * density))%R).
Proof.
  rewrite !fog_factor_real. unfold fog_table. cbn [fog_mode_abs].
  pose proof ln_2_pos as Hln.
  assert (E : (15 / 10 + Rpower 2 (d * (- density / (2 * ln 256)) * 16) - 15 / 10
               = / exp (d * density))%R).
  { unfold Rpower. rewrite ln_256, <- exp_Ropp.
    replace (d * (- density / (2 * (8 * ln 2))) * 16 * ln 2)%R with (- (d * density))%R
      by (field; lra).
    lra. }
  rewrite E. split; [reflexivity |].
  rewrite Rabs_pos_eq; [reflexivity |].
  left. apply Rinv_0_lt_compat, exp_pos.
Qed.

(** X17: squared exponential fog.  With the parameters that the comment
    of lines 828 to 830 gives, fogParam[1] = -density / (2 * sqrt (ln
    256)) and fogParam[0] = 1.5, the code of the modes exp2 and exp2-abs
    computes, over the reals, 1 / e ^ ((d * density) ^ 2). *)
Theorem X17_squared_exponential_fog_equation (vp : bool) (density d : R) :
  result (fog_env (15 / 10) (- density / (2 * sqrt (ln 256))) d)%R
    (fog_factor_text_of true vp FOG_MODE_EXP2) "fogFactor"
  = Some (VNum (/ exp ((d * density) ^ 2))%R)
  /\ result (fog_env (15 / 10) (- density / (2 * sqrt (ln 256))) d)%R
       (fog_factor_text_of true vp FOG_MODE_EXP2_ABS) "fogFactor"
     = Some (VNum (/ exp ((d * density) ^ 2))%R).
Proof.
  rewrite !fog_factor_real. unfold fog_table. cbn [fog_mode_abs].
  pose proof ln_2_pos as Hln.
  assert (HL : (0 < ln 256)%R) by (rewrite ln_256; lra).
  pose proof (sqrt_lt_R0 _ HL) as Hs.
  pose proof (sqrt_sqrt (ln 256) ltac:(lra)) as Hss.
  assert (E : (15 / 10 + Rpower 2 (- (d * (- density / (2 * sqrt (ln 256)))) ^ 2 * 32)
               - 15 / 10
               = / exp ((d * density) ^ 2))%R).
  { unfold Rpower. rewrite <- exp_Ropp.
    replace (- (d * (- density / (2 * sqrt (ln 256)))) ^ 2 * 32 * ln 2)%R
      with (- (d * density) ^ 2)%R; [lra |].
    replace ((d * (- density / (2 * sqrt (ln 256)))) ^ 2)%R
      with ((d * density) ^ 2 / (4 * (sqrt (ln 256) * sqrt (ln 256))))%R
      by (field; lra).
    rewrite Hss, ln_256. field. lra. }
  rewrite E. split; [reflexivity |].
  rewrite Rabs_pos_eq; [reflexivity |].
  left. apply Rinv_0_lt_compat, exp_pos.
Qed.

(** *** The fields that are read *)


(** [state.compressed_attrs & (1 << i)] tests bit [i]. *)
Lemma attr_compressed_testbit state i :
  attr_compressed state i = Z.testbit (compressed_attrs state) (Z.of_nat i).
Proof.
  unfold attr_compressed. rewrite Z.shiftl_1_l.
  generalize (compressed_attrs state). intros a.
  assert (Hn : 0 <= Z.of_nat i) by lia. revert Hn. generalize (Z.of_nat i). intros n Hn.
  destruct (Z.testbit a n) eqn:E.
  - apply negb_true_iff, Z.eqb_neq. intros H0.
    assert (Hb : Z.testbit (Z.land a (2 ^ n)) n = true)
      by (rewrite Z.land_spec, E, Z.pow2_bits_true by lia; reflexivity).
    rewrite H0, Z.bits_0 in Hb. discriminate Hb.
  - apply negb_false_iff, Z.eqb_eq. apply Z.bits_inj_0. intros m.
    rewrite Z.land_spec.
    destruct (Z.eq_dec n m) as [<- | Hne]; [now rewrite E |].
    destruct (Z.neg_nonneg_cases m) as [Hm | Hm].
    + rewrite (Z.testbit_neg_r (2 ^ n)) by exact Hm. apply andb_false_r.
    + rewrite Z.pow2_bits_false by congruence. apply andb_false_r.
Qed.





(** *** The uniforms of the lights *)

(** X19: the code of a light declares a per-light uniform exactly if it
    uses it, and both exactly if the type of the light calls for it: the
    half vector and the direction for an infinite light, the position and
    the attenuation for a local light and a spot light, none for a light
    that is off, for which no text at all is generated. *)
Theorem X19_light_uniforms_declared_and_used (state : ShaderState float PshState)
    (i : nat) (family : string) :
  (i < NV2A_MAX_LIGHTS)%nat ->
  family ∈ per_light_uniforms ->
  exists header body,
    light_code state i ("", "") = Done (header, body)
    /\ mentions (family +:+ fmt_d (Z.of_nat i)) header
       = bool_decide (family ∈ light_uniforms (light state i))
    /\ mentions (family +:+ fmt_d (Z.of_nat i)) body
       = bool_decide (family ∈ light_uniforms (light state i))
    /\ (light state i = LIGHT_OFF -> header = "" /\ body = "").
Proof.
  intros Hi Hfam. unfold NV2A_MAX_LIGHTS in Hi. unfold light_code.
  unfold per_light_uniforms in Hfam.
  repeat (apply elem_of_cons in Hfam; destruct Hfam as [-> | Hfam]);
    [ .. | apply elem_of_nil in Hfam; contradiction ];
    destruct (light state i);
    (do 8 (destruct i as [|i];
           [ eexists _, _; split; [reflexivity |];
             split; [vm_compute; reflexivity |];
             split; [vm_compute; reflexivity |];
             intros E; first [discriminate E | split; reflexivity]
           |]); lia).
Qed.

(** *** The names of the indexed uniforms *)

Lemma fmt_d_inj (a b : Z) : fmt_d a = fmt_d b -> a = b.
Proof.
  unfold fmt_d. intros E. apply DecimalZ.to_int_inj.
  assert (Hnn : forall z, Z.to_int z <> Decimal.Pos Decimal.Nil
                          /\ Z.to_int z <> Decimal.Neg Decimal.Nil).
  { intros [|p|p]; cbn; split; try discriminate; intros [= Hp];
      now apply DecimalPos.Unsigned.to_uint_nonnil in Hp. }
  apply (f_equal NilZero.int_of_string) in E.
  rewrite !NilZero.isi in E by apply Hnn. now injection E.
Qed.

Lemma string_app_inj_r (a b s : string) : a +:+ s = b +:+ s -> a = b.
Proof.
  revert b. induction a as [|x a IH]; intros [|y b] E.
  - reflexivity.
  - apply (f_equal String.length) in E.
    change (String y b +:+ s) with (String y (b +:+ s)) in E.
    cbn [String.length] in E. rewrite !string_length_app in E. cbn [String.length] in E. lia.
  - apply (f_equal String.length) in E.
    change (String x a +:+ s) with (String x (a +:+ s)) in E.
    cbn [String.length] in E. rewrite !string_length_app in E. cbn [String.length] in E. lia.
  - change (String x (a +:+ s) = String y (b +:+ s)) in E.
    injection E as -> E. f_equal. now apply IH.
Qed.

Lemma indexed_uniform_name_inj (fmt : string) (i j : nat) :
  fmt ∈ indexed_uniform_formats ->
  format fmt [An i] = format fmt [An j] -> i = j.
Proof.
  intros Hfmt E. unfold indexed_uniform_formats in Hfmt.
  apply Nat2Z.inj, fmt_d_inj.
  repeat (apply elem_of_cons in Hfmt; destruct Hfmt as [-> | Hfmt]);
    [ .. | apply elem_of_nil in Hfmt; contradiction ];
    cbn [format conversion An] in E;
    repeat (injection E as E);
    exact (string_app_inj_r _ _ _ E).
Qed.

Lemma indexed_uniform_name_short (fmt : string) (i : nat) :
  fmt ∈ indexed_uniform_formats -> (i < 1000)%nat ->
  (String.length (format fmt [An i]) <= 63)%nat.
Proof.
  intros Hfmt Hi.
  assert (Hall : forallb (fun fmt =>
                            forallb (fun i => (String.length (format fmt [An i]) <=? 63)%nat)
                                    (seq 0 1000))
                         indexed_uniform_formats = true)
    by (vm_compute; reflexivity).
  rewrite forallb_forall in Hall.
  specialize (Hall fmt (proj1 (list_elem_of_In _ _) Hfmt)).
  rewrite forallb_forall in Hall.
  apply Nat.leb_le, Hall, in_seq. lia.
Qed.

(** X20: the names of the indexed uniforms.  For an index below 1000,
    each name that [generate_shaders] prints into the 64 bytes of [tmp]
    for an entry of an array of the binding is the whole name, not cut
    short by the buffer, and two different entries of an array are looked
    up under different names. *)
Theorem X20_uniform_names_fit_and_differ (fmt : string) (i j : nat) :
  fmt ∈ indexed_uniform_formats -> (i < 1000)%nat -> (j < 1000)%nat ->
  snprintf 64 fmt [An i] = format fmt [An i]
  /\ (snprintf 64 fmt [An i] = snprintf 64 fmt [An j] -> i = j).
Proof.
  intros Hfmt Hi Hj.
  assert (Hfit : forall k, (k < 1000)%nat -> snprintf 64 fmt [An k] = format fmt [An k]).
  { intros k Hk. unfold snprintf, vsnprintf. cbn [fst].
    apply substring_all. cbn [Nat.sub].
    now apply indexed_uniform_name_short. }
  split; [now apply Hfit |].
  rewrite !Hfit by assumption. now apply indexed_uniform_name_inj.
Qed.

(** *** Where [generate_shaders] aborts *)

(** X21: the aborts of [generate_shaders], in the order of its steps and
    on the texts of the state itself.  It aborts where
    [generate_geometry_shader] aborts.  If that returns a program which
    the driver refuses to compile, it aborts with the name of the geometry
    shader, whatever the vertex stage would be.  Otherwise it generates
    the vertex shader, with the prefix [v] if there is a geometry program
    and [g] if there is none, and aborts where [generate_vertex_shader]
    aborts.  If the driver refuses the returned vertex shader, it aborts
    with the name of the vertex shader; if it takes it and refuses the
    text of the register-combiner translator, with the name of the
    fragment shader.  When all these texts have compiled, it aborts if the
    program made of them does not link, and, when that links, if it does
    not validate. *)
Theorem X21_generate_shaders_abort_sites (state : ShaderState float PshState) :
  (forall site,
     generate_geometry_shader (polygon_front_mode state) (polygon_back_mode state)
       (primitive_mode state) = Aborted site ->
     generate_shaders state = Aborted site)
  /\ (forall gl geometry,
        generate_geometry_shader (polygon_front_mode state) (polygon_back_mode state)
          (primitive_mode state) = Done (gl, geometry) ->
        (forall code,
           geometry = Some code -> compile_status GL_GEOMETRY_SHADER code = false ->
           generate_shaders state = Aborted (CompileFailed "geometry shader"))
        /\ ((forall code,
               geometry = Some code -> compile_status GL_GEOMETRY_SHADER code = true) ->
            (forall site,
               generate_vertex_shader state
                 (match geometry with Some _ => "v" | None => "g" end)%char
               = Aborted site ->
               generate_shaders state = Aborted site)
            /\ (forall vertex,
                  generate_vertex_shader state
                    (match geometry with Some _ => "v" | None => "g" end)%char
                  = Done vertex ->
                  let fragment := psh_translate (psh state) in
                  let program := {| geometry_source := geometry;
                                    vertex_source := vertex;
                                    fragment_source := fragment |} in
                  (compile_status GL_VERTEX_SHADER vertex = false ->
                   generate_shaders state = Aborted (CompileFailed "vertex shader"))
                  /\ (compile_status GL_VERTEX_SHADER vertex = true ->
                      compile_status GL_FRAGMENT_SHADER fragment = false ->
                      generate_shaders state = Aborted (CompileFailed "fragment shader"))
                  /\ (compile_status GL_VERTEX_SHADER vertex = true ->
                      compile_status GL_FRAGMENT_SHADER fragment = true ->
                      link_status program = false ->
                      generate_shaders state = Aborted LinkFailed)
                  /\ (compile_status GL_VERTEX_SHADER vertex = true ->
                      compile_status GL_FRAGMENT_SHADER fragment = true ->
                      link_status program = true ->
                      validate_status program = false ->
                      generate_shaders state = Aborted ValidateFailed)))).
Proof.
  unfold generate_shaders, create_gl_shader, mstring_get_str, MString.
  split.
  - intros site ->. reflexivity.
  - intros gl geometry ->. cbn [obind].
    split.
    + intros code -> Ecg. rewrite Ecg. reflexivity.
    + intros Hcg.
      destruct geometry as [code|]; [rewrite (Hcg code eq_refl) |]; cbn [obind];
        (split;
         [ intros site ->; reflexivity
         | intros vertex ->; cbn [obind]; cbv zeta;
           split; [| split; [| split]];
           [ intros ->; reflexivity
           | intros -> ->; reflexivity
           | intros -> ->; cbn [obind]; cbv zeta; intros ->; reflexivity
           | intros -> ->; cbn [obind]; cbv zeta; intros -> ->; reflexivity ] ]).
Qed.

(** *** The vertex attributes *)

Lemma foldl_append_each (t : nat -> string) (g : MString -> nat -> MString)
    (l : list nat) (init : MString) :
  (forall s i, g s i = s +:+ t i) ->
  foldl g init l = init +:+ foldr (fun i r => t i +:+ r) "" l.
Proof.
  intros Hg. revert init. induction l as [|a l IH]; intros init.
  - cbn. now rewrite string_app_empty.
  - cbn [foldl foldr]. rewrite Hg, IH. now rewrite string_app_assoc.
Qed.

Lemma occurs_in_each (t : nat -> string) (l : list nat) (i : nat) :
  In i l -> occurs_in (t i) (foldr (fun i r => t i +:+ r) "" l).
Proof.
  induction l as [|a l IH]; intros Hi; [destruct Hi |].
  destruct Hi as [-> | Hi].
  - exists "". eexists. reflexivity.
  - destruct (IH Hi) as (pre & post & E). cbn [foldr]. rewrite E.
    exists (t a +:+ pre), post. now rewrite string_app_assoc.
Qed.

Lemma occurs_in_after (sub s pre : string) :
  occurs_in sub s -> occurs_in sub (pre +:+ s).
Proof.
  intros (p & q & ->). exists (pre +:+ p), q. now rewrite !string_app_assoc.
Qed.

Lemma occurs_in_before (sub s post : string) :
  occurs_in sub s -> occurs_in sub (s +:+ post).
Proof.
  intros (p & q & ->). exists p, (q +:+ post). now rewrite !string_app_assoc.
Qed.

(** X22: the vertex attributes v0 to v15.  The initial header declares
    each attribute at the location of its number: as the vector itself
    when bit [i] of [compressed_attrs] is clear, and as the integer
    [v<i>_cmp] when the bit is set, in which case the initial body declares
    the vector as the decompressed integer. *)
Theorem X22_attribute_declarations (state : ShaderState float PshState)
    (vtx_prefix : ascii) (i : nat) :
  (i < NV2A_VERTEXSHADER_ATTRIBUTES)%nat ->
  let index := fmt_d (Z.of_nat i) in
  if Z.testbit (compressed_attrs state) (Z.of_nat i) then
    occurs_in ("layout(location = " +:+ index +:+ ") in int v" +:+ index +:+ c_str "_cmp;\n")
      (fst (vertex_shader_start state vtx_prefix))
    /\ occurs_in ("vec4 v" +:+ index +:+ " = decompress_11_11_10(v" +:+ index
                  +:+ c_str "_cmp);\n")
         (snd (vertex_shader_start state vtx_prefix))
  else
    occurs_in ("layout(location = " +:+ index +:+ ") in vec4 v" +:+ index +:+ c_str ";\n")
      (fst (vertex_shader_start state vtx_prefix)).
Proof.
  intros Hi index.
  assert (Hin : In i (seq 0 NV2A_VERTEXSHADER_ATTRIBUTES)) by (apply in_seq; lia).
  rewrite <- attr_compressed_testbit.
  unfold vertex_shader_start. cbv zeta. cbn [fst snd].
  rewrite (foldl_append_each
             (fun i => if attr_compressed state i
                       then format (c_str "layout(location = %d) in int v%d_cmp;\n")
                              [An i; An i]
                       else format (c_str "layout(location = %d) in vec4 v%d;\n")
                              [An i; An i]))
    by (intros s k; destruct (attr_compressed state k);
        apply mstring_append_fmt_format).
  rewrite (foldl_append_each
             (fun i => if attr_compressed state i
                       then format (c_str "vec4 v%d = decompress_11_11_10(v%d_cmp);\n")
                              [An i; An i]
                       else ""))
    by (intros s k; destruct (attr_compressed state k);
        [apply mstring_append_fmt_format | symmetry; apply string_app_empty]).
  pose proof (occurs_in_each
                (fun i => if attr_compressed state i
                          then format (c_str "layout(location = %d) in int v%d_cmp;\n")
                                 [An i; An i]
                          else format (c_str "layout(location = %d) in vec4 v%d;\n")
                                 [An i; An i]) _ i Hin) as Hh.
  pose proof (occurs_in_each
                (fun i => if attr_compressed state i
                          then format (c_str "vec4 v%d = decompress_11_11_10(v%d_cmp);\n")
                                 [An i; An i]
                          else "") _ i Hin) as Hb.
  cbv beta in Hh, Hb. unfold mstring_append, mstring_from_str.
  destruct (attr_compressed state i).
  - split.
    + apply occurs_in_before, occurs_in_after. exact Hh.
    + apply occurs_in_after. exact Hb.
  - apply occurs_in_before, occurs_in_after. exact Hh.
Qed.

(** *** The version directives *)

Lemma vertex_shader_header_version :
  exists rest, vertex_shader_header = c_str "#version 400\n" +:+ rest.
Proof. unfold vertex_shader_header. eexists. reflexivity. Qed.

Lemma geometry_shader_text_version layout_in layout_out body :
  exists rest,
    geometry_shader_text layout_in layout_out body = c_str "#version 330\n" +:+ rest.
Proof.
  unfold geometry_shader_text, mstring_append, mstring_from_str.
  generalize (c_str "#version 330\n") (c_str "\n") (c_str "}\n")
    (c_str "noperspective in VertexData v_vtx[];\n")
    (c_str "noperspective out VertexData g_vtx;\n")
    (c_str "void emit_vertex(int index) {\n")
    (c_str "  gl_Position = gl_in[index].gl_Position;\n")
    (c_str "  gl_PointSize = gl_in[index].gl_PointSize;\n")
    (c_str "  g_vtx = v_vtx[index];\n")
    (c_str "  EmitVertex();\n")
    (c_str "void main() {\n").
  intros. rewrite !string_app_assoc. eexists. reflexivity.
Qed.

(** X23: the version directive comes first.  The vertex shader of a
    returned program starts with [#version 400] and its geometry shader,
    if any, with [#version 330]; nothing is ever put in front of them.
    This holds for a fixed-function state, and for a vertex-program state
    whose translator only appends. *)
Theorem X23_version_directive_first (state : ShaderState float PshState)
    (binding : ShaderBinding) (calls : list (Z * Z)) :
  generate_shaders state = Done (binding, calls) ->
  fixed_function state = true
  \/ appends_only (vsh_translate (program_data state) (program_length state)
                                 (z_perspective state)) ->
  (exists rest, vertex_source (gl_program binding) = c_str "#version 400\n" +:+ rest)
  /\ (forall geometry, geometry_source (gl_program binding) = Some geometry ->
        exists rest, geometry = c_str "#version 330\n" +:+ rest).
Proof.
  intros Hgen Hstage.
  destruct (generate_shaders_Done _ _ _ Hgen)
    as (geo & vs & Hgeo & Hvs & -> & _).
  cbn [geometry_source vertex_source]. split.
  - assert (Happ : appends_only (vertex_stage state)).
    { unfold vertex_stage. destruct (fixed_function state) eqn:Eff.
      - apply appends_only_generate_fixed_function.
      - destruct Hstage as [Hff | Hvp]; [discriminate Hff |].
        destruct (vertex_program state); [exact Hvp | apply appends_only_assert_step]. }
    rewrite (generate_vertex_shader_of_stage _ _ Happ) in Hvs.
    destruct (vertex_stage state ("", "")) as [[dh db]|]; [| discriminate Hvs].
    apply Done_inj in Hvs. subst vs.
    destruct (vertex_shader_start_declares state
                (match geo with Some _ => "v" | None => "g" end)%char) as [post Hpost].
    destruct vertex_shader_header_version as [rest Hrest].
    rewrite Hrest in Hpost. revert Hpost.
    generalize (fst (vertex_shader_start state
                       (match geo with Some _ => "v" | None => "g" end)%char))
      (snd (vertex_shader_start state
              (match geo with Some _ => "v" | None => "g" end)%char))
      (c_str "#version 400\n") (fog_factor_text state) set_outputs
      (vertex_output_declaration (match geo with Some _ => "v" | None => "g" end)%char).
    intros h0 b0 V F S D ->. rewrite !string_app_assoc. eexists. reflexivity.
  - intros geometry ->. unfold generate_geometry_shader in Hgeo.
    destruct (geometry_shader_switch _ _ _) as [[gl [[[li lo] body]|]]|];
      try discriminate Hgeo.
    apply Done_inj in Hgeo. injection Hgeo as _ <-.
    apply geometry_shader_text_version.
Qed.

End Generator.

(** ** The properties on the sample platform *)

Lemma sample_state_in_contract : in_contract Z unit sample_state.
Proof. repeat split; [right; discriminate]. Defined.

Lemma sample_state_supported : fixed_function_supported Z unit sample_state.
Proof.
  split; [reflexivity |]. intros i j Hi Hj.
  unfold sample_state; cbn [texgen].
  destruct (bool_decide (i = 0%nat)); reflexivity.
Defined.

(** [sample_state] is in contract and supported, and is generated. *)
Lemma C2_witness :
  in_contract Z unit sample_state
  /\ exists gl geometry vertex,
       generate_geometry_shader sample_struct
         (polygon_front_mode sample_state) (polygon_back_mode sample_state)
         (primitive_mode sample_state) = Done (gl, geometry)
       /\ generate_vertex_shader Z sample_fmt_f sample_struct sample_stringify
            sample_Skinning_value unit sample_vsh_translate sample_state "v"
          = Done vertex.
Proof.
  split; [exact sample_state_in_contract |].
  apply (proj1 (C2_generation_succeeds_amended Z sample_fmt_f sample_struct
                  sample_stringify sample_Skinning_value unit sample_vsh_translate
                  sample_state "v" sample_state_in_contract)).
  - intros _. exact sample_state_supported.
  - intros Hvp. discriminate Hvp.
Defined.

(** C2, as stated, fails: two in-contract states on which the generator
    aborts, at the assertion after the independent-weight skinning code
    (line 276) and at the assertion after the object-linear texgen code
    (line 433). *)
Lemma C2_counterexample :
  (in_contract Z unit sample_state_independent_weights
   /\ generate_vertex_shader Z sample_fmt_f sample_struct sample_stringify
        sample_Skinning_value unit sample_vsh_translate
        sample_state_independent_weights "g"
      = Aborted (AssertFailed 276))
  /\ (in_contract Z unit sample_state_object_linear
      /\ generate_vertex_shader Z sample_fmt_f sample_struct sample_stringify
           sample_Skinning_value unit sample_vsh_translate
           sample_state_object_linear "g"
         = Aborted (AssertFailed 433)).
Proof.
  split; (split; [repeat split; right; discriminate | vm_compute; reflexivity]).
Qed.


(** The skinning code for three bones appends to any text. *)
Lemma C4_witness :
  skinning_mix_count SKINNING_2WEIGHTS = (true, 3%nat)
  /\ append_skinning_code Z sample_fmt_f "" true 3 "vec4" "tPosition" "position"
       "modelViewMat" "xyzw"
     = Done ("" +:+ skinning_text Z sample_fmt_f true 3 "vec4" "tPosition" "position"
                      "modelViewMat" "xyzw").
Proof.
  split; [reflexivity |].
  exact (proj1 (C4_unity_sum_skinning Z sample_fmt_f SKINNING_2WEIGHTS 3
                  (fun _ => 0%R) (fun _ => 0%R) (fun _ => 0%R)
                  (fun _ _ _ => 0%R) (fun _ _ _ => 0%R) eq_refl) "").
Defined.

(** The quad strip at primitive 4: wireframe emits 1,3,2,0. *)
Lemma C5_witness :
  0 <= 4
  /\ geometry_events POLY_MODE_LINE POLY_MODE_LINE PRIM_TYPE_QUAD_STRIP 4
     = Some [Glsl.EmitVertex 1; Glsl.EmitVertex 3; Glsl.EmitVertex 2; Glsl.EmitVertex 0;
             Glsl.EndPrimitive].
Proof.
  split; [lia |].
  exact (proj1 (C5_quad_strip_amended 4 ltac:(lia))).
Defined.

(** C5, as stated, fails in fill mode: the first primitive of a quad
    strip emits the same four vertices as primitive 2, and no vertex in
    front of them. *)
Lemma C5_counterexample : ~ quad_strip_leading_vertex POLY_MODE_FILL.
Proof.
  intros (v & rest & H0 & H2).
  vm_compute in H0. vm_compute in H2.
  injection H2 as <-. discriminate H0.
Qed.

(** A state with different front and back modes aborts on line 81. *)
Lemma C6_witness :
  polygon_front_mode sample_state_two_sided <> polygon_back_mode sample_state_two_sided
  /\ generate_shaders Z sample_fmt_f sample_struct sample_stringify sample_macro_value
       sample_Skinning_value unit sample_vsh_translate sample_psh_translate
       sample_compile_status sample_link_status sample_validate_status
       sample_glGetUniformLocation sample_state_two_sided
     = Aborted (AssertFailed 81).
Proof.
  split; [discriminate |].
  apply (proj1 (C6_front_back_precondition Z sample_fmt_f sample_struct sample_stringify
                  sample_macro_value sample_Skinning_value unit sample_vsh_translate
                  sample_psh_translate sample_compile_status sample_link_status
                  sample_validate_status sample_glGetUniformLocation
                  sample_state_two_sided)).
  discriminate.
Defined.

(** The binding of [sample_state]: the bump matrix entry of stage 1 holds
    the answer of the sample driver, -1. *)
Lemma C7_witness :
  (forall program name, -1 <= sample_glGetUniformLocation program name)
  /\ exists binding calls,
       generate_shaders Z sample_fmt_f sample_struct sample_stringify sample_macro_value
         sample_Skinning_value unit sample_vsh_translate sample_psh_translate
         sample_compile_status sample_link_status sample_validate_status
         sample_glGetUniformLocation sample_state
       = Done (binding, calls)
       /\ bump_mat_loc binding !! 1%nat = Some (-1).
Proof.
  assert (Hdriver : forall program name, -1 <= sample_glGetUniformLocation program name)
    by (intros; unfold sample_glGetUniformLocation; lia).
  split; [exact Hdriver |].
  destruct (generate_shaders Z sample_fmt_f sample_struct sample_stringify
              sample_macro_value sample_Skinning_value unit sample_vsh_translate
              sample_psh_translate sample_compile_status sample_link_status
              sample_validate_status sample_glGetUniformLocation sample_state)
    as [[binding calls]|] eqn:E; [| vm_compute in E; discriminate E].
  exists binding, calls. split; [reflexivity |].
  pose proof (C7_uniform_table_amended Z sample_fmt_f sample_struct sample_stringify
                sample_macro_value sample_Skinning_value unit sample_vsh_translate
                sample_psh_translate sample_compile_status sample_link_status
                sample_validate_status sample_glGetUniformLocation Hdriver
                sample_state binding calls E) as H.
  destruct H as (_ & _ & (_ & Hbump) & _).
  exact (proj1 (Hbump 1%nat ltac:(unfold NV2A_MAX_TEXTURES; lia))).
Defined.

(** C7, as stated, fails: in the binding of [sample_state] the bump
    matrix entry of texture stage 0 holds 0, while the driver answers -1
    for its name. *)
Lemma C7_counterexample :
  match generate_shaders Z sample_fmt_f sample_struct sample_stringify sample_macro_value
          sample_Skinning_value unit sample_vsh_translate sample_psh_translate
          sample_compile_status sample_link_status sample_validate_status
          sample_glGetUniformLocation sample_state
  with
  | Done (binding, _) =>
      bump_mat_loc binding !! 0%nat = Some 0
      /\ sample_glGetUniformLocation (gl_program binding)
           (snprintf Z sample_fmt_f 64 "bumpMat%d" [An Z 0]) = -1
      /\ ~ bump_entries_located Z sample_fmt_f sample_glGetUniformLocation binding
  | Aborted _ => False
  end.
Proof.
  destruct (generate_shaders Z sample_fmt_f sample_struct sample_stringify
              sample_macro_value sample_Skinning_value unit sample_vsh_translate
              sample_psh_translate sample_compile_status sample_link_status
              sample_validate_status sample_glGetUniformLocation sample_state)
    as [[binding calls]|] eqn:E; vm_compute in E; [| discriminate E].
  injection E as <- <-.
  split; [reflexivity |]. split; [reflexivity |].
  intros ((_ & H) & _).
  destruct (H 0%nat ltac:(unfold NV2A_MAX_TEXTURES; lia)) as [E _].
  vm_compute in E. discriminate E.
Qed.

(** The vertex shader of [sample_state] ends with "Set outputs". *)
Lemma C9_witness :
  exists text,
    generate_vertex_shader Z sample_fmt_f sample_struct sample_stringify
      sample_Skinning_value unit sample_vsh_translate sample_state "v"
    = Done text
    /\ exists pre, text = pre +:+ set_outputs.
Proof.
  destruct (generate_vertex_shader Z sample_fmt_f sample_struct sample_stringify
              sample_Skinning_value unit sample_vsh_translate sample_state "v")
    as [text|] eqn:E; [| vm_compute in E; discriminate E].
  exists text. split; [reflexivity |].
  exact (proj1 (C9_colours_clamped_then_scaled Z sample_fmt_f sample_struct
                  sample_stringify sample_Skinning_value unit sample_vsh_translate
                  sample_state "v" text (fun _ _ => 0%R) 0%R E)).
Defined.


(** ** The further properties on the sample platform *)

(** A formatted text of 283 bytes, longer than the scratch buffer, is
    appended whole. *)
Lemma X1_witness :
  plain_format Z "%d:%s%s%s%s" [Ad Z 12; As Z sample_long_text; As Z sample_long_text;
                                As Z sample_long_text; As Z sample_long_text] = true
  /\ String.length
       (mstring_append_va Z sample_fmt_f "ab" "%d:%s%s%s%s"
          [Ad Z 12; As Z sample_long_text; As Z sample_long_text;
           As Z sample_long_text; As Z sample_long_text])
     = 285%nat.
Proof.
  split; [reflexivity |].
  pose proof (proj1 (X1_formatted_append_is_complete Z sample_fmt_f "ab" "%d:%s%s%s%s"
                       [Ad Z 12; As Z sample_long_text; As Z sample_long_text;
                        As Z sample_long_text; As Z sample_long_text]
                       eq_refl eq_refl eq_refl)) as E.
  rewrite E. reflexivity.
Defined.


(** The wireframe quad strip at primitive 0 emits five vertices, the
    number that its layout declares. *)
Lemma X4_witness :
  0 <= 0
  /\ exists events max_vertices,
       Glsl.geometry_output
         (c_str "  if ((gl_PrimitiveIDIn & 1) != 0) { return; }\n"
          +:+ c_str "  if (gl_PrimitiveIDIn == 0) {\n"
          +:+ c_str "    emit_vertex(0);\n"
          +:+ c_str "  }\n"
          +:+ c_str "  emit_vertex(1);\n"
          +:+ c_str "  emit_vertex(3);\n"
          +:+ c_str "  emit_vertex(2);\n"
          +:+ c_str "  emit_vertex(0);\n"
          +:+ c_str "  EndPrimitive();\n") 0 = Some events
       /\ declared_max_vertices (c_str "layout(line_strip, max_vertices = 5) out;\n")
          = Some max_vertices
       /\ Z.of_nat (length (emitted_vertices events)) <= max_vertices.
Proof.
  split; [lia |].
  destruct (X4_geometry_within_declarations POLY_MODE_LINE PRIM_TYPE_QUAD_STRIP
              GL_LINE_STRIP_ADJACENCY _ _ _ 0 ltac:(lia) eq_refl)
    as (events & max_vertices & H1 & H2 & H3 & _).
  exists events, max_vertices. split; [exact H1 | split; [exact H2 | exact H3]].
Defined.

(** The wireframe triangle strip at primitive 3. *)
Lemma X5_witness :
  0 <= 3
  /\ geometry_events POLY_MODE_LINE POLY_MODE_LINE PRIM_TYPE_TRIANGLE_STRIP 3
     = Some [Glsl.EmitVertex 2; Glsl.EmitVertex 1; Glsl.EmitVertex 0; Glsl.EndPrimitive].
Proof.
  split; [lia |].
  exact (proj1 (X5_wireframe_strip_and_fan 3 ltac:(lia))).
Defined.

(** Two bones with the same matrices: the blend is the transform by the
    matrix 0, whatever the weight. *)
Lemma X7_witness :
  skinning_mix_count SKINNING_1WEIGHTS = (true, 2%nat)
  /\ Glsl.result
       (skin_env (fun _ => 3%R) (fun _ => 1%R) (fun _ => 1%R)
          (fun _ c r => if (c =? r)%nat then 2%R else 0%R) (fun _ _ _ => 1%R))
       (skinning_text Z sample_fmt_f true 2 "vec4" "tPosition" "position" "modelViewMat"
          "xyzw")
       "tPosition"
     = Some (Glsl.VVec (bone_position (fun _ => 1%R)
                          (fun _ c r => if (c =? r)%nat then 2%R else 0%R) 0)).
Proof.
  split; [reflexivity |].
  exact (proj1 (X7_equal_bones_blend_to_one Z sample_fmt_f SKINNING_1WEIGHTS 2
                  (fun _ => 3%R) (fun _ => 1%R) (fun _ => 1%R)
                  (fun _ c r => if (c =? r)%nat then 2%R else 0%R) (fun _ _ _ => 1%R)
                  eq_refl (fun _ _ _ => eq_refl) (fun _ _ _ => eq_refl))).
Defined.

(** The vertex shader of [sample_state], a fixed-function state. *)
Lemma X9_witness :
  fixed_function sample_state = true
  /\ exists text dh db,
       generate_vertex_shader Z sample_fmt_f sample_struct sample_stringify
         sample_Skinning_value unit sample_vsh_translate sample_state "v"
       = Done text
       /\ generate_fixed_function Z sample_fmt_f sample_stringify sample_Skinning_value
            unit sample_state ("", "") = Done (dh, db)
       /\ text = fst (vertex_shader_start Z sample_fmt_f sample_struct sample_stringify
                        unit sample_state "v") +:+ dh
                 +:+ snd (vertex_shader_start Z sample_fmt_f sample_struct sample_stringify
                            unit sample_state "v") +:+ db
                 +:+ fog_factor_text Z unit sample_state +:+ set_outputs.
Proof.
  split; [reflexivity |].
  destruct (generate_vertex_shader Z sample_fmt_f sample_struct sample_stringify
              sample_Skinning_value unit sample_vsh_translate sample_state "v")
    as [text|] eqn:E; [| vm_compute in E; discriminate E].
  exists text.
  destruct (proj2 (proj1 (X9_vertex_shader_layout Z sample_fmt_f sample_struct
                            sample_stringify sample_Skinning_value unit
                            sample_vsh_translate sample_state "v") eq_refl) text E)
    as (dh & db & Hgen & Htext).
  exists dh, db. split; [reflexivity | split; [exact Hgen | exact Htext]].
Defined.

(** A state with independent weights aborts on the assertion of line 276,
    a state with object-linear texgen on that of line 433. *)
Lemma X10_witness :
  fixed_function_abort Z unit sample_state_independent_weights = Some (AssertFailed 276)
  /\ generate_fixed_function Z sample_fmt_f sample_stringify sample_Skinning_value unit
       sample_state_independent_weights ("", "") = Aborted (AssertFailed 276).
Proof.
  split; [reflexivity |].
  exact (X10_fixed_function_abort_site Z sample_fmt_f sample_stringify sample_Skinning_value
           unit sample_state_independent_weights ("", "") (AssertFailed 276) eq_refl).
Defined.

(** The program of [sample_state] has a geometry stage; its vertex stage
    declares [v_vtx]. *)
Lemma X11_witness :
  exists binding calls,
    generate_shaders Z sample_fmt_f sample_struct sample_stringify sample_macro_value
      sample_Skinning_value unit sample_vsh_translate sample_psh_translate
      sample_compile_status sample_link_status sample_validate_status
      sample_glGetUniformLocation sample_state
    = Done (binding, calls)
    /\ fixed_function sample_state = true
    /\ match geometry_source (gl_program binding) with
       | Some geometry =>
           occurs_in geometry_interface_declaration geometry
           /\ occurs_in (vertex_output_declaration "v") (vertex_source (gl_program binding))
       | None =>
           occurs_in (vertex_output_declaration "g") (vertex_source (gl_program binding))
       end.
Proof.
  destruct (generate_shaders Z sample_fmt_f sample_struct sample_stringify
              sample_macro_value sample_Skinning_value unit sample_vsh_translate
              sample_psh_translate sample_compile_status sample_link_status
              sample_validate_status sample_glGetUniformLocation sample_state)
    as [[binding calls]|] eqn:E; [| vm_compute in E; discriminate E].
  exists binding, calls. split; [reflexivity |]. split; [reflexivity |].
  exact (X11_stage_interface Z sample_fmt_f sample_struct sample_stringify
           sample_macro_value sample_Skinning_value unit sample_vsh_translate
           sample_psh_translate sample_compile_status sample_link_status
           sample_validate_status sample_glGetUniformLocation sample_state binding calls
           E (or_introl eq_refl)).
Defined.

(** The sampler calls of [sample_state]. *)
Lemma X12_witness :
  exists binding calls,
    generate_shaders Z sample_fmt_f sample_struct sample_stringify sample_macro_value
      sample_Skinning_value unit sample_vsh_translate sample_psh_translate
      sample_compile_status sample_link_status sample_validate_status
      sample_glGetUniformLocation sample_state
    = Done (binding, calls)
    /\ forall loc unit,
         In (loc, unit) calls
         <-> exists i, (i < NV2A_MAX_TEXTURES)%nat
                       /\ unit = Z.of_nat i
                       /\ loc = sample_glGetUniformLocation (gl_program binding)
                                  ("texSamp" +:+ fmt_d (Z.of_nat i))
                       /\ 0 <= loc.
Proof.
  destruct (generate_shaders Z sample_fmt_f sample_struct sample_stringify
              sample_macro_value sample_Skinning_value unit sample_vsh_translate
              sample_psh_translate sample_compile_status sample_link_status
              sample_validate_status sample_glGetUniformLocation sample_state)
    as [[binding calls]|] eqn:E; [| vm_compute in E; discriminate E].
  exists binding, calls. split; [reflexivity |].
  exact (X12_sampler_units Z sample_fmt_f sample_struct sample_stringify
           sample_macro_value sample_Skinning_value unit sample_vsh_translate
           sample_psh_translate sample_compile_status sample_link_status
           sample_validate_status sample_glGetUniformLocation sample_state binding calls E).
Defined.

(** The program of [sample_state] has linked and validated. *)
Lemma X13_witness :
  exists binding calls,
    generate_shaders Z sample_fmt_f sample_struct sample_stringify sample_macro_value
      sample_Skinning_value unit sample_vsh_translate sample_psh_translate
      sample_compile_status sample_link_status sample_validate_status
      sample_glGetUniformLocation sample_state
    = Done (binding, calls)
    /\ sample_link_status (gl_program binding) = true
    /\ sample_validate_status (gl_program binding) = true.
Proof.
  destruct (generate_shaders Z sample_fmt_f sample_struct sample_stringify
              sample_macro_value sample_Skinning_value unit sample_vsh_translate
              sample_psh_translate sample_compile_status sample_link_status
              sample_validate_status sample_glGetUniformLocation sample_state)
    as [[binding calls]|] eqn:E; [| vm_compute in E; discriminate E].
  exists binding, calls. split; [reflexivity |].
  pose proof (X13_returned_program_is_finished Z sample_fmt_f sample_struct
                sample_stringify sample_macro_value sample_Skinning_value unit
                sample_vsh_translate sample_psh_translate sample_compile_status
                sample_link_status sample_validate_status sample_glGetUniformLocation
                sample_state binding calls E) as H.
  cbv zeta in H. destruct H as (_ & _ & _ & _ & _ & _ & Hl & Hv).
  split; [exact Hl | exact Hv].
Defined.

(** Linear fog from 0 to 1 at the distance 1/4. *)
Lemma X15_witness :
  (1 <> 0)%R
  /\ Glsl.result (fog_env (1 - 1 * (- 1 / (1 - 0))) (- 1 / (1 - 0)) (1 / 4))%R
       (fog_factor_text_of true false FOG_MODE_LINEAR) "fogFactor"
     = Some (Glsl.VNum ((1 - 1 / 4) / (1 - 0))%R).
Proof.
  split; [lra |].
  exact (proj1 (X15_linear_fog_equation false 0%R 1%R (1 / 4)%R ltac:(lra))).
Defined.



(** Light 0 of [sample_state], an infinite light, declares and uses its
    direction. *)
Lemma X19_witness :
  (0 < NV2A_MAX_LIGHTS)%nat
  /\ "lightInfiniteDirection" ∈ per_light_uniforms
  /\ exists header body,
       light_code Z sample_fmt_f unit sample_state 0 ("", "") = Done (header, body)
       /\ Glsl.mentions "lightInfiniteDirection0" header = true
       /\ Glsl.mentions "lightInfiniteDirection0" body = true.
Proof.
  assert (Hi : (0 < NV2A_MAX_LIGHTS)%nat) by (unfold NV2A_MAX_LIGHTS; lia).
  assert (Hf : "lightInfiniteDirection" ∈ per_light_uniforms)
    by (unfold per_light_uniforms; repeat constructor).
  split; [exact Hi |]. split; [exact Hf |].
  destruct (X19_light_uniforms_declared_and_used Z sample_fmt_f unit sample_state 0
              "lightInfiniteDirection" Hi Hf)
    as (header & body & E & Hh & Hb & _).
  exists header, body. split; [exact E |]. split; [exact Hh | exact Hb].
Defined.

(** The names of the vertex shader constants 5 and 7. *)
Lemma X20_witness :
  "c[%d]" ∈ indexed_uniform_formats
  /\ (5 < 1000)%nat /\ (7 < 1000)%nat
  /\ snprintf Z sample_fmt_f 64 "c[%d]" [An Z 5] = format Z sample_fmt_f "c[%d]" [An Z 5].
Proof.
  assert (Hf : "c[%d]" ∈ indexed_uniform_formats)
    by (unfold indexed_uniform_formats; repeat constructor).
  split; [exact Hf |]. split; [lia |]. split; [lia |].
  exact (proj1 (X20_uniform_names_fit_and_differ Z sample_fmt_f "c[%d]" 5 7 Hf
                  ltac:(lia) ltac:(lia))).
Defined.

(** With a driver that compiles every shader and links no program, the
    program of [sample_state] does not link. *)
Lemma X21_witness :
  generate_shaders Z sample_fmt_f sample_struct sample_stringify sample_macro_value
    sample_Skinning_value unit sample_vsh_translate sample_psh_translate
    sample_compile_status sample_link_refused sample_validate_status
    sample_glGetUniformLocation sample_state
  = Aborted LinkFailed.
Proof.
  destruct (generate_geometry_shader sample_struct (polygon_front_mode sample_state)
              (polygon_back_mode sample_state) (primitive_mode sample_state))
    as [[gl geometry]|] eqn:Egeo; [| vm_compute in Egeo; discriminate Egeo].
  destruct (generate_vertex_shader Z sample_fmt_f sample_struct sample_stringify
              sample_Skinning_value unit sample_vsh_translate sample_state
              (match geometry with Some _ => "v" | None => "g" end)%char)
    as [vertex|] eqn:Evertex;
    [| destruct geometry; vm_compute in Evertex; discriminate Evertex].
  exact (proj1 (proj2 (proj2
           (proj2 (proj2 (proj2 (X21_generate_shaders_abort_sites Z sample_fmt_f
                                   sample_struct sample_stringify sample_macro_value
                                   sample_Skinning_value unit sample_vsh_translate
                                   sample_psh_translate sample_compile_status
                                   sample_link_refused sample_validate_status
                                   sample_glGetUniformLocation sample_state)
                           gl geometry Egeo)
                    (fun code _ => eq_refl))
              vertex Evertex)))
           eq_refl eq_refl eq_refl).
Defined.

(** Attribute 2 of [sample_state] is compressed. *)
Lemma X22_witness :
  (2 < NV2A_VERTEXSHADER_ATTRIBUTES)%nat
  /\ occurs_in (c_str "layout(location = 2) in int v2_cmp;\n")
       (fst (vertex_shader_start Z sample_fmt_f sample_struct sample_stringify unit
               sample_state "v"))
  /\ occurs_in (c_str "vec4 v2 = decompress_11_11_10(v2_cmp);\n")
       (snd (vertex_shader_start Z sample_fmt_f sample_struct sample_stringify unit
               sample_state "v")).
Proof.
  assert (Hi : (2 < NV2A_VERTEXSHADER_ATTRIBUTES)%nat)
    by (unfold NV2A_VERTEXSHADER_ATTRIBUTES; lia).
  split; [exact Hi |].
  exact (X22_attribute_declarations Z sample_fmt_f sample_struct sample_stringify unit
           sample_state "v" 2 Hi).
Defined.

(** The vertex shader of [sample_state] starts with its version
    directive. *)
Lemma X23_witness :
  exists binding calls,
    generate_shaders Z sample_fmt_f sample_struct sample_stringify sample_macro_value
      sample_Skinning_value unit sample_vsh_translate sample_psh_translate
      sample_compile_status sample_link_status sample_validate_status
      sample_glGetUniformLocation sample_state
    = Done (binding, calls)
    /\ fixed_function sample_state = true
    /\ exists rest, vertex_source (gl_program binding) = c_str "#version 400\n" +:+ rest.
Proof.
  destruct (generate_shaders Z sample_fmt_f sample_struct sample_stringify
              sample_macro_value sample_Skinning_value unit sample_vsh_translate
              sample_psh_translate sample_compile_status sample_link_status
              sample_validate_status sample_glGetUniformLocation sample_state)
    as [[binding calls]|] eqn:E; [| vm_compute in E; discriminate E].
  exists binding, calls. split; [reflexivity |]. split; [reflexivity |].
  exact (proj1 (X23_version_directive_first Z sample_fmt_f sample_struct sample_stringify
                  sample_macro_value sample_Skinning_value unit sample_vsh_translate
                  sample_psh_translate sample_compile_status sample_link_status
                  sample_validate_status sample_glGetUniformLocation sample_state
                  binding calls E (or_introl eq_refl))).
Defined.
